(** * RP2040 production flasher: a shallow embedding and its properties

    The development follows the layout of the repository.  Each module
    embeds the functions of one source file; the statements about them come
    after all the definitions.

    - [Py]            the Python built-ins the modelled code relies on
    - [UF2]           FlashApp/core/uf2_tools.py
    - [SerialHeader]  FlashApp/core/serial_manager.py (generate_serial_header)
    - [Label]         label/label_generator.py
    - [Uploader]      core/firmware_uploader.py
    - [Verification]  core/verification.py
    - [Csv]           core/csv_manager.py
    - [Deploy]        FlashApp/flasher_core.py (deploy_firmware and helpers)
    - [Workflow]      gui/main_window.py (_run_workflow and the message pump)
    - [SerialLedger]  FlashApp/core/serial_manager.py (the serial number file,
                      read row by row as csv.DictReader does, and the
                      board-ID database)
    - [Provisioner]   core/serial_provisioner.py (the response parsers)
    - [Persistence]   utils/persistence.py (the recent-file lists)
    - [Production]    FlashApp/flasher_core.py (production_programming)

    [VerifierMore] adds Verifier.quick_check of core/verification.py;
    [CsvInv], [Banner], [WorkflowSpec] and [LedgerShape] hold the predicates
    the statements are phrased with. *)

From Stdlib Require Import String Ascii List ZArith Lia Bool Arith Floats DecimalString.
From stdpp Require Import gmap strings.
Import ListNotations.

(* stdpp blocks the unfolding of string concatenation under [simpl]; the
   proofs below compute with string literals, so it is enabled again. *)
#[local] Arguments String.append !s1 s2 : simpl nomatch.

#[local] Open Scope string_scope.
#[local] Open Scope nat_scope.
#[local] Open Scope list_scope.

(* ===================================================================== *)
(** * Python built-ins *)
(* ===================================================================== *)

Module Py.

(** A Python [str] is a [string] whose characters stand for the code points
    0..255; the character classes below are the Unicode ones restricted to
    that range. *)

Definition chars (s : string) : list ascii := list_ascii_of_string s.
Definition text (l : list ascii) : string := string_of_list_ascii l.

Definition code (c : ascii) : nat := nat_of_ascii c.

(** [c.isdigit()] *)
Definition isdigit (c : ascii) : bool :=
  let n := code c in
  ((48 <=? n) && (n <=? 57)) || (n =? 178) || (n =? 179) || (n =? 185).

(** [c.isspace()] *)
Definition isspace (c : ascii) : bool :=
  let n := code c in
  ((9 <=? n) && (n <=? 13)) || ((28 <=? n) && (n <=? 32))
  || (n =? 133) || (n =? 160).

(** One character of [s.lower()]. *)
Definition lower_char (c : ascii) : ascii :=
  let n := code c in
  if ((65 <=? n) && (n <=? 90))
     || ((192 <=? n) && (n <=? 222) && negb (n =? 215))
  then ascii_of_nat (n + 32) else c.

(** [c.isdecimal()], the class [\d] of a [str] pattern. *)
Definition isdecimal (c : ascii) : bool :=
  let n := code c in (48 <=? n) && (n <=? 57).

(** The code points [encode('ascii')] and [decode('ascii')] accept. *)
Definition is_ascii (c : ascii) : bool := code c <? 128.

(** Truth value of a [str]: the empty string is false. *)
Definition truthy (s : string) : bool :=
  match s with EmptyString => false | String _ _ => true end.

(** Truth value of an optional [str] ([None] and [''] are both false). *)
Definition truthy_opt (o : option string) : bool :=
  match o with Some s => truthy s | None => false end.

Fixpoint drop_while {A} (p : A -> bool) (l : list A) : list A :=
  match l with
  | [] => []
  | x :: l' => if p x then drop_while p l' else l
  end.

(** [a != b] on two optional strings. *)
Definition differs (a b : option string) : bool :=
  match a, b with
  | Some x, Some y => negb (String.eqb x y)
  | None, None => false
  | _, _ => true
  end.

(** [s.strip()] *)
Definition strip (s : string) : string :=
  text (rev (drop_while isspace (rev (drop_while isspace (chars s))))).

(** [s.lower()] *)
Definition lower (s : string) : string := text (map lower_char (chars s)).

(** [''.join(filter(p, s))] *)
Definition filter_chars (p : ascii -> bool) (s : string) : string :=
  text (List.filter p (chars s)).

(** [s.ljust(width, fill)]: pads on the right. *)
Definition ljust (s : string) (width : nat) (fill : ascii) : string :=
  s ++ text (repeat fill (width - String.length s)).

(** [s.startswith(p)] *)
Definition startswith (s p : string) : bool := String.prefix p s.

(** [sub in s] *)
Fixpoint contains (sub s : string) : bool :=
  String.prefix sub s
  || match s with
     | EmptyString => false
     | String _ s' => contains sub s'
     end.

(** [str(n)] for a non-negative integer. *)
Definition str_of_nat (n : nat) : string := NilEmpty.string_of_uint (Nat.to_uint n).

(** [s.replace(old, new)] for a non-empty [old]: the occurrences are found
    from the left and do not overlap.  [skip] counts the characters of an
    occurrence that are still to be dropped. *)
Fixpoint replace_from (old new : string) (skip : nat) (s : string) : string :=
  match s with
  | EmptyString => EmptyString
  | String c s' =>
      match skip with
      | S k => replace_from old new k s'
      | O =>
          if String.prefix old s
          then new ++ replace_from old new (String.length old - 1) s'
          else String c (replace_from old new 0 s')
      end
  end.

(** With an empty [old], Python puts [new] around every character. *)
Fixpoint replace_empty (new s : string) : string :=
  match s with
  | EmptyString => new
  | String c s' => new ++ String c (replace_empty new s')
  end.

Definition replace (s old new : string) : string :=
  match old with
  | EmptyString => replace_empty new s
  | String _ _ => replace_from old new 0 s
  end.

(** [len(range(start, stop, step))] for a positive [step]. *)
Definition range_len (start stop step : nat) : nat :=
  if start <? stop then (stop - start - 1) / step + 1 else 0.

(** [list(range(start, stop, step))] for a positive [step]. *)
Definition range (start stop step : nat) : list nat :=
  map (fun k => start + k * step) (seq 0 (range_len start stop step)).

(** [data[i:i] = m] on a bytearray or list: [m] is spliced in before
    position [i]; a position past the end appends. *)
Definition insert_slice {A} (i : nat) (m data : list A) : list A :=
  firstn i data ++ m ++ skipn i data.

End Py.

(* ===================================================================== *)
(** * FlashApp/core/uf2_tools.py *)
(* ===================================================================== *)

Module UF2.

Definition bytes := list Byte.byte.

(** The files the tool reads and writes, by path. *)
Abbreviation filesystem := (gmap string (list Byte.byte)).

(** [s.encode('ascii')]; [None] stands for [UnicodeEncodeError]. *)
Fixpoint encode_ascii (s : string) : option bytes :=
  match s with
  | EmptyString => Some []
  | String c s' =>
      if Py.is_ascii c
      then option_map (cons (byte_of_ascii c)) (encode_ascii s')
      else None
  end.

(** [b.decode('ascii')]; [None] stands for [UnicodeDecodeError]. *)
Fixpoint decode_ascii (b : bytes) : option string :=
  match b with
  | [] => Some EmptyString
  | x :: b' =>
      if Py.is_ascii (ascii_of_byte x)
      then option_map (String (ascii_of_byte x)) (decode_ascii b')
      else None
  end.

Record UF2File := mkUF2File {
  uf2_path : string;
  data : option bytes
}.

(** [UF2File(uf2_path)] *)
Definition init (path : string) : UF2File :=
  {| uf2_path := path; data := None |}.

(** [UF2File.read]: a file that cannot be opened gives [False] and leaves
    the object as it was. *)
Definition read (fs : filesystem) (f : UF2File) : bool * UF2File :=
  match fs !! uf2_path f with
  | Some b => (true, {| uf2_path := uf2_path f; data := Some b |})
  | None => (false, f)
  end.

(** [UF2File.write]; [writable p] tells whether [open(p, 'wb')] goes
    through.  When it does not, the exception is caught, the result is
    [None] and no file has changed.  Opening the file truncates it; writing
    [None] then raises, which the method turns into a [None] result too.
    The bytes handed to a file that was opened are taken to reach it. *)
Definition write (writable : string -> bool) (fs : filesystem) (f : UF2File)
    (output_path : option string) : option string * filesystem :=
  let p := if Py.truthy_opt output_path
           then default (uf2_path f) output_path else uf2_path f in
  if writable p
  then
    match data f with
    | Some d => (Some p, <[p := d]> fs)
    | None => (None, <[p := []]> fs)
    end
  else (None, fs).

(** [f"DEVICE_ID:{serial_number}:END"] *)
Definition marker (serial_number : string) : string :=
  "DEVICE_ID:" ++ serial_number ++ ":END".

Definition interval : nat := 10 * 1024.

(** The loop [for i in reversed(insertion_points): self.data[i:i] = m]. *)
Definition insert_markers (m : bytes) (points : list nat) (d : bytes) : bytes :=
  fold_left (fun acc i => Py.insert_slice i m acc) (rev points) d.

(** [UF2File.embed_serial_number] *)
Definition embed_serial_number (fs : filesystem) (f : UF2File)
    (serial_number : string) : bool * UF2File :=
  if negb (Py.truthy serial_number) then (false, f)
  else
    let '(ok, f1) :=
      match data f with
      | Some (_ :: _) => (true, f)
      | _ => read fs f
      end in
    if negb ok then (false, f1)
    else
      match encode_ascii (marker serial_number), data f1 with
      | Some encoded_marker, Some d =>
          let d1 := d ++ encoded_marker in
          let original_size := length d1 - length encoded_marker in
          let insertion_points := Py.range interval original_size interval in
          (true, {| uf2_path := uf2_path f1;
                    data := Some (insert_markers encoded_marker insertion_points d1) |})
      | _, _ => (false, f1)
      end.

(** The buffer the method works on: the one in memory, or the file when
    the one in memory is missing or empty. *)
Definition working_buffer (fs : filesystem) (f : UF2File) : option bytes :=
  match data f with
  | Some (x :: d) => Some (x :: d)
  | _ => fs !! uf2_path f
  end.

(** [modify_uf2_with_serial]: the path handed back, [None] when the image
    could not be written, and the files after. *)
Definition modify_uf2_with_serial (writable : string -> bool) (fs : filesystem)
    (path serial_number : string) : option string * filesystem :=
  if negb (Py.truthy serial_number) then (Some path, fs)
  else
    let '(ok, f1) := read fs (init path) in
    if ok then
      let '(ok2, f2) := embed_serial_number fs f1 serial_number in
      if ok2 then write writable fs f2 None else (Some path, fs)
    else (Some path, fs).

(** ** The pattern [rb'DEVICE_ID:([^:]+):END'] *)

Definition DEVICE_ID_ : bytes :=
  Eval vm_compute in list_byte_of_string "DEVICE_ID:".
Definition _END : bytes := Eval vm_compute in list_byte_of_string ":END".
Definition colon : Byte.byte := Eval vm_compute in byte_of_ascii ":".

(** Drops the literal [lit] from the front of [d], if it is there. *)
Fixpoint strip_literal (lit d : bytes) : option bytes :=
  match lit, d with
  | [], _ => Some d
  | _ :: _, [] => None
  | l :: lit', b :: d' => if Byte.eqb l b then strip_literal lit' d' else None
  end.

(** The longest run of bytes other than [:] at the front, and the rest. *)
Fixpoint span_not_colon (d : bytes) : bytes * bytes :=
  match d with
  | [] => ([], [])
  | b :: d' =>
      if Byte.eqb b colon then ([], d)
      else let '(g, r) := span_not_colon d' in (b :: g, r)
  end.

(** A match of the pattern at the very start of [d]; the result is group 1.
    The greedy [[^:]+] takes the whole run of non-colon bytes: a shorter
    run would be followed by a byte that is not the [:] of [:END], so
    backtracking finds nothing more. *)
Definition match_marker (d : bytes) : option bytes :=
  match strip_literal DEVICE_ID_ d with
  | None => None
  | Some r =>
      let '(g, r') := span_not_colon r in
      match g, strip_literal _END r' with
      | _ :: _, Some _ => Some g
      | _, _ => None
      end
  end.

(** [re.search]: the match at the leftmost start position. *)
Fixpoint re_search_marker (d : bytes) : option bytes :=
  match match_marker d with
  | Some g => Some g
  | None =>
      match d with
      | [] => None
      | _ :: d' => re_search_marker d'
      end
  end.

(** [extract_serial_from_uf2] *)
Definition extract_serial_from_uf2 (fs : filesystem) (path : string)
  : option string :=
  match fs !! path with
  | None => None
  | Some d =>
      match re_search_marker d with
      | Some g => decode_ascii g
      | None => None
      end
  end.

(** The serial numbers that survive the round trip: not empty, pure ASCII
    and free of the [:] the pattern stops at. *)
Definition plain_serial (s : string) : bool :=
  Py.truthy s
  && forallb (fun c => Py.is_ascii c && negb (Ascii.eqb c ":")) (Py.chars s).

(** The number of positions of [d] at which [m] starts. *)
Fixpoint occurrences (m d : bytes) : nat :=
  match strip_literal m d with Some _ => 1 | None => 0 end
  + match d with
    | [] => 0
    | _ :: d' => occurrences m d'
    end.

(** The placement of the markers as the specification words it: one copy
    after each full piece of [interval] bytes that has bytes after it, and
    one at the end.  [n] is the number of inner copies. *)
Fixpoint marked_chunks (m : bytes) (n : nat) (d : bytes) : bytes :=
  match n with
  | 0 => d ++ m
  | S n' => firstn interval d ++ m ++ marked_chunks m n' (skipn interval d)
  end.

End UF2.

(* ===================================================================== *)
(** * FlashApp/core/serial_manager.py: generate_serial_header *)
(* ===================================================================== *)

Module SerialHeader.

(** A text file on disk: its content, or a file that is there but whose
    reading raises. *)
Inductive TextFile :=
| Text (content : string)
| Unreadable.

(** Text files, by path. *)
Abbreviation textfiles := (gmap string TextFile).

Record SerialManager := mkSerialManager {
  script_dir : string;
  project_dir : string;
  serial_number_placeholder : string
}.

(** [SerialManager(script_dir, project_dir)] *)
Definition init (script_dir project_dir : string) : SerialManager :=
  {| script_dir := script_dir;
     project_dir := project_dir;
     serial_number_placeholder := "SERIAL_NUMBER_PLACEHOLDER" |}.

(** [os.path.isabs] and the two-argument [os.path.join], POSIX flavour. *)
Definition isabs (p : string) : bool := Py.startswith p "/".

Definition endswith_slash (p : string) : bool :=
  match rev (Py.chars p) with
  | c :: _ => Ascii.eqb c "/"
  | [] => false
  end.

Definition join (a b : string) : string :=
  if isabs b then b
  else if negb (Py.truthy a) || endswith_slash a then a ++ b
  else a ++ "/" ++ b.

(** The numeric version: [''.join(filter(str.isdigit, firmware_version))],
    padded by [ljust(3, '0')] when shorter than three characters. *)
Definition numeric_version (firmware_version : string) : string :=
  let numeric_version := Py.filter_chars Py.isdigit firmware_version in
  if String.length numeric_version <? 3
  then Py.ljust numeric_version 3 "0"
  else numeric_version.

(** The text written to the header: the three [replace] calls in order. *)
Definition output_content (self : SerialManager)
    (template_content serial_number firmware_version : string) : string :=
  let output_content :=
    Py.replace template_content (serial_number_placeholder self) serial_number in
  let output_content :=
    Py.replace output_content "FIRMWARE_VERSION_PLACEHOLDER" firmware_version in
  Py.replace output_content "NUMERIC_VERSION_PLACEHOLDER"
    (numeric_version firmware_version).

(** [SerialManager.generate_serial_header]: the result and the files after.
    [write_ok] tells whether the header can be opened for writing.  A
    template that cannot be read and a header that cannot be opened both
    raise inside the [try], which gives [False] with no file written.  The
    text handed to a header that was opened is taken to reach it. *)
Definition generate_serial_header (self : SerialManager) (fs : textfiles)
    (template_file output_file serial_number firmware_version : string)
    (write_ok : bool) : bool * textfiles :=
  let template_path :=
    if negb (isabs template_file)
    then join (script_dir self) template_file
    else template_file in
  match fs !! template_path with
  | None => (false, fs)
  | Some template =>
      let project_output_file := join (project_dir self) output_file in
      match template with
      | Unreadable => (false, fs)
      | Text template_content =>
          let output_content :=
            output_content self template_content serial_number
              firmware_version in
          if write_ok
          then (true, <[project_output_file := Text output_content]> fs)
          else (false, fs)
      end
  end.

End SerialHeader.

(* ===================================================================== *)
(** * label/label_generator.py *)
(* ===================================================================== *)

Module Label.

Inductive LabelStatus :=
| SUCCESS | TEMPLATE_NOT_FOUND | RENDER_ERROR | PRINT_ERROR
| PRINTER_NOT_FOUND | LIBRARY_MISSING.

(** A raster file as the code leaves it: its pixel size, and the [dpi]
    argument of the [img.save] of [_resize_image] that wrote it, [None]
    when the file is as [renderPM] drew it.  What the PNG encoder makes of
    that argument is not part of the model. *)
Record Image := mkImage {
  size : Z * Z;
  save_dpi : option (Z * Z)
}.

Record LabelResult := mkLabelResult {
  status : LabelStatus;
  message : string;
  png : option Image
}.

Definition success (r : LabelResult) : bool :=
  match status r with SUCCESS => true | _ => false end.

(** [svg2rlg] followed by [renderPM.drawToFile], with the file handling
    the [try] block does around them: the pixel size of the raster drawn,
    or the text of the exception raised on the way, which is
    [Failed to parse SVG] when [svg2rlg] gives [None]. *)
Inductive Rendering :=
| Drawn (native : Z * Z)
| RenderError (text : string).

(** What the generator finds around it. *)
Record Env := mkEnv {
  SVG_AVAILABLE : bool;
  PIL_AVAILABLE : bool;
  (** the files of the template directory, by name *)
  template_files : gmap string string;
  (** [str(self._template_dir / name)]: the path of a template, as text *)
  template_path : string -> string;
  (** the rendering of an SVG text *)
  render : string -> Rendering;
  (** whether Pillow opens, resizes and saves the raster without raising *)
  pil_ok : bool
}.

(** Settings *)
Definition LABEL_WIDTH_MM : Z := 75.
Definition LABEL_HEIGHT_MM : Z := 50.
Definition LABEL_DPI : Z := 300.
Definition LABEL_TEMPLATE_EU : string := "ENERGIS_rating_label_EU.svg".
Definition LABEL_TEMPLATE_US : string := "ENERGIS_rating_label_US.svg".
Definition LABEL_SERIAL_PLACEHOLDER : string := "SERIAL_NUMBER".

(** [CONFIG.get_label_template] *)
Definition get_label_template (region : string) : string :=
  if String.eqb region "US" then LABEL_TEMPLATE_US else LABEL_TEMPLATE_EU.

(** An [int] operand of a float operation. *)
Definition float_of_int (z : Z) : float := PrimFloat.of_uint63 (Uint63.of_Z z).

(** [int(x)] on a float: truncation towards zero; [None] stands for the
    exception raised on an infinity or a NaN. *)
Definition py_int_of_float (x : float) : option Z :=
  match Prim2SF x with
  | S754_zero _ => Some 0%Z
  | S754_finite s m e =>
      let mag := match e with
                 | Z.neg p => Z.shiftr (Z.pos m) (Z.pos p)
                 | _ => Z.shiftl (Z.pos m) e
                 end in
      Some (if s then Z.opp mag else mag)
  | _ => None
  end.

(** The text of the exception [int(x)] raises. *)
Definition int_error (x : float) : string :=
  match Prim2SF x with
  | S754_nan => "cannot convert float NaN to integer"
  | _ => "cannot convert float infinity to integer"
  end.

(** [mm / 25.4 * dpi] in binary64 arithmetic. *)
#[warnings="-inexact-float"]
Definition pixels_float (mm dpi : Z) : float :=
  (float_of_int mm / 25.4 * float_of_int dpi)%float.

(** [int(mm / 25.4 * dpi)] *)
Definition pixels (mm dpi : Z) : option Z :=
  py_int_of_float (pixels_float mm dpi).

(** [LabelGenerator.check_dependencies] *)
Definition check_dependencies (env : Env) : bool * string :=
  if negb (SVG_AVAILABLE env)
  then (false, "svglib/reportlab not installed. Run: pip install svglib reportlab")
  else if negb (PIL_AVAILABLE env)
  then (false, "Pillow not installed. Run: pip install Pillow")
  else (true, "All label dependencies available").

(** [LabelGenerator._resize_image]: a failure inside Pillow is logged as a
    warning and leaves the file as it was rendered. *)
Definition _resize_image (env : Env) (img : Image) (width height dpi : Z) : Image :=
  if negb (PIL_AVAILABLE env) then img
  else if pil_ok env then
    let img :=
      if negb (Z.eqb (fst (size img)) width && Z.eqb (snd (size img)) height)
      then {| size := (width, height); save_dpi := save_dpi img |}
      else img in
    {| size := size img; save_dpi := Some (dpi, dpi) |}
  else img.

(** [LabelGenerator.generate_label] *)
Definition generate_label (env : Env) (serial_number region : string) : LabelResult :=
  let '(deps_ok, deps_msg) := check_dependencies env in
  if negb deps_ok
  then {| status := LIBRARY_MISSING; message := deps_msg; png := None |}
  else
    let template_name := get_label_template region in
    match template_files env !! template_name with
    | None =>
        {| status := TEMPLATE_NOT_FOUND;
           message := "Template not found: " +:+ template_path env template_name;
           png := None |}
    | Some svg_content =>
        let svg_modified :=
          Py.replace svg_content LABEL_SERIAL_PLACEHOLDER serial_number in
        match render env svg_modified with
        | RenderError e =>
            {| status := RENDER_ERROR;
               message := "Label generation error: " +:+ e;
               png := None |}
        | Drawn native =>
            match pixels LABEL_WIDTH_MM LABEL_DPI,
                  pixels LABEL_HEIGHT_MM LABEL_DPI with
            | Some width_px, Some height_px =>
                let rendered := {| size := native; save_dpi := None |} in
                {| status := SUCCESS;
                   message := "Label generated successfully";
                   png := Some (_resize_image env rendered width_px height_px
                                  LABEL_DPI) |}
            | None, _ =>
                {| status := RENDER_ERROR;
                   message := "Label generation error: "
                              +:+ int_error (pixels_float LABEL_WIDTH_MM LABEL_DPI);
                   png := None |}
            | Some _, None =>
                {| status := RENDER_ERROR;
                   message := "Label generation error: "
                              +:+ int_error (pixels_float LABEL_HEIGHT_MM LABEL_DPI);
                   png := None |}
            end
        end
    end.

End Label.

(* ===================================================================== *)
(** * core/firmware_uploader.py *)
(* ===================================================================== *)

Module Uploader.

Inductive UploadStatus :=
| SUCCESS | FAILED | PICOTOOL_NOT_FOUND | FIRMWARE_NOT_FOUND
| NO_DEVICE | INVALID_FIRMWARE.

Record UploadResult := mkUploadResult {
  status : UploadStatus;
  message : string;
  exit_code : Z;
  stdout : string;
  stderr : string
}.

Definition success (r : UploadResult) : bool :=
  match status r with SUCCESS => true | _ => false end.

(** What [pathlib.Path(p)] answers for a path. *)
Record PathInfo := mkPathInfo {
  exists_ : bool;
  is_file : bool;
  suffix : string;
  name : string;
  st_size : Z
}.

(** How a [subprocess.run] call ends. *)
Inductive RunOutcome :=
| Completed (returncode : Z) (out err : string)
| TimeoutExpired
| Raised (e : string).

Record Env := mkEnv {
  path : string -> PathInfo;
  run : list string -> RunOutcome
}.

(** Settings *)
Definition PICOTOOL_LOAD_ARGS : list string := ["-fx"].
Definition FIRMWARE_EXTENSIONS : list string := [".elf"; ".hex"; ".uf2"].

Definition str_of_Z (z : Z) : string := NilEmpty.string_of_int (Z.to_int z).

(** [FirmwareUploader._picotool_exists] *)
Definition _picotool_exists (env : Env) (picotool_path : string) : bool :=
  exists_ (path env picotool_path) && is_file (path env picotool_path).

(** [FirmwareUploader.verify_firmware] *)
Definition verify_firmware (env : Env) (firmware_path : string) : bool * string :=
  let path := path env firmware_path in
  if negb (exists_ path)
  then (false, "Firmware file not found: " +:+ firmware_path)
  else if negb (is_file path)
  then (false, "Not a file: " +:+ firmware_path)
  else
    let ext := Py.lower (suffix path) in
    if negb (existsb (String.eqb ext) FIRMWARE_EXTENSIONS)
    then (false, "Invalid firmware extension '" +:+ ext +:+ "'. Expected: "
                 +:+ String.concat ", " FIRMWARE_EXTENSIONS)
    else
      let size := st_size path in
      if (size <? 100)%Z
      then (false, "Firmware file too small (" +:+ str_of_Z size +:+ " bytes)")
      else if (size >? 16 * 1024 * 1024)%Z
      then (false, "Firmware file too large (" +:+ str_of_Z size +:+ " bytes)")
      else (true, "Firmware valid: " +:+ name path +:+ " (" +:+ str_of_Z size +:+ " bytes)").

(** The firmware paths that fail validation, in the words of the
    specification: file missing, not a regular file, extension outside the
    accepted set, size below 100 bytes or above 16 MiB. *)
Definition fails_validation (env : Env) (firmware_path : string) : Prop :=
  let info := path env firmware_path in
  exists_ info = false
  \/ is_file info = false
  \/ ~ In (Py.lower (suffix info)) [".elf"; ".hex"; ".uf2"]
  \/ (st_size info < 100)%Z
  \/ (st_size info > 16 * 1024 * 1024)%Z.

(** [FirmwareUploader.upload]: the result, and the commands handed to
    [subprocess.run] on the way. *)
Definition upload (env : Env) (picotool_path firmware_path : string)
  : UploadResult * list (list string) :=
  if negb (_picotool_exists env picotool_path)
  then ({| status := PICOTOOL_NOT_FOUND;
           message := "picotool not found at: " +:+ picotool_path;
           exit_code := 0; stdout := ""; stderr := "" |}, [])
  else
    let '(valid, msg) := verify_firmware env firmware_path in
    if negb valid
    then ({| status := FIRMWARE_NOT_FOUND; message := msg;
             exit_code := 0; stdout := ""; stderr := "" |}, [])
    else
      let cmd := [picotool_path; "load"; firmware_path] ++ PICOTOOL_LOAD_ARGS in
      (match run env cmd with
       | Completed returncode out err =>
           if (returncode =? 0)%Z
           then {| status := SUCCESS; message := "Firmware uploaded successfully";
                   exit_code := returncode; stdout := out; stderr := err |}
           else
             let error_msg := if Py.truthy err then err else out in
             if Py.contains "No accessible RP2040" error_msg
             then {| status := NO_DEVICE;
                     message := "No RP2040 device found in BOOTSEL mode";
                     exit_code := returncode; stdout := out; stderr := err |}
             else {| status := FAILED; message := "Upload failed: " +:+ error_msg;
                     exit_code := returncode; stdout := out; stderr := err |}
       | TimeoutExpired =>
           {| status := FAILED; message := "Firmware upload timed out (60s)";
              exit_code := 0; stdout := ""; stderr := "" |}
       | Raised e =>
           {| status := FAILED; message := "Error during upload: " +:+ e;
              exit_code := 0; stdout := ""; stderr := "" |}
       end, [cmd]).

End Uploader.

(* ===================================================================== *)
(** * core/verification.py *)
(* ===================================================================== *)

Module Verification.

Inductive VerificationStatus := PASSED | FAILED | PARTIAL | ERROR.

Record VerificationCheck := mkCheck {
  name : string;
  expected : string;
  actual : string;
  passed : bool;
  check_message : string
}.

Record VerificationResult := mkResult {
  status : VerificationStatus;
  message : string;
  checks : list VerificationCheck;
  sysinfo : gmap string string;
  netinfo : gmap string string
}.

Definition success (r : VerificationResult) : bool :=
  match status r with PASSED => true | _ => false end.

Definition passed_count (r : VerificationResult) : nat :=
  length (List.filter passed (checks r)).

Definition failed_count (r : VerificationResult) : nat :=
  length (List.filter (fun c => negb (passed c)) (checks r)).

(** [VerificationResult.add_check] *)
Definition add_check (r : VerificationResult)
    (name expected actual message : string) : bool * VerificationResult :=
  let passed :=
    String.eqb (Py.lower (Py.strip expected)) (Py.lower (Py.strip actual)) in
  (passed,
   {| status := status r; message := Verification.message r;
      checks := checks r ++ [ {| name := name; expected := expected;
                                 actual := actual; passed := passed;
                                 check_message := message |} ];
      sysinfo := sysinfo r; netinfo := netinfo r |}).

(** What the provisioner answers to the two queries; [None] on an error. *)
Record Provisioner := mkProvisioner {
  get_system_info : option (gmap string string);
  get_network_info : option (gmap string string)
}.

(** A chain [d.get(k1) or d.get(k2) or ... or ""]: the first value that is
    present and not empty. *)
Fixpoint first_of (d : gmap string string) (keys : list string) : string :=
  match keys with
  | [] => ""
  | k :: keys' =>
      match d !! k with
      | Some v => if Py.truthy v then v else first_of d keys'
      | None => first_of d keys'
      end
  end.

Definition not_found (actual what : string) : string :=
  if Py.truthy actual then "" else what.

Definition _verify_serial_number (r : VerificationResult) (expected : string)
    (sysinfo : gmap string string) : VerificationResult :=
  let actual :=
    first_of sysinfo ["serial_number"; "device_serial"; "sn"; "serial"] in
  (add_check r "Serial Number" expected actual
     (not_found actual "Serial number not found in SYSINFO")).2.

Definition _verify_region (r : VerificationResult) (expected : string)
    (sysinfo : gmap string string) : VerificationResult :=
  let actual := first_of sysinfo ["region"; "region_code"] in
  (add_check r "Region" expected actual
     (not_found actual "Region not found in SYSINFO")).2.

Definition _verify_firmware (r : VerificationResult) (expected : string)
    (sysinfo : gmap string string) : VerificationResult :=
  let actual :=
    first_of sysinfo ["firmware_version"; "fw_version"; "firmware"; "version"] in
  (add_check r "Firmware Version" expected actual
     (not_found actual "Firmware version not found in SYSINFO")).2.

Definition _verify_hardware (r : VerificationResult) (expected : string)
    (sysinfo : gmap string string) : VerificationResult :=
  let actual :=
    first_of sysinfo ["hardware_version"; "hw_version"; "hardware"] in
  (add_check r "Hardware Version" expected actual
     (not_found actual "Hardware version not found in SYSINFO")).2.

Definition with_status (r : VerificationResult) (s : VerificationStatus)
    (m : string) : VerificationResult :=
  {| status := s; message := m; checks := checks r;
     sysinfo := sysinfo r; netinfo := netinfo r |}.

(** Truth value of an optional dict: [None] and [{}] are both false. *)
Definition truthy_dict (o : option (gmap string string)) : bool :=
  match o with
  | Some d => negb (bool_decide (d = ∅))
  | None => false
  end.

(** The last block of [verify], "Determine overall status". *)
Definition overall_status (result : VerificationResult) : VerificationResult :=
  if failed_count result =? 0
  then with_status result PASSED
         ("All " +:+ Py.str_of_nat (passed_count result) +:+ " checks passed")
  else if 0 <? passed_count result
  then with_status result PARTIAL
         (Py.str_of_nat (passed_count result) +:+ " passed, "
          +:+ Py.str_of_nat (failed_count result) +:+ " failed")
  else with_status result FAILED
         ("All " +:+ Py.str_of_nat (failed_count result) +:+ " checks failed").

(** [Verifier.verify] *)
Definition verify (provisioner : Provisioner)
    (serial_number region firmware_version hardware_version : string)
  : VerificationResult :=
  let result := {| status := ERROR; message := ""; checks := [];
                   sysinfo := ∅; netinfo := ∅ |} in
  let sysinfo := get_system_info provisioner in
  if negb (truthy_dict sysinfo)
  then with_status result ERROR "Failed to get SYSINFO from device"
  else
    let sysinfo := default ∅ sysinfo in
    let result := {| status := status result; message := message result;
                     checks := checks result; sysinfo := sysinfo;
                     netinfo := netinfo result |} in
    let netinfo := get_network_info provisioner in
    let result :=
      if truthy_dict netinfo
      then {| status := status result; message := message result;
              checks := checks result; sysinfo := Verification.sysinfo result;
              netinfo := default ∅ netinfo |}
      else result in
    let result := _verify_serial_number result serial_number sysinfo in
    let result := _verify_region result region sysinfo in
    let result := _verify_firmware result firmware_version sysinfo in
    let result := _verify_hardware result hardware_version sysinfo in
    overall_status result.

End Verification.

(* ===================================================================== *)
(** * core/csv_manager.py *)
(* ===================================================================== *)

Module Csv.

(** Settings *)
Definition CSV_COLUMNS : list string :=
  ["serial_number"; "date_programmed"; "firmware_version";
   "hardware_version"; "region_code"; "batch_id"; "notes"].
Definition CSV_REPROGRAM_PREFIX : string := "reprogram_".

(** [col in columns] on a list of names. *)
Definition mem (col : string) (columns : list string) : bool :=
  existsb (String.eqb col) columns.

Record CSVRow := mkCSVRow {
  serial_number : string;
  date_programmed : string;
  firmware_version : string;
  hardware_version : string;
  region_code : string;
  batch_id : string;
  notes : string;
  extra_columns : gmap string string
}.

(** [CSVRow.is_programmed] *)
Definition is_programmed (row : CSVRow) : bool :=
  Py.truthy (Py.strip (date_programmed row)).

(** A date field as the specification describes an unprogrammed row:
    empty, or white space only. *)
Definition blank (s : string) : bool := forallb Py.isspace (Py.chars s).

(** [CSVRow.reprogram_count]: the number of keys of [extra_columns] that
    start with the reprogram prefix. *)
Definition reprogram_count (row : CSVRow) : nat :=
  size (filter (fun kv : string * string =>
                  Py.startswith kv.1 CSV_REPROGRAM_PREFIX = true)
               (extra_columns row)).

(** [CSVRow.to_dict] *)
Definition to_dict (row : CSVRow) (all_columns : list string) : gmap string string :=
  let result : gmap string string :=
    <["notes" := notes row]>
    (<["batch_id" := batch_id row]>
    (<["region_code" := region_code row]>
    (<["hardware_version" := hardware_version row]>
    (<["firmware_version" := firmware_version row]>
    (<["date_programmed" := date_programmed row]>
    (<["serial_number" := serial_number row]> ∅)))))) in
  fold_left (fun result col =>
               match result !! col with
               | Some _ => result
               | None => <[col := default "" (extra_columns row !! col)]> result
               end)
            all_columns result.

(** [CSVRow.from_dict] *)
Definition from_dict (data : gmap string string) : CSVRow :=
  {| serial_number := default "" (data !! "serial_number");
     date_programmed := default "" (data !! "date_programmed");
     firmware_version := default "" (data !! "firmware_version");
     hardware_version := default "" (data !! "hardware_version");
     region_code := default "" (data !! "region_code");
     batch_id := default "" (data !! "batch_id");
     notes := default "" (data !! "notes");
     extra_columns :=
       filter (fun kv : string * string => mem kv.1 CSV_COLUMNS = false) data |}.

(** A CSV file as [csv.DictReader] hands it over: the header, and one dict
    per record.  Every record is taken to have one cell for every header
    field and none to spare, so that no value is [None] and no cell sits
    under the key [None]: the rows of this model hold strings, as
    [CSVRow] declares them.  The files [csv.DictReader] reads with a cell
    missing or to spare are not files of this model. *)
Record CsvFile := mkCsvFile {
  fieldnames : list string;
  records : list (gmap string string)
}.

(** A file on disk: a CSV text, or a file whose reading raises.  A reading
    that raises has handed over nothing yet, when it is the opening of the
    file or the reading of the header that raises ([read = None]), or it
    has handed over the header and the records that stand before the place
    where it raises. *)
Inductive DiskFile :=
| CsvText (f : CsvFile)
| Garbled (read : option CsvFile).

Abbreviation disk := (gmap string DiskFile).

Record CSVManager := mkCSVManager {
  _path : option string;
  _rows : list CSVRow;
  _all_columns : list string;
  _selected_index : option nat;
  _modified : bool
}.

(** [CSVManager()] *)
Definition init : CSVManager :=
  {| _path := None; _rows := []; _all_columns := CSV_COLUMNS;
     _selected_index := None; _modified := false |}.

(** [CSVManager.selected_row] *)
Definition selected_row (self : CSVManager) : option CSVRow :=
  match _selected_index self with
  | Some i => nth_error (_rows self) i
  | None => None
  end.

(** [CSVManager.select_row] *)
Definition select_row (self : CSVManager) (index : Z) : bool * CSVManager :=
  if ((0 <=? index) && (index <? Z.of_nat (length (_rows self))))%Z
  then
    if bool_decide (_selected_index self = Some (Z.to_nat index))
    then (true, self)
    else (true, {| _path := _path self; _rows := _rows self;
                   _all_columns := _all_columns self;
                   _selected_index := Some (Z.to_nat index);
                   _modified := _modified self |})
  else (false, self).

(** The index [enumerate] reaches first with [p row] true, counted from [i]. *)
Fixpoint first_index (p : CSVRow -> bool) (i : nat) (rows : list CSVRow)
  : option nat :=
  match rows with
  | [] => None
  | row :: rows' => if p row then Some i else first_index p (S i) rows'
  end.

(** [CSVManager.select_next_unprogrammed] *)
Definition select_next_unprogrammed (self : CSVManager) : bool * CSVManager :=
  match first_index (fun row => negb (is_programmed row)) 0 (_rows self) with
  | Some i => select_row self (Z.of_nat i)
  | None => (false, self)
  end.

(** [CSVManager.select_by_serial] *)
Definition select_by_serial (self : CSVManager) (serial : string)
  : bool * CSVManager :=
  match first_index (fun row => String.eqb (serial_number row) serial) 0
          (_rows self) with
  | Some i => select_row self (Z.of_nat i)
  | None => (false, self)
  end.

(** The header loop of [load]: every new field name is appended. *)
Definition add_columns (columns names : list string) : list string :=
  fold_left (fun acc col => if mem col acc then acc else acc ++ [col])
            names columns.

(** [CSVManager.load].  The rows and the columns are replaced as the file
    is read, inside the [try]: a reading that raises leaves them as far as
    it got, and the path, the selection and the modified flag as they
    were. *)
Definition load (self : CSVManager) (d : disk) (path : string)
  : bool * CSVManager :=
  match d !! path with
  | None => (false, self)
  | Some file =>
      let cleared := {| _path := _path self; _rows := [];
                        _all_columns := CSV_COLUMNS;
                        _selected_index := _selected_index self;
                        _modified := _modified self |} in
      match file with
      | Garbled None => (false, cleared)
      | Garbled (Some f) =>
          (false, {| _path := _path self;
                     _rows := map from_dict (records f);
                     _all_columns := add_columns CSV_COLUMNS (fieldnames f);
                     _selected_index := _selected_index self;
                     _modified := _modified self |})
      | CsvText f =>
          let loaded := {| _path := Some path;
                           _rows := map from_dict (records f);
                           _all_columns := add_columns CSV_COLUMNS (fieldnames f);
                           _selected_index := None;
                           _modified := false |} in
          (true, (select_next_unprogrammed loaded).2)
      end
  end.

(** [CSVManager._write_csv]; [write_ok] tells whether the file can be
    opened for writing. *)
Definition _write_csv (self : CSVManager) (d : disk) (path : string)
    (write_ok : bool) : bool * CSVManager * disk :=
  if write_ok
  then (true,
        {| _path := _path self; _rows := _rows self;
           _all_columns := _all_columns self;
           _selected_index := _selected_index self; _modified := false |},
        <[path := CsvText {| fieldnames := _all_columns self;
                             records := map (fun row => to_dict row (_all_columns self))
                                            (_rows self) |}]> d)
  else (false, self, d).

(** [CSVManager.save] *)
Definition save (self : CSVManager) (d : disk) (write_ok : bool)
  : bool * CSVManager * disk :=
  match _path self with
  | None => (false, self, d)
  | Some path => _write_csv self d path write_ok
  end.

Definition reprogram_column (count : nat) (what : string) : string :=
  CSV_REPROGRAM_PREFIX +:+ Py.str_of_nat count +:+ what.

(** [CSVManager._handle_reprogram]: the column set and the row after. *)
Definition _handle_reprogram (all_columns : list string) (row : CSVRow)
  : list string * CSVRow :=
  let count := reprogram_count row + 1 in
  let date_col := reprogram_column count "_date" in
  let fw_col := reprogram_column count "_firmware" in
  let reason_col := reprogram_column count "_reason" in
  let all_columns := add_columns all_columns [date_col; fw_col; reason_col] in
  let extra :=
    <[reason_col := "Reprogrammed (" +:+ Py.str_of_nat count +:+ ")"]>
    (<[fw_col := firmware_version row]>
    (<[date_col := date_programmed row]> (extra_columns row))) in
  (all_columns,
   {| serial_number := serial_number row;
      date_programmed := date_programmed row;
      firmware_version := firmware_version row;
      hardware_version := hardware_version row;
      region_code := region_code row;
      batch_id := batch_id row;
      notes := notes row;
      extra_columns := extra |}).

(** [CSVManager.update_selected_row]; [now] is the formatted current time,
    and [None] stands for the [IndexError] of a stale selection. *)
Definition update_selected_row (self : CSVManager)
    (firmware_version hardware_version region_code batch_id notes : string)
    (mark_programmed : bool) (now : string) : option (bool * CSVManager) :=
  match _selected_index self with
  | None => Some (false, self)
  | Some i =>
      match nth_error (_rows self) i with
      | None => None
      | Some row =>
          let '(all_columns, row) :=
            if is_programmed row
            then _handle_reprogram (_all_columns self) row
            else (_all_columns self, row) in
          let row :=
            {| serial_number := serial_number row;
               date_programmed :=
                 if mark_programmed then now else date_programmed row;
               firmware_version := firmware_version;
               hardware_version := hardware_version;
               region_code := region_code;
               batch_id := batch_id;
               notes := notes;
               extra_columns := extra_columns row |} in
          Some (true,
                {| _path := _path self;
                   _rows := <[i := row]> (_rows self);
                   _all_columns := all_columns;
                   _selected_index := Some i;
                   _modified := true |})
      end
  end.

(** [CSVManager.mark_programmed] *)
Definition mark_programmed (self : CSVManager)
    (serial firmware_version notes now : string) : option (bool * CSVManager) :=
  match first_index (fun row => String.eqb (serial_number row) serial) 0
          (_rows self) with
  | Some i =>
      match nth_error (_rows self) i with
      | Some row =>
          update_selected_row
            {| _path := _path self; _rows := _rows self;
               _all_columns := _all_columns self;
               _selected_index := Some i; _modified := _modified self |}
            firmware_version (hardware_version row) (region_code row)
            (batch_id row) notes true now
      | None => None
      end
  | None => Some (false, self)
  end.

End Csv.

(* ===================================================================== *)
(** * FlashApp/flasher_core.py: deploy_firmware and its helpers *)
(* ===================================================================== *)

Module Deploy.

(** ** The two boot-banner patterns *)

(** Drops the literal [lit] from the front of [s], if it is there. *)
Fixpoint strip_literal (lit s : string) : option string :=
  match lit, s with
  | EmptyString, _ => Some s
  | String _ _, EmptyString => None
  | String l lit', String c s' =>
      if Ascii.eqb l c then strip_literal lit' s' else None
  end.

(** [\s*] *)
Fixpoint skip_spaces (s : string) : string :=
  match s with
  | String c s' => if Py.isspace c then skip_spaces s' else s
  | EmptyString => EmptyString
  end.

(** [\d*]: the digits at the front, and the rest. *)
Fixpoint span_digits (s : string) : string * string :=
  match s with
  | String c s' =>
      if Py.isdecimal c
      then let '(d, r) := span_digits s' in (String c d, r)
      else (EmptyString, s)
  | EmptyString => (EmptyString, EmptyString)
  end.

(** [\s*:\s*] *)
Definition colon_between_spaces (s : string) : option string :=
  match skip_spaces s with
  | String c r => if Ascii.eqb c ":" then Some (skip_spaces r) else None
  | EmptyString => None
  end.

(** [r'Device Serial\s*:\s*(SN-\d+)'] at the start of [s]; the result is
    group 1.  Every repetition is followed by a character outside its
    class, so the greedy choice is the only one that can match. *)
Definition match_device_serial (s : string) : option string :=
  match strip_literal "Device Serial" s with
  | None => None
  | Some r =>
      match colon_between_spaces r with
      | None => None
      | Some r =>
          match strip_literal "SN-" r with
          | None => None
          | Some r =>
              match span_digits r with
              | (EmptyString, _) => None
              | (d, _) => Some ("SN-" +:+ d)
              end
          end
      end
  end.

(** [\d+\.] *)
Definition digits_dot (s : string) : option (string * string) :=
  match span_digits s with
  | (EmptyString, _) => None
  | (d, String c r) => if Ascii.eqb c "." then Some (d, r) else None
  | (_, EmptyString) => None
  end.

(** [r'Firmware Ver\s*:\s*(\d+\.\d+\.\d+)'] at the start of [s]. *)
Definition match_firmware_ver (s : string) : option string :=
  match strip_literal "Firmware Ver" s with
  | None => None
  | Some r =>
      match colon_between_spaces r with
      | None => None
      | Some r =>
          match digits_dot r with
          | None => None
          | Some (major, r) =>
              match digits_dot r with
              | None => None
              | Some (minor, r) =>
                  match span_digits r with
                  | (EmptyString, _) => None
                  | (patch, _) => Some (major +:+ "." +:+ minor +:+ "." +:+ patch)
                  end
              end
          end
      end
  end.

(** [re.search(pattern, line).group(1)] for a pattern matched by [at_start]. *)
Fixpoint re_search (at_start : string -> option string) (line : string)
  : option string :=
  match at_start line with
  | Some g => Some g
  | None =>
      match line with
      | EmptyString => None
      | String _ line' => re_search at_start line'
      end
  end.

(** ** The serial side of the host *)

(** One turn of the read loop of [monitor_serial_port]: a line, decoded, or
    an exception of the port. *)
Inductive ReadEvent :=
| Line (raw : string)
| SerialException.

Record Env := mkEnv {
  get_uf2_path : option string;
  get_elf_path : option string;
  path_exists : string -> bool;
  flash_with_picotool : string -> bool;
  (** whether the image under a path can be opened for writing *)
  image_writable : string -> bool;
  (** the ports present when the wait starts, and those found at each poll
      before the timeout *)
  initial_ports : list string;
  port_scans : list (list string);
  (** [list(s)[0]] for a set [s] of port names: a set of strings is
      iterated in the order of the hashes of this run, so any element can
      come first.  [set_first l] is the position, in the list [l] of the
      elements, of the one that does; it is taken modulo the length. *)
  set_first : list string -> nat;
  (** opening a port: [None] when it cannot be opened, else what the read
      loop gets before its timeout *)
  serial_open : string -> option (list ReadEvent)
}.

(** [current_ports - initial_ports], each port once. *)
Definition new_ports (initial current_ports : list string) : list string :=
  remove_dups
    (List.filter (fun p => negb (existsb (String.eqb p) initial)) current_ports).

(** [wait_for_new_serial_port]: the polls run until one shows a port that
    was not there at the start; of the new ports of that poll, the one the
    set yields first is returned. *)
Fixpoint wait_loop (first : list string -> nat) (initial : list string)
    (scans : list (list string)) : option string :=
  match scans with
  | [] => None
  | current_ports :: scans' =>
      match new_ports initial current_ports with
      | port :: ports =>
          Some (nth (first (port :: ports) mod length (port :: ports))
                  (port :: ports) port)
      | [] => wait_loop first initial scans'
      end
  end.

Definition wait_for_new_serial_port (env : Env) : option string :=
  wait_loop (set_first env) (initial_ports env) (port_scans env).

(** The loop of [monitor_serial_port]. *)
Fixpoint monitor_loop (events : list ReadEvent) (target_serial : option string)
    (detected_serial detected_firmware : option string)
  : bool * option string * option string :=
  match events with
  | [] => (false, detected_serial, detected_firmware)
  | SerialException :: _ => (false, detected_serial, detected_firmware)
  | Line raw :: events' =>
      let line := Py.strip raw in
      if Py.truthy line then
        let detected_serial :=
          match re_search match_device_serial line with
          | Some g => Some g
          | None => detected_serial
          end in
        let detected_firmware :=
          match re_search match_firmware_ver line with
          | Some g => Some g
          | None => detected_firmware
          end in
        if Py.truthy_opt detected_serial && Py.truthy_opt detected_firmware
        then
          if Py.truthy_opt target_serial
             && Py.differs detected_serial target_serial
          then (false, detected_serial, detected_firmware)
          else (true, detected_serial, detected_firmware)
        else monitor_loop events' target_serial detected_serial detected_firmware
      else monitor_loop events' target_serial detected_serial detected_firmware
  end.

(** [monitor_serial_port] *)
Definition monitor_serial_port (env : Env) (port_name : string)
    (target_serial : option string) : bool * option string * option string :=
  match serial_open env port_name with
  | None => (false, None, None)
  | Some events => monitor_loop events target_serial None None
  end.

(** ** [deploy_firmware] *)

(** The branch [deploy_firmware] leaves through, named after what it
    prints there. *)
Inductive Outcome :=
| NoUF2File
| FlashedNotVerified
| VerificationComplete
| MismatchAcceptedWithWarning
| MismatchError
| VerificationFailedOrTimedOut
| NoSerialPortAppeared
| PicotoolFailed.

(** The value returned on each branch. *)
Definition returns (o : Outcome) : bool :=
  match o with
  | FlashedNotVerified | VerificationComplete | MismatchAcceptedWithWarning
  | VerificationFailedOrTimedOut | NoSerialPortAppeared => true
  | NoUF2File | MismatchError | PicotoolFailed => false
  end.

(** What follows a successful flash when verification is on; the ELF and
    the UF2 branch of the source hold the same statements. *)
Definition after_flash (env : Env) (serial_number : option string)
    (reprogram : bool) : Outcome :=
  let new_port := wait_for_new_serial_port env in
  if Py.truthy_opt new_port then
    let '(verified, detected_serial, detected_firmware) :=
      monitor_serial_port env (default "" new_port) serial_number in
    if verified then VerificationComplete
    else if Py.truthy_opt detected_serial && Py.truthy_opt serial_number
            && Py.differs detected_serial serial_number
    then if reprogram then MismatchAcceptedWithWarning else MismatchError
    else VerificationFailedOrTimedOut
  else NoSerialPortAppeared.

(** [flash_with_picotool] on what the marking step handed back.  With
    [None] in the command line the call of picotool raises, which
    [flash_with_picotool] turns into [False]. *)
Definition flash_image (env : Env) (uf2_path : option string) : bool :=
  match uf2_path with
  | Some uf2_path => flash_with_picotool env uf2_path
  | None => false
  end.

(** Whether picotool takes one of the two files of the build: the ELF file
    when it is there, else (or after its failure) the UF2 image. *)
Definition flash_succeeded (env : Env) : bool :=
  (Py.truthy_opt (get_elf_path env)
   && path_exists env (default "" (get_elf_path env))
   && flash_with_picotool env (default "" (get_elf_path env)))
  || flash_with_picotool env (default "" (get_uf2_path env)).

(** [deploy_firmware]: the branch taken, and the files after. *)
Definition deploy_firmware (env : Env) (fs : UF2.filesystem) (force : bool)
    (serial_number : option string) (verify reprogram : bool)
  : Outcome * UF2.filesystem :=
  let uf2_path := get_uf2_path env in
  let elf_path := get_elf_path env in
  if negb (Py.truthy_opt uf2_path) then (NoUF2File, fs)
  else
    let '(uf2_path, fs) :=
      if Py.truthy_opt serial_number
      then UF2.modify_uf2_with_serial (image_writable env) fs
             (default "" uf2_path) (default "" serial_number)
      else (uf2_path, fs) in
    let with_uf2 :=
      if flash_image env uf2_path
      then if negb verify then FlashedNotVerified
           else after_flash env serial_number reprogram
      else PicotoolFailed in
    if Py.truthy_opt elf_path && path_exists env (default "" elf_path)
    then
      if flash_with_picotool env (default "" elf_path)
      then (if negb verify then FlashedNotVerified
            else after_flash env serial_number reprogram, fs)
      else (with_uf2, fs)
    else (with_uf2, fs).

(** The path the marking step of [deploy_firmware] hands to the flash of
    the UF2 image: the path of the image, or [None] when the image was
    marked but could not be written. *)
Definition image_after_marking (env : Env) (fs : UF2.filesystem)
    (serial_number : option string) : option string :=
  if Py.truthy_opt serial_number
  then (UF2.modify_uf2_with_serial (image_writable env) fs
          (default "" (get_uf2_path env)) (default "" serial_number)).1
  else get_uf2_path env.

(** Whether one of the two flash attempts of [deploy_firmware] goes
    through: the ELF file when it is there, else (or after its failure) the
    UF2 image that the marking step handed back. *)
Definition flash_went_through (env : Env) (fs : UF2.filesystem)
    (serial_number : option string) : bool :=
  (Py.truthy_opt (get_elf_path env)
   && path_exists env (default "" (get_elf_path env))
   && flash_with_picotool env (default "" (get_elf_path env)))
  || flash_image env (image_after_marking env fs serial_number).

End Deploy.

(* ===================================================================== *)
(** * gui/main_window.py: the workflow and the message pump *)
(* ===================================================================== *)

Module Workflow.

Inductive WorkflowState :=
| IDLE | WAITING_FOR_DEVICE | UPLOADING_FIRMWARE | WAITING_FOR_SERIAL
| PROVISIONING | VERIFYING | GENERATING_LABEL | GENERATING_REPORT
| UPDATING_CSV | COMPLETED | ERROR | STOPPED.

(** The messages the worker thread queues for the GUI thread; the log
    lines, which the pump only appends to the log panel, are left out. *)
Inductive Message :=
| MsgState (state : WorkflowState)
| MsgComplete (success : bool)
| MsgError (message : string).

Inductive ProvisioningStatus :=
| PROV_SUCCESS | PROV_FAILED | PROV_TIMEOUT | PORT_ERROR | COMMAND_ERROR
| VERIFICATION_FAILED.

Record ProvisioningResult := mkProvisioningResult {
  prov_status : ProvisioningStatus;
  prov_message : string
}.

Definition prov_success (r : ProvisioningResult) : bool :=
  match prov_status r with PROV_SUCCESS => true | _ => false end.

Record WorkflowContext := mkContext {
  serial_number : string;
  firmware_version : string;
  hardware_version : string;
  region_code : string;
  batch_id : string;
  notes : string;
  firmware_path : string;
  device_path : string;
  serial_port : string;
  upload_result : option Uploader.UploadResult;
  provisioning_result : option ProvisioningResult;
  verification_result : option Verification.VerificationResult;
  label_result : option Label.LabelResult
}.

(** The fields of [ProcessingReport] the workflow writes. *)
Record ProcessingReport := mkReport {
  steps : list (string * bool);
  firmware_upload_success : bool;
  provisioning_success : bool;
  verification_success : bool;
  label_generated : bool;
  label_printed : bool;
  report_success : bool;
  overall_success : bool;
  error_message : string
}.

(** What the worker thread meets outside itself. *)
Record Env := mkEnv {
  (** [self.stop_requested] as read at the [k]-th check, [k] from 1 *)
  stop_requested : nat -> bool;
  picotool_path : string;
  uploader : Uploader.Env;
  (** [device_detector.wait_for_serial_port] *)
  wait_for_serial_port : option string;
  (** [provisioner.provision], and the port it is on afterwards *)
  provision : ProvisioningResult;
  provisioner_port : option string;
  reboot_and_reconnect_wait_ready : option string;
  (** the device as the verifier queries it *)
  provisioner : Verification.Provisioner;
  label : Label.Env;
  auto_print_label : bool;
  print_label : bool;
  (** [report_gen.generate]: the artefact path, or [None] when it raises *)
  generate_report : option string;
  (** the time stamp of the ledger update, and whether the ledger file
      can be written *)
  now : string;
  write_ok : bool
}.

(** The state the worker thread acts on. *)
Record State := mkState {
  queue : list Message;
  ctx : WorkflowContext;
  report : ProcessingReport;
  csv_manager : Csv.CSVManager;
  files : Csv.disk;
  (** the commands the uploader handed to [subprocess.run] *)
  commands : list (list string)
}.

(** ** A monad for the body of [_run_workflow]: state, early [return],
    and exceptions. *)

Inductive Flow (A : Type) :=
| Continue (a : A) (s : State)
| Return (s : State)
| Raise (e : string) (s : State).
Arguments Continue {A}.
Arguments Return {A}.
Arguments Raise {A}.

Definition M (A : Type) := State -> Flow A.

Definition ret {A} (a : A) : M A := fun s => Continue a s.

Definition bind {A B} (m : M A) (k : A -> M B) : M B :=
  fun s =>
    match m s with
    | Continue a s' => k a s'
    | Return s' => Return s'
    | Raise e s' => Raise e s'
    end.

Notation "'let*' x ':=' m 'in' k" := (bind m (fun x => k))
  (at level 10, x name, m at level 100, k at level 200).
Notation "m >> k" := (bind m (fun _ => k))
  (at level 63, right associativity).

Definition get : M State := fun s => Continue s s.
Definition put (s : State) : M unit := fun _ => Continue tt s.
Definition raise {A} (e : string) : M A := fun s => Raise e s.
Definition return_ {A} : M A := fun s => Return s.

Definition when (b : bool) (m : M unit) : M unit := if b then m else ret tt.

(** [if self.stop_requested: return] *)
Definition check_stop (env : Env) (k : nat) : M unit :=
  when (stop_requested env k) return_.

(** [self._queue_message(msg)] *)
Definition _queue_message (msg : Message) : M unit :=
  let* s := get in
  put {| queue := queue s ++ [msg]; ctx := ctx s; report := report s;
         csv_manager := csv_manager s; files := files s;
         commands := commands s |}.

Definition update_ctx (f : WorkflowContext -> WorkflowContext) : M unit :=
  let* s := get in
  put {| queue := queue s; ctx := f (ctx s); report := report s;
         csv_manager := csv_manager s; files := files s;
         commands := commands s |}.

Definition update_report (f : ProcessingReport -> ProcessingReport) : M unit :=
  let* s := get in
  put {| queue := queue s; ctx := ctx s; report := f (report s);
         csv_manager := csv_manager s; files := files s;
         commands := commands s |}.

Definition set_csv (m : Csv.CSVManager) (d : Csv.disk) : M unit :=
  let* s := get in
  put {| queue := queue s; ctx := ctx s; report := report s;
         csv_manager := m; files := d; commands := commands s |}.

Definition record_commands (cmds : list (list string)) : M unit :=
  let* s := get in
  put {| queue := queue s; ctx := ctx s; report := report s;
         csv_manager := csv_manager s; files := files s;
         commands := commands s ++ cmds |}.

Definition add_step (name : string) (success : bool) (r : ProcessingReport)
  : ProcessingReport :=
  {| steps := steps r ++ [(name, success)];
     firmware_upload_success := firmware_upload_success r;
     provisioning_success := provisioning_success r;
     verification_success := verification_success r;
     label_generated := label_generated r;
     label_printed := label_printed r;
     report_success := report_success r;
     overall_success := overall_success r;
     error_message := error_message r |}.

Definition with_upload (c : WorkflowContext) (r : Uploader.UploadResult) :=
  {| serial_number := serial_number c; firmware_version := firmware_version c;
     hardware_version := hardware_version c; region_code := region_code c;
     batch_id := batch_id c; notes := notes c;
     firmware_path := firmware_path c; device_path := device_path c;
     serial_port := serial_port c;
     upload_result := Some r;
     provisioning_result := provisioning_result c;
     verification_result := verification_result c;
     label_result := label_result c |}.

Definition with_port (c : WorkflowContext) (p : string) :=
  {| serial_number := serial_number c; firmware_version := firmware_version c;
     hardware_version := hardware_version c; region_code := region_code c;
     batch_id := batch_id c; notes := notes c;
     firmware_path := firmware_path c; device_path := device_path c;
     serial_port := p;
     upload_result := upload_result c;
     provisioning_result := provisioning_result c;
     verification_result := verification_result c;
     label_result := label_result c |}.

Definition with_provisioning (c : WorkflowContext) (r : ProvisioningResult) :=
  {| serial_number := serial_number c; firmware_version := firmware_version c;
     hardware_version := hardware_version c; region_code := region_code c;
     batch_id := batch_id c; notes := notes c;
     firmware_path := firmware_path c; device_path := device_path c;
     serial_port := serial_port c;
     upload_result := upload_result c;
     provisioning_result := Some r;
     verification_result := verification_result c;
     label_result := label_result c |}.

Definition with_verification (c : WorkflowContext)
    (r : Verification.VerificationResult) :=
  {| serial_number := serial_number c; firmware_version := firmware_version c;
     hardware_version := hardware_version c; region_code := region_code c;
     batch_id := batch_id c; notes := notes c;
     firmware_path := firmware_path c; device_path := device_path c;
     serial_port := serial_port c;
     upload_result := upload_result c;
     provisioning_result := provisioning_result c;
     verification_result := Some r;
     label_result := label_result c |}.

Definition with_label (c : WorkflowContext) (r : Label.LabelResult) :=
  {| serial_number := serial_number c; firmware_version := firmware_version c;
     hardware_version := hardware_version c; region_code := region_code c;
     batch_id := batch_id c; notes := notes c;
     firmware_path := firmware_path c; device_path := device_path c;
     serial_port := serial_port c;
     upload_result := upload_result c;
     provisioning_result := provisioning_result c;
     verification_result := verification_result c;
     label_result := Some r |}.

Definition set_flags (r : ProcessingReport)
    (upload prov verif gen printed succ overall : bool) (err : string) :=
  {| steps := steps r;
     firmware_upload_success := upload;
     provisioning_success := prov;
     verification_success := verif;
     label_generated := gen;
     label_printed := printed;
     report_success := succ;
     overall_success := overall;
     error_message := err |}.

(** A property of the state that a computation keeps, however it ends. *)
Definition preserves {A} (P : State -> Prop) (m : M A) : Prop :=
  forall s, P s ->
    match m s with
    | Continue _ s' => P s'
    | Return s' => P s'
    | Raise _ s' => P s'
    end.

(** The context keeps the upload result [r]. *)
Definition has_upload (r : Uploader.UploadResult) (s : State) : Prop :=
  upload_result (ctx s) = Some r.

(** ** The seven steps of [_run_workflow] *)

Definition step_upload (env : Env) : M unit :=
  check_stop env 1 >>
  _queue_message (MsgState UPLOADING_FIRMWARE) >>
  let* s := get in
  let '(result, cmds) :=
    Uploader.upload (uploader env) (picotool_path env) (firmware_path (ctx s)) in
  record_commands cmds >>
  update_ctx (fun c => with_upload c result) >>
  update_report (fun r =>
    let r := add_step "Firmware Upload" (Uploader.success result) r in
    set_flags r (Uploader.success result) (provisioning_success r)
      (verification_success r) (label_generated r) (label_printed r)
      (report_success r) (overall_success r) (error_message r)) >>
  when (negb (Uploader.success result))
    (raise ("Firmware upload failed: " +:+ Uploader.message result)).

Definition step_wait_for_serial (env : Env) : M unit :=
  check_stop env 2 >>
  _queue_message (MsgState WAITING_FOR_SERIAL) >>
  let serial_port := wait_for_serial_port env in
  when (negb (Py.truthy_opt serial_port))
    (raise "Serial port did not appear after firmware upload") >>
  update_ctx (fun c => with_port c (default "" serial_port)).

Definition step_provisioning (env : Env) : M unit :=
  check_stop env 3 >>
  _queue_message (MsgState PROVISIONING) >>
  let result := provision env in
  update_ctx (fun c => with_provisioning c result) >>
  update_report (fun r =>
    let r := add_step "Provisioning" (prov_success result) r in
    set_flags r (firmware_upload_success r) (prov_success result)
      (verification_success r) (label_generated r) (label_printed r)
      (report_success r) (overall_success r) (error_message r)) >>
  when (negb (prov_success result))
    (raise ("Provisioning failed: " +:+ prov_message result)).

Definition step_verification (env : Env) : M unit :=
  check_stop env 4 >>
  _queue_message (MsgState VERIFYING) >>
  let serial_port :=
    if Py.truthy_opt (provisioner_port env) then provisioner_port env
    else reboot_and_reconnect_wait_ready env in
  when (negb (Py.truthy_opt serial_port))
    (raise "Serial port did not reappear after reboot") >>
  update_ctx (fun c => with_port c (default "" serial_port)) >>
  let* s := get in
  let result :=
    Verification.verify (provisioner env) (serial_number (ctx s))
      (region_code (ctx s)) (firmware_version (ctx s))
      (hardware_version (ctx s)) in
  update_ctx (fun c => with_verification c result) >>
  update_report (fun r =>
    let r := add_step "Verification" (Verification.success result) r in
    set_flags r (firmware_upload_success r) (provisioning_success r)
      (Verification.success result) (label_generated r) (label_printed r)
      (report_success r) (overall_success r) (error_message r)) >>
  (** the failure branch asks the list of checks for [.items()], which
      raises before the message of the branch is built *)
  when (negb (Verification.success result))
    (raise "'list' object has no attribute 'items'").

Definition step_label (env : Env) : M unit :=
  check_stop env 5 >>
  _queue_message (MsgState GENERATING_LABEL) >>
  let* s := get in
  let result :=
    Label.generate_label (label env) (serial_number (ctx s))
      (region_code (ctx s)) in
  update_ctx (fun c => with_label c result) >>
  update_report (add_step "Label Generation" (Label.success result)) >>
  when (Label.success result)
    (update_report (fun r =>
       set_flags r (firmware_upload_success r) (provisioning_success r)
         (verification_success r) true
         (auto_print_label env && print_label env)
         (report_success r) (overall_success r) (error_message r))).

Definition step_report (env : Env) : M unit :=
  check_stop env 6 >>
  _queue_message (MsgState GENERATING_REPORT) >>
  update_report (fun r =>
    set_flags r (firmware_upload_success r) (provisioning_success r)
      (verification_success r) (label_generated r) (label_printed r)
      true true (error_message r)) >>
  match generate_report env with
  | Some _ => ret tt
  | None => raise "report generation failed"
  end.

Definition step_update_csv (env : Env) : M unit :=
  check_stop env 7 >>
  _queue_message (MsgState UPDATING_CSV) >>
  let* s := get in
  let c := ctx s in
  let m := (Csv.select_by_serial (csv_manager s) (serial_number c)).2 in
  match Csv.update_selected_row m (firmware_version c) (hardware_version c)
          (region_code c) (batch_id c) (notes c) true (now env) with
  | None => set_csv m (files s) >> raise "list index out of range"
  | Some (false, m) => set_csv m (files s)
  | Some (true, m) =>
      let '(_, m, d) := Csv.save m (files s) (write_ok env) in
      set_csv m d
  end.

(** What follows the upload step in the [try] block. *)
Definition after_upload (env : Env) : M unit :=
  step_wait_for_serial env >>
  step_provisioning env >>
  step_verification env >>
  step_label env >>
  step_report env >>
  step_update_csv env >>
  _queue_message (MsgState COMPLETED) >>
  _queue_message (MsgComplete true).

(** The body of the [try] block. *)
Definition body (env : Env) : M unit :=
  step_upload env >> after_upload env.

(** [MainWindow._run_workflow]: the [except] clause records the error and
    queues it. *)
Definition _run_workflow (env : Env) (s : State) : State :=
  match body env s with
  | Continue _ s' => s'
  | Return s' => s'
  | Raise e s' =>
      {| queue := queue s' ++ [MsgError e];
         ctx := ctx s';
         report :=
           (let r := report s' in
            set_flags r (firmware_upload_success r) (provisioning_success r)
              (verification_success r) (label_generated r) (label_printed r)
              (report_success r) false e);
         csv_manager := csv_manager s';
         files := files s';
         commands := commands s' |}
  end.

(** The state [_on_start_programming] hands to the worker: a fresh context
    around the selected row and the form values, a fresh report, an empty
    queue. *)
Definition start (row : Csv.CSVRow)
    (firmware_version hardware_version region_code batch_id notes
       firmware_path device_path : string)
    (m : Csv.CSVManager) (d : Csv.disk) : State :=
  {| queue := [];
     ctx := {| serial_number := Csv.serial_number row;
               firmware_version := firmware_version;
               hardware_version := hardware_version;
               region_code := region_code;
               batch_id := batch_id; notes := notes;
               firmware_path := firmware_path; device_path := device_path;
               serial_port := "";
               upload_result := None; provisioning_result := None;
               verification_result := None; label_result := None |};
     report := {| steps := []; firmware_upload_success := false;
                  provisioning_success := false;
                  verification_success := false;
                  label_generated := false; label_printed := false;
                  report_success := false; overall_success := false;
                  error_message := "" |};
     csv_manager := m; files := d; commands := [] |}.

(** ** The GUI side *)

Record Gui := mkGui {
  workflow_state : WorkflowState;
  programming_active : bool;
  has_context : bool;
  dialogs : list string
}.

(** [MainWindow._update_workflow_state] *)
Definition _update_workflow_state (g : Gui) (state : WorkflowState) : Gui :=
  {| workflow_state := state; programming_active := programming_active g;
     has_context := has_context g; dialogs := dialogs g |}.

(** [MainWindow._on_workflow_complete] *)
Definition _on_workflow_complete (g : Gui) (success : bool) : Gui :=
  {| workflow_state := IDLE; programming_active := false;
     has_context := false;
     dialogs := if success then dialogs g ++ ["Success"] else dialogs g |}.

(** [MainWindow._on_workflow_error] *)
Definition _on_workflow_error (g : Gui) (message : string) : Gui :=
  {| workflow_state := ERROR; programming_active := false;
     has_context := false;
     dialogs := dialogs g ++ ["Programming Failed: " +:+ message] |}.

(** One message of [_process_message_queue]. *)
Definition process (g : Gui) (msg : Message) : Gui :=
  match msg with
  | MsgState state => _update_workflow_state g state
  | MsgComplete success => _on_workflow_complete g success
  | MsgError message => _on_workflow_error g message
  end.

(** The pump over a whole queue: the GUI after, and every workflow state
    it went through, in order. *)
Fixpoint pump (g : Gui) (msgs : list Message) : Gui * list WorkflowState :=
  match msgs with
  | [] => (g, [])
  | msg :: msgs' =>
      let g' := process g msg in
      let '(g'', entered) := pump g' msgs' in
      (g'', workflow_state g' :: entered)
  end.

End Workflow.

(* ===================================================================== *)
(** * core/csv_manager.py: the shape of a ledger in memory *)
(* ===================================================================== *)

Module CsvInv.
Import Csv.

(** The seven named fields of a row, in the order of the base columns. *)
Definition base_fields (row : CSVRow) : list string :=
  [serial_number row; date_programmed row; firmware_version row;
   hardware_version row; region_code row; batch_id row; notes row].

(** The column list starts with the base columns and names no column twice. *)
Definition columns_ok (columns : list string) : Prop :=
  NoDup columns /\ exists rest, columns = CSV_COLUMNS ++ rest.

(** Every extra cell of the row sits under a column of the list, and under
    none of the base columns. *)
Definition row_ok (columns : list string) (row : CSVRow) : Prop :=
  forall k, is_Some (extra_columns row !! k) ->
            In k columns /\ ~ In k CSV_COLUMNS.

Definition ledger_ok (self : CSVManager) : Prop :=
  columns_ok (_all_columns self)
  /\ Forall (row_ok (_all_columns self)) (_rows self).

End CsvInv.

(* ===================================================================== *)
(** * core/verification.py: the quick check *)
(* ===================================================================== *)

Module VerifierMore.
Import Verification.

(** [Verifier.quick_check] *)
Definition quick_check (provisioner : Provisioner) (serial_number : string)
  : bool :=
  let sysinfo := get_system_info provisioner in
  if negb (truthy_dict sysinfo) then false
  else
    let actual := first_of (default ∅ sysinfo) ["serial_number"; "sn"; "serial"] in
    String.eqb (Py.lower (Py.strip actual)) (Py.lower (Py.strip serial_number)).

End VerifierMore.

(* ===================================================================== *)
(** * FlashApp/flasher_core.py: what the banner patterns capture *)
(* ===================================================================== *)

Module Banner.

(** A serial number as the pattern [SN-\d+] captures it. *)
Definition banner_serial (o : option string) : Prop :=
  forall g, o = Some g ->
  exists d, g = "SN-" +:+ d /\ d <> ""
            /\ forallb Py.isdecimal (Py.chars d) = true.

End Banner.

(* ===================================================================== *)
(** * gui/main_window.py: the conditions of a complete run *)
(* ===================================================================== *)

Module WorkflowSpec.
Import Workflow.

(** The fields of the context that name the job; no step writes them. *)
Definition job (c : WorkflowContext) : list string :=
  [serial_number c; firmware_version c; hardware_version c; region_code c;
   batch_id c; notes c; firmware_path c].

(** The flags of the report, in the order of the record. *)
Definition flags (r : ProcessingReport) : list bool :=
  [firmware_upload_success r; provisioning_success r; verification_success r;
   label_generated r; label_printed r; report_success r; overall_success r].

(** A step that queued its state and left the job and the ledger alone. *)
Definition stepped (state : WorkflowState) (s s' : State) : Prop :=
  job (ctx s') = job (ctx s)
  /\ queue s' = queue s ++ [MsgState state]
  /\ csv_manager s' = csv_manager s
  /\ files s' = files s.

(** Several steps in a row. *)
Definition advanced (states : list WorkflowState) (s s' : State) : Prop :=
  job (ctx s') = job (ctx s)
  /\ queue s' = queue s ++ map MsgState states
  /\ csv_manager s' = csv_manager s
  /\ files s' = files s.

(** The results the steps of a run from [s] get from the outside. *)
Definition upload_of (env : Env) (s : State) : Uploader.UploadResult :=
  (Uploader.upload (uploader env) (picotool_path env) (firmware_path (ctx s))).1.

Definition port_after_reboot (env : Env) : option string :=
  if Py.truthy_opt (provisioner_port env) then provisioner_port env
  else reboot_and_reconnect_wait_ready env.

Definition verdict_of (env : Env) (s : State) : Verification.VerificationResult :=
  Verification.verify (provisioner env) (serial_number (ctx s))
    (region_code (ctx s)) (firmware_version (ctx s)) (hardware_version (ctx s)).

Definition label_of (env : Env) (s : State) : Label.LabelResult :=
  Label.generate_label (label env) (serial_number (ctx s)) (region_code (ctx s)).

Definition ledger_update (env : Env) (s : State) : option (bool * Csv.CSVManager) :=
  Csv.update_selected_row
    (Csv.select_by_serial (csv_manager s) (serial_number (ctx s))).2
    (firmware_version (ctx s)) (hardware_version (ctx s)) (region_code (ctx s))
    (batch_id (ctx s)) (notes (ctx s)) true (now env).

(** Everything a run from [s] needs to reach its end: no stop request at
    any of the seven checks, and no step that raises. *)
Definition completes (env : Env) (s : State) : Prop :=
  Forall (fun k => stop_requested env k = false) [1; 2; 3; 4; 5; 6; 7]
  /\ Uploader.success (upload_of env s) = true
  /\ Py.truthy_opt (wait_for_serial_port env) = true
  /\ prov_success (provision env) = true
  /\ Py.truthy_opt (port_after_reboot env) = true
  /\ Verification.success (verdict_of env s) = true
  /\ is_Some (generate_report env)
  /\ is_Some (ledger_update env s).

(** A run from [s] that gets as far as the verification and does not pass
    it. *)
Definition fails_verification (env : Env) (s : State) : Prop :=
  Forall (fun k => stop_requested env k = false) [1; 2; 3; 4]
  /\ Uploader.success (upload_of env s) = true
  /\ Py.truthy_opt (wait_for_serial_port env) = true
  /\ prov_success (provision env) = true
  /\ Py.truthy_opt (port_after_reboot env) = true
  /\ Verification.success (verdict_of env s) = false.

(** The states a complete run announces, in order. *)
Definition ALL_STATES : list WorkflowState :=
  [UPLOADING_FIRMWARE; WAITING_FOR_SERIAL; PROVISIONING; VERIFYING;
   GENERATING_LABEL; GENERATING_REPORT; UPDATING_CSV; COMPLETED].

End WorkflowSpec.
(* ===================================================================== *)
(** * FlashApp/core/serial_manager.py: the serial number ledger and the
      board-ID database *)
(* ===================================================================== *)

Module SerialLedger.

(** A call that returns a value, or lets an exception escape. *)
Inductive Result (A : Type) :=
| Returns (a : A)
| Raises.
Arguments Returns {A} a.
Arguments Raises {A}.

(** A CSV file as [csv.reader] hands it over, row by row: the cells of the
    first row, which [csv.DictReader] takes as the field names, and the
    cells of each row after it. *)
Record RawCsv := mkRawCsv {
  header : list string;
  rows : list (list string)
}.

(** A file on disk: its rows, or a file whose reading raises. *)
Inductive LedgerFile :=
| Table (f : RawCsv)
| Unreadable.

Abbreviation disk := (gmap string LedgerFile).

(** A row as [csv.DictReader] yields it: a dict whose keys keep the order
    in which they were put in.  Under a field name it holds a string, or
    [None] where the row was too short to have a cell for it; the cells a
    row has beyond the field names are held as a list under the key
    [None], which [rest] stands for. *)
Record Entry := mkEntry {
  keys : list (option string);
  cells : gmap string (option string);
  rest : option (list string)
}.

Definition empty : Entry := {| keys := []; cells := ∅; rest := None |}.

(** [k in entry] *)
Definition has_key (entry : Entry) (k : option string) : bool :=
  bool_decide (k ∈ keys entry).

(** [entry[k] = v] under a field name: a new key goes to the end. *)
Definition set (entry : Entry) (k : string) (v : option string) : Entry :=
  {| keys := if has_key entry (Some k) then keys entry
             else keys entry ++ [Some k];
     cells := <[k := v]> (cells entry);
     rest := rest entry |}.

(** [entry[None] = l] *)
Definition set_rest (entry : Entry) (l : list string) : Entry :=
  {| keys := if has_key entry None then keys entry else keys entry ++ [None];
     cells := cells entry;
     rest := Some l |}.

(** [entry.get(k)]: [None] for a missing key as for a [None] cell. *)
Definition get (entry : Entry) (k : string) : option string :=
  default None (cells entry !! k).

(** [entry.get(k, '')] *)
Definition get_or_empty (entry : Entry) (k : string) : option string :=
  default (Some "") (cells entry !! k).

(** One step of [csv.DictReader]: [dict(zip(fieldnames, row))], then the
    surplus cells under the key [None] when the row is longer than the
    field names, or [None] under each name left over when it is shorter. *)
Definition read_entry (fieldnames row : list string) : Entry :=
  let d := fold_left (fun d kv => set d kv.1 (Some kv.2))
                     (zip fieldnames row) empty in
  let lf := length fieldnames in
  let lr := length row in
  if lf <? lr then set_rest d (skipn lf row)
  else if lr <? lf
  then fold_left (fun d k => set d k None) (skipn lr fieldnames) d
  else d.

Definition is_nil {A} (l : list A) : bool :=
  match l with [] => true | _ :: _ => false end.

(** [SerialManager.get_serial_numbers]: [None] when the file is missing or
    its reading raises.  [csv.DictReader] passes over the rows that have no
    cell at all. *)
Definition get_serial_numbers (d : disk) (csv_file : string)
  : option (list Entry) :=
  match d !! csv_file with
  | Some (Table f) =>
      Some (map (read_entry (header f))
              (List.filter (fun row => negb (is_nil row)) (rows f)))
  | _ => None
  end.

(** [not entry.get('date_programmed', '').strip()]; a [None] cell has no
    [strip], which raises [AttributeError]. *)
Definition available (entry : Entry) : Result bool :=
  match get_or_empty entry "date_programmed" with
  | Some date => Returns (negb (Py.truthy (Py.strip date)))
  | None => Raises
  end.

(** The loop of [get_next_available_serial]. *)
Fixpoint find_available (serial_numbers : list Entry) : Result (option string) :=
  match serial_numbers with
  | [] => Returns None
  | entry :: serial_numbers' =>
      match available entry with
      | Raises => Raises
      | Returns true => Returns (get entry "serial_number")
      | Returns false => find_available serial_numbers'
      end
  end.

(** [SerialManager.get_next_available_serial] *)
Definition get_next_available_serial (d : disk) (csv_file : string)
  : Result (option string) :=
  match get_serial_numbers d csv_file with
  | None => Returns None
  | Some serial_numbers =>
      if is_nil serial_numbers then Returns None
      else find_available serial_numbers
  end.

(** The test of the loop in [update_serial_number_in_csv]; the date is
    looked at only when the serial number is the one asked for. *)
Definition matches (serial_number : string) (entry : Entry) : Result bool :=
  if bool_decide (get entry "serial_number" = Some serial_number)
  then available entry
  else Returns false.

(** The three assignments of that loop. *)
Definition mark (entry : Entry) (today firmware_version programmed_by : string)
  : Entry :=
  set (set (set entry "date_programmed" (Some today))
         "firmware_version" (Some firmware_version))
      "programmed_by" (Some programmed_by).

(** The loop itself: the first matching entry is marked; [None] when the
    loop ends with [updated] still false. *)
Fixpoint mark_first (serial_number today firmware_version programmed_by : string)
    (serial_numbers : list Entry) : Result (option (list Entry)) :=
  match serial_numbers with
  | [] => Returns None
  | entry :: serial_numbers' =>
      match matches serial_number entry with
      | Raises => Raises
      | Returns true =>
          Returns (Some (mark entry today firmware_version programmed_by
                         :: serial_numbers'))
      | Returns false =>
          match mark_first serial_number today firmware_version programmed_by
                  serial_numbers' with
          | Returns (Some marked) => Returns (Some (entry :: marked))
          | Returns None => Returns None
          | Raises => Raises
          end
      end
  end.

(** The cell [csv.DictWriter] writes for a key of its field names: the
    value of the row, the empty string for a missing key or a [None]
    value, and for a list what [str] makes of it, which is [repr]. *)
Definition cell_text (repr : list string -> string) (row : Entry)
    (k : option string) : string :=
  match k with
  | Some k => default "" (get_or_empty row k)
  | None =>
      match rest row with
      | Some l => repr l
      | None => ""
      end
  end.

(** [csv.DictWriter.writerows]: the rows are written one by one, each under
    the field names, until a row holds a key the field names lack, which
    raises.  The result is what was written and whether the end was
    reached. *)
Fixpoint writerows (repr : list string -> string)
    (fieldnames : list (option string)) (rows : list Entry)
  : list (list string) * bool :=
  match rows with
  | [] => ([], true)
  | row :: rows' =>
      if forallb (fun k => bool_decide (k ∈ fieldnames)) (keys row)
      then let '(written, ok) := writerows repr fieldnames rows' in
           (map (cell_text repr row) fieldnames :: written, ok)
      else ([], false)
  end.

(** [SerialManager.update_serial_number_in_csv]; [today] is the formatted
    date, [write_ok] tells whether the file can be opened for writing, and
    [repr] is Python's [repr] of a list of strings.  The field names of the
    writer are the keys of the first row; [writeheader] writes the key
    [None] as an empty cell. *)
Definition update_serial_number_in_csv (repr : list string -> string)
    (d : disk)
    (csv_file serial_number firmware_version programmed_by today : string)
    (write_ok : bool) : Result bool * disk :=
  match get_serial_numbers d csv_file with
  | None => (Returns false, d)
  | Some serial_numbers =>
      if is_nil serial_numbers then (Returns false, d)
      else
        match mark_first serial_number today firmware_version programmed_by
                serial_numbers with
        | Raises => (Raises, d)
        | Returns None => (Returns false, d)
        | Returns (Some serial_numbers) =>
            if write_ok
            then
              let fieldnames :=
                match serial_numbers with
                | first :: _ => keys first
                | [] => []
                end in
              let '(written, ok) := writerows repr fieldnames serial_numbers in
              (Returns ok,
               <[csv_file := Table {| header := map (default "") fieldnames;
                                      rows := written |}]> d)
            else (Returns false, d)
        end
  end.

(** ** The board-ID database *)

(** The JSON file of the database: an object of strings, or a text that
    [json.load] refuses. *)
Inductive JsonFile :=
| Object (db : gmap string string)
| Malformed.

Abbreviation jsonfiles := (gmap string JsonFile).

Definition board_id_db_file (self : SerialHeader.SerialManager) : string :=
  SerialHeader.join (SerialHeader.script_dir self) "board_ids.json".

(** [SerialManager.load_board_id_db] *)
Definition load_board_id_db (self : SerialHeader.SerialManager) (fs : jsonfiles)
  : gmap string string :=
  match fs !! board_id_db_file self with
  | Some (Object db) => db
  | Some Malformed => ∅
  | None => ∅
  end.

(** [SerialManager.save_board_id_db] *)
Definition save_board_id_db (self : SerialHeader.SerialManager) (fs : jsonfiles)
    (db : gmap string string) (write_ok : bool) : bool * jsonfiles :=
  if write_ok then (true, <[board_id_db_file self := Object db]> fs)
  else (false, fs).

(** [SerialManager.lookup_serial_by_board_id] *)
Definition lookup_serial_by_board_id (self : SerialHeader.SerialManager)
    (fs : jsonfiles) (board_id : string) : option string :=
  if negb (Py.truthy board_id) then None
  else load_board_id_db self fs !! board_id.

(** [SerialManager.register_board_id] *)
Definition register_board_id (self : SerialHeader.SerialManager) (fs : jsonfiles)
    (board_id serial_number : string) (write_ok : bool) : bool * jsonfiles :=
  if negb (Py.truthy board_id) || negb (Py.truthy serial_number)
  then (false, fs)
  else
    let db := load_board_id_db self fs in
    save_board_id_db self fs (<[board_id := serial_number]> db) write_ok.

End SerialLedger.
(* ===================================================================== *)
(** * FlashApp/core/serial_manager.py: the shape of a ledger file *)
(* ===================================================================== *)

Module LedgerShape.
Import SerialLedger.

(** The rows of a file that [csv.DictReader] does not pass over. *)
Definition data_rows (f : RawCsv) : list (list string) :=
  List.filter (fun row => negb (is_nil row)) (rows f).

(** The entries [get_serial_numbers] reads from a file. *)
Definition entries (f : RawCsv) : list Entry :=
  map (read_entry (header f)) (data_rows f).

(** A file as a spreadsheet writes it: no field name stands twice, and
    every row that has a cell has one for each field name and no more. *)
Definition regular (f : RawCsv) : Prop :=
  NoDup (header f)
  /\ Forall (fun row => length row = length (header f)) (data_rows f).

(** An entry with a string under each of the names, and nothing else. *)
Definition shaped (names : list string) (e : Entry) : Prop :=
  keys e = map Some names
  /\ rest e = None
  /\ (forall k, k ∈ names -> exists s, cells e !! k = Some (Some s))
  /\ (forall k, k ∉ names -> cells e !! k = None).

(** The three columns [update_serial_number_in_csv] writes. *)
Definition written_columns : list string :=
  ["date_programmed"; "firmware_version"; "programmed_by"].

End LedgerShape.

(* ===================================================================== *)
(** * core/serial_provisioner.py: what the device answers, as a dict *)
(* ===================================================================== *)

Module Provisioner.

(** A value of the dict: the text after the separator, or, under [raw],
    the lines of the response. *)
Inductive Value :=
| Text (s : string)
| Lines (response : list string).

(** Settings *)
Definition REGION_CODES : list string := ["EU"; "US"].

(** The characters up to the first [c], and what follows them. *)
Fixpoint span_until (c : ascii) (s : string) : string * string :=
  match s with
  | EmptyString => (EmptyString, EmptyString)
  | String x s' =>
      if Ascii.eqb x c then (EmptyString, s)
      else let '(a, b) := span_until c s' in (String x a, b)
  end.

(** [re.sub(r"^\[[^\]]+\]\s*", "", line)]: a tag in square brackets at the
    very start goes, with the white space after it.  The class [[^\]]+]
    runs up to the first closing bracket, which has to be there, and has
    to take at least one character. *)
Definition strip_tag (line : string) : string :=
  match line with
  | String c rest =>
      if Ascii.eqb c "["
      then match span_until "]" rest with
           | (String _ _, String _ after) => Deploy.skip_spaces after
           | _ => line
           end
      else line
  | EmptyString => line
  end.

(** [sep in line] and [line.split(sep, 1)] for a single character. *)
Definition has_char (c : ascii) (line : string) : bool :=
  existsb (Ascii.eqb c) (Py.chars line).

Definition split_once (c : ascii) (line : string) : string * string :=
  match span_until c line with
  | (key, String _ value) => (key, value)
  | (key, EmptyString) => (key, EmptyString)
  end.

(** The class [[a-z0-9]]. *)
Definition is_key_char (c : ascii) : bool :=
  let n := Py.code c in
  ((97 <=? n) && (n <=? 122)) || ((48 <=? n) && (n <=? 57)).

(** [re.sub(r"[^a-z0-9]+", "_", s)]: every run of other characters becomes
    one underscore.  [in_run] tells that the run has its underscore. *)
Fixpoint squeeze (in_run : bool) (s : string) : string :=
  match s with
  | EmptyString => EmptyString
  | String c s' =>
      if is_key_char c then String c (squeeze false s')
      else if in_run then squeeze true s'
      else String "_" (squeeze true s')
  end.

(** [re.sub(r"[^a-z0-9]+", "_", key.strip().lower())] *)
Definition normalize_key (key : string) : string :=
  squeeze false (Py.lower (Py.strip key)).

(** The aliases of the serial number, looked for in this order. *)
Definition add_serial_alias (result : gmap string Value) : gmap string Value :=
  match result !! "serial_number" with
  | Some _ => result
  | None =>
      match result !! "device_serial", result !! "sn", result !! "s_n",
            result !! "serial" with
      | Some v, _, _, _ => <["serial_number" := v]> result
      | None, Some v, _, _ => <["serial_number" := v]> result
      | None, None, Some v, _ => <["serial_number" := v]> result
      | None, None, None, Some v => <["serial_number" := v]> result
      | None, None, None, None => result
      end
  end.

(** [code in val] *)
Definition code_in (code : string) (val : Value) : bool :=
  match val with
  | Text s => Py.contains code s
  | Lines response => existsb (String.eqb code) response
  end.

(** The region, reduced to the first code its value holds. *)
Definition add_region (result : gmap string Value) : gmap string Value :=
  let result :=
    match result !! "region", result !! "region_code" with
    | None, Some v => <["region" := v]> result
    | _, _ => result
    end in
  match result !! "region" with
  | Some val =>
      match List.find (fun code => code_in code val) REGION_CODES with
      | Some code => <["region" := Text code]> result
      | None => result
      end
  | None => result
  end.

(** One line of the loop of [_parse_info_response]. *)
Definition parse_info_line (result : gmap string Value) (line : string)
  : gmap string Value :=
  let line := strip_tag line in
  if has_char ":" line
  then let '(key, value) := split_once ":" line in
       <[normalize_key key := Text (Py.strip value)]> result
  else if has_char "=" line
  then let '(key, value) := split_once "=" line in
       <[normalize_key key := Text (Py.strip value)]> result
  else result.

(** [SerialProvisioner._parse_info_response] *)
Definition _parse_info_response (response : list string) : gmap string Value :=
  let result := fold_left parse_info_line response {[ "raw" := Lines response ]} in
  add_region (add_serial_alias result).

(** One line of the loop of [_parse_status]. *)
Definition parse_status_line (result : gmap string Value) (line : string)
  : gmap string Value :=
  let line := strip_tag line in
  if has_char ":" line
  then let '(key, value) := split_once ":" line in
       <[normalize_key key := Text (Py.strip value)]> result
  else result.

(** [SerialProvisioner._parse_status] *)
Definition _parse_status (response : list string) : gmap string Value :=
  let result := fold_left parse_status_line response {[ "raw" := Lines response ]} in
  add_region (add_serial_alias result).

(** [SerialProvisioner.get_system_info] and [get_network_info], given what
    [send_command] returns. *)
Definition get_info (response : option (list string))
  : option (gmap string Value) :=
  match response with
  | None => None
  | Some [] => None
  | Some response => Some (_parse_info_response response)
  end.

End Provisioner.

(* ===================================================================== *)
(** * utils/persistence.py: the lists of recent files *)
(* ===================================================================== *)

Module Persistence.

Record PersistedState := mkPersistedState {
  last_csv_path : string;
  last_firmware_path : string;
  last_picotool_path : string;
  last_label_template_path : string;
  last_firmware_version : string;
  last_hardware_version : string;
  last_region_code : string;
  last_batch_id : string;
  last_notes : string;
  window_width : Z;
  window_height : Z;
  window_x : option Z;
  window_y : option Z;
  recent_csv_files : list string;
  recent_firmware_files : list string
}.

Definition MAX_RECENT_FILES : nat := 10.

(** [recent.remove(path)]: the first occurrence goes. *)
Fixpoint remove (path : string) (recent : list string) : list string :=
  match recent with
  | [] => []
  | x :: rest => if String.eqb x path then rest else x :: remove path rest
  end.

(** The list both [add_recent_csv] and [add_recent_firmware] store. *)
Definition add_recent (recent : list string) (path : string) : list string :=
  let recent := if Csv.mem path recent then remove path recent else recent in
  take MAX_RECENT_FILES (path :: recent).

(** [PersistenceManager.add_recent_csv], on the state in memory. *)
Definition add_recent_csv (s : PersistedState) (path : string) : PersistedState :=
  {| last_csv_path := last_csv_path s;
     last_firmware_path := last_firmware_path s;
     last_picotool_path := last_picotool_path s;
     last_label_template_path := last_label_template_path s;
     last_firmware_version := last_firmware_version s;
     last_hardware_version := last_hardware_version s;
     last_region_code := last_region_code s;
     last_batch_id := last_batch_id s;
     last_notes := last_notes s;
     window_width := window_width s;
     window_height := window_height s;
     window_x := window_x s;
     window_y := window_y s;
     recent_csv_files := add_recent (recent_csv_files s) path;
     recent_firmware_files := recent_firmware_files s |}.

(** [PersistenceManager.add_recent_firmware], on the state in memory. *)
Definition add_recent_firmware (s : PersistedState) (path : string)
  : PersistedState :=
  {| last_csv_path := last_csv_path s;
     last_firmware_path := last_firmware_path s;
     last_picotool_path := last_picotool_path s;
     last_label_template_path := last_label_template_path s;
     last_firmware_version := last_firmware_version s;
     last_hardware_version := last_hardware_version s;
     last_region_code := last_region_code s;
     last_batch_id := last_batch_id s;
     last_notes := last_notes s;
     window_width := window_width s;
     window_height := window_height s;
     window_x := window_x s;
     window_y := window_y s;
     recent_csv_files := recent_csv_files s;
     recent_firmware_files := add_recent (recent_firmware_files s) path |}.

End Persistence.

(* ===================================================================== *)
(** * FlashApp/flasher_core.py: production_programming *)
(* ===================================================================== *)

Module Production.

(** The files the run reads and writes: the serial number ledger, the
    template and the generated header, the images of the build directory
    and the board-ID database. *)
Record World := mkWorld {
  ledger : SerialLedger.disk;
  headers : SerialHeader.textfiles;
  images : UF2.filesystem;
  board_ids : SerialLedger.jsonfiles
}.

Record Env := mkEnv {
  (** the directory of the script, and [os.getenv("USERNAME")] *)
  script_dir : string;
  username : option string;
  (** [build_manager.clean]: the build directory after it *)
  clean : UF2.filesystem;
  (** [build_manager.configure] *)
  configure : bool;
  (** [build_manager.build]: its result and the build directory after it *)
  build : bool * UF2.filesystem;
  (** what [deploy_firmware] meets *)
  deploy : Deploy.Env;
  (** [find_pico_drive] and [get_unique_board_id] of the drive found *)
  find_pico_drive : option string;
  get_unique_board_id : string -> option string;
  (** the date of the ledger entry, and whether the header, the ledger
      and the database can be opened for writing *)
  today : string;
  header_write_ok : bool;
  ledger_write_ok : bool;
  board_ids_write_ok : bool;
  (** Python's [repr] of a list of strings *)
  repr_list : list string -> string
}.

(** [production_programming]: the result, and the files after.  An
    exception that escapes [get_next_available_serial] or
    [update_serial_number_in_csv] is not caught. *)
Definition production_programming (env : Env)
    (serial_manager : SerialHeader.SerialManager) (w : World)
    (csv_file : string) (template_file : option string)
    (firmware_version : string) (programmed_by : option string)
    (force verify reprogram : bool) : SerialLedger.Result bool * World :=
  let template_file :=
    match template_file with
    | None => SerialHeader.join (SerialHeader.join (script_dir env) "Templates")
                "serial_number.h.template"
    | Some template_file => template_file
    end in
  let programmed_by :=
    match programmed_by with
    | None => default "system" (username env)
    | Some programmed_by => programmed_by
    end in
  let csv_file :=
    if negb (SerialHeader.isabs csv_file)
    then SerialHeader.join (script_dir env) csv_file
    else csv_file in
  match SerialLedger.get_next_available_serial (ledger w) csv_file with
  | SerialLedger.Raises => (SerialLedger.Raises, w)
  | SerialLedger.Returns serial_number =>
  if negb (Py.truthy_opt serial_number) then (SerialLedger.Returns false, w)
  else
    let serial_number := default "" serial_number in
    let cleaned := clean env in
    let '(generated, headers) :=
      SerialHeader.generate_serial_header serial_manager (headers w)
        template_file "serial_number.h" serial_number firmware_version
        (header_write_ok env) in
    let failed images :=
      (SerialLedger.Returns false,
       {| ledger := ledger w; headers := headers; images := images;
          board_ids := board_ids w |}) in
    if negb generated then failed cleaned
    else if negb (configure env) then failed cleaned
    else
      let '(built, images) := build env in
      if negb built then failed images
      else
        let uf2_path := Deploy.get_uf2_path (deploy env) in
        if negb (Py.truthy_opt uf2_path) then failed images
        else
          let '(uf2_path, images) :=
            UF2.modify_uf2_with_serial (Deploy.image_writable (deploy env))
              images (default "" uf2_path) serial_number in
          if negb (Py.truthy_opt uf2_path) then failed images
          else
            let '(outcome, images) :=
              Deploy.deploy_firmware (deploy env) images force
                (Some serial_number) verify reprogram in
            if negb (Deploy.returns outcome) then failed images
            else
              let board_ids :=
                if verify then board_ids w
                else
                  let pico_drive := find_pico_drive env in
                  if Py.truthy_opt pico_drive
                  then
                    let unique_board_id :=
                      get_unique_board_id env (default "" pico_drive) in
                    if Py.truthy_opt unique_board_id
                    then (SerialLedger.register_board_id serial_manager
                            (board_ids w) (default "" unique_board_id)
                            serial_number (board_ids_write_ok env)).2
                    else board_ids w
                  else board_ids w in
              let '(updated, ledger) :=
                SerialLedger.update_serial_number_in_csv (repr_list env)
                  (ledger w) csv_file serial_number firmware_version
                  programmed_by (today env) (ledger_write_ok env) in
              (match updated with
               | SerialLedger.Returns _ => SerialLedger.Returns true
               | SerialLedger.Raises => SerialLedger.Raises
               end,
               {| ledger := ledger; headers := headers; images := images;
                  board_ids := board_ids |})
  end.

End Production.

(* ===================================================================== *)
(** * Facts about the Python strings *)
(* ===================================================================== *)

Section PyFacts.






Lemma truthy_text l : Py.truthy (Py.text l) = negb (match l with [] => true | _ => false end).
Proof. now destruct l. Qed.

Lemma drop_while_nil {A} (p : A -> bool) l :
  Py.drop_while p l = [] <-> forallb p l = true.
Proof.
  induction l as [|x l IH]; simpl; [tauto|].
  destruct (p x); simpl; [exact IH|]. split; discriminate.
Qed.

Lemma forallb_rev {A} (p : A -> bool) l : forallb p (rev l) = forallb p l.
Proof.
  induction l as [|x l IH]; simpl; [reflexivity|].
  rewrite forallb_app, IH. simpl. rewrite andb_true_r. apply andb_comm.
Qed.

Lemma forallb_drop_while {A} (p : A -> bool) l :
  forallb p (Py.drop_while p l) = forallb p l.
Proof.
  induction l as [|x l IH]; simpl; [reflexivity|].
  destruct (p x) eqn:E; simpl; [exact IH|]. now rewrite E.
Qed.

(** [s.strip()] is empty exactly when [s] is empty or all white space. *)
Lemma strip_falsy s :
  Py.truthy (Py.strip s) = negb (forallb Py.isspace (Py.chars s)).
Proof.
  unfold Py.strip. rewrite truthy_text.
  destruct (forallb Py.isspace (Py.chars s)) eqn:E.
  - assert (H : Py.drop_while Py.isspace
                  (rev (Py.drop_while Py.isspace (Py.chars s))) = []).
    { apply drop_while_nil. now rewrite forallb_rev, forallb_drop_while. }
    now rewrite H.
  - destruct (rev (Py.drop_while Py.isspace
                     (rev (Py.drop_while Py.isspace (Py.chars s))))) eqn:H;
      [|reflexivity].
    apply (f_equal (@rev ascii)) in H. rewrite rev_involutive in H. simpl in H.
    apply drop_while_nil in H.
    rewrite forallb_rev, forallb_drop_while in H. congruence.
Qed.

End PyFacts.


(* ===================================================================== *)
(** * Properties of the UF2 marker *)
(* ===================================================================== *)

Section UF2Facts.
Import UF2.

Lemma byte_eqb_refl (b : Byte.byte) : Byte.eqb b b = true.
Proof. now apply Byte.byte_dec_lb. Qed.

Lemma strip_literal_app (lit r : bytes) : strip_literal lit (lit ++ r) = Some r.
Proof.
  induction lit as [|l lit IH]; simpl.
  - now destruct r.
  - now rewrite byte_eqb_refl.
Qed.

Lemma insert_slice_length {A} i (m d : list A) :
  length (Py.insert_slice i m d) = length d + length m.
Proof.
  unfold Py.insert_slice.
  rewrite !length_app, length_firstn, length_skipn. lia.
Qed.

Lemma insert_markers_fold m points d :
  insert_markers m points d
  = fold_right (fun i acc => Py.insert_slice i m acc) d points.
Proof.
  unfold insert_markers.
  rewrite <- (rev_involutive points) at 2.
  now rewrite fold_left_rev_right.
Qed.

(** Splicing past a prefix of known length leaves the prefix alone. *)
Lemma insert_slice_shift {A} (a y m : list A) q :
  Py.insert_slice (length a + q) m (a ++ y) = a ++ Py.insert_slice q m y.
Proof.
  unfold Py.insert_slice.
  rewrite firstn_app, skipn_app.
  replace (length a + q - length a) with q by lia.
  rewrite firstn_all2 by lia.
  rewrite skipn_all2 by lia.
  now rewrite <- app_assoc.
Qed.

Lemma insert_markers_shift m ps (x : bytes) :
  interval <= length x ->
  insert_markers m (map (fun q => interval + q) ps) x
  = firstn interval x ++ insert_markers m ps (skipn interval x).
Proof.
  intros Hx. rewrite !insert_markers_fold.
  induction ps as [|q ps IH]; cbn [map fold_right].
  - now rewrite firstn_skipn.
  - rewrite IH.
    rewrite <- (insert_slice_shift (firstn interval x)).
    now rewrite length_firstn, Nat.min_l by lia.
Qed.

Lemma range_interval_succ n :
  map (fun k => interval + k * interval) (seq 0 (S n))
  = interval :: map (fun q => interval + q)
                    (map (fun k => interval + k * interval) (seq 0 n)).
Proof.
  cbn [seq map]. f_equal; try lia.
  rewrite <- seq_shift, !map_map.
  apply map_ext. intros k. lia.
Qed.

(** The loop of [embed_serial_number] in closed form: the buffer is cut at
    every multiple of the interval, with a marker after each piece. *)
Lemma insert_markers_chunks m n (d : bytes) :
  n * interval <= length d ->
  insert_markers m (map (fun k => interval + k * interval) (seq 0 n)) (d ++ m)
  = marked_chunks m n d.
Proof.
  revert d. induction n as [|n IH]; intros d Hd.
  - reflexivity.
  - rewrite range_interval_succ.
    rewrite insert_markers_fold. cbn [fold_right].
    rewrite <- insert_markers_fold.
    assert (Hi : interval <= length d) by lia.
    rewrite insert_markers_shift by (rewrite length_app; lia).
    rewrite firstn_app, skipn_app.
    replace (interval - length d) with 0 by lia. cbn [firstn skipn].
    rewrite app_nil_r.
    rewrite IH by (rewrite length_skipn; lia).
    replace interval with (length (firstn interval d) + 0) at 1
      by (rewrite length_firstn; lia).
    rewrite insert_slice_shift. unfold Py.insert_slice.
    cbn [firstn skipn marked_chunks app]. reflexivity.
Qed.

Lemma range_len_interval L :
  Py.range_len interval L interval = (L - 1) / interval.
Proof.
  unfold Py.range_len.
  assert (Hpos : interval <> 0) by (unfold interval; lia).
  destruct (Nat.ltb_spec interval L) as [Hlt|Hge].
  - replace (L - 1) with ((L - interval - 1) + 1 * interval) by lia.
    now rewrite Nat.div_add.
  - symmetry. apply Nat.div_small. lia.
Qed.

Lemma range_len_bound L : (L - 1) / interval * interval <= L.
Proof.
  assert (Hpos : interval <> 0) by (unfold interval; lia).
  pose proof (Nat.Div0.mul_div_le (L - 1) interval). lia.
Qed.


Lemma marked_chunks_length m n (d : bytes) :
  length (marked_chunks m n d) = length d + S n * length m.
Proof.
  revert d. induction n as [|n IH]; intros d; cbn [marked_chunks].
  - rewrite length_app. lia.
  - rewrite !length_app, IH, length_firstn, length_skipn. lia.
Qed.




(** In both cases the first marker comes right after the first [interval]
    bytes of the buffer (all of it, when it is shorter). *)
Lemma marked_chunks_head m L (d : bytes) :
  L = length d ->
  exists rest,
    marked_chunks m ((L - 1) / interval) d = firstn interval d ++ m ++ rest.
Proof.
  intros ->. destruct ((length d - 1) / interval) as [|n] eqn:E.
  - exists []. cbn [marked_chunks]. rewrite app_nil_r.
    rewrite firstn_all2; [reflexivity|].
    assert (Hpos : interval <> 0) by (unfold interval; lia).
    apply Nat.div_small_iff in E; lia.
  - eexists. reflexivity.
Qed.

(** ** The encoded marker *)

Lemma encode_ascii_app a b :
  encode_ascii (a ++ b)
  = match encode_ascii a, encode_ascii b with
    | Some x, Some y => Some (x ++ y)
    | _, _ => None
    end.
Proof.
  induction a as [|c a IH]; simpl.
  - destruct (encode_ascii b); reflexivity.
  - destruct (Py.is_ascii c); [|reflexivity].
    rewrite IH. destruct (encode_ascii a), (encode_ascii b); reflexivity.
Qed.



(** ** [embed_serial_number] in closed form *)

Lemma embed_serial_number_ok fs f buffer serial m :
  working_buffer fs f = Some buffer ->
  Py.truthy serial = true ->
  encode_ascii (marker serial) = Some m ->
  embed_serial_number fs f serial
  = (true, {| uf2_path := uf2_path f;
              data := Some (marked_chunks m ((length buffer - 1) / interval) buffer) |}).
Proof.
  intros Hbuf Hs Hm. unfold embed_serial_number. rewrite Hs. cbn [negb].
  assert (Hcore : forall f1, uf2_path f1 = uf2_path f -> data f1 = Some buffer ->
    match encode_ascii (marker serial), data f1 with
    | Some encoded_marker, Some d =>
        (true, {| uf2_path := uf2_path f1;
                  data := Some (insert_markers encoded_marker
                    (Py.range interval (length (d ++ encoded_marker) - length encoded_marker) interval)
                    (d ++ encoded_marker)) |})
    | _, _ => (false, f1)
    end
    = (true, {| uf2_path := uf2_path f;
                data := Some (marked_chunks m ((length buffer - 1) / interval) buffer) |})).
  { intros f1 Hp Hd. rewrite Hm, Hd, Hp. do 2 f_equal. f_equal.
    rewrite length_app. replace (length buffer + length m - length m) with (length buffer) by lia.
    unfold Py.range. rewrite range_len_interval.
    apply insert_markers_chunks, range_len_bound. }
  unfold working_buffer in Hbuf.
  destruct (data f) as [[|x d]|] eqn:Hd.
  - unfold read. rewrite Hbuf. cbn [negb]. now apply Hcore.
  - injection Hbuf as <-. cbn [negb]. now apply Hcore.
  - unfold read. rewrite Hbuf. cbn [negb]. now apply Hcore.
Qed.

(** ** Reading the marker back *)

Lemma strip_literal_Some (lit d r : bytes) :
  strip_literal lit d = Some r <-> d = lit ++ r.
Proof.
  split.
  - revert d. induction lit as [|l lit IH]; intros d H.
    + destruct d; now inversion H.
    + destruct d as [|b d]; [discriminate|]. cbn [strip_literal] in H.
      destruct (Byte.eqb l b) eqn:E; [|discriminate].
      apply Byte.byte_dec_bl in E as ->. cbn [app]. f_equal. now apply IH.
  - intros ->. apply strip_literal_app.
Qed.

(** No occurrence of [DEVICE_ID:] can start in front of a marker and run
    into it: the only [D] inside the literal is followed by [:], and the
    [D] a marker starts with is followed by [E]. *)
Lemma literal_not_astride (p t r : bytes) :
  p <> [] ->
  strip_literal DEVICE_ID_ (p ++ DEVICE_ID_ ++ t) = Some r ->
  exists r', strip_literal DEVICE_ID_ p = Some r'.
Proof.
  intros Hp H. apply strip_literal_Some in H.
  unfold DEVICE_ID_ in *.
  do 10 (destruct p as [|? p]; [first [congruence | cbn [app] in H; congruence]|]).
  cbn [app] in H. injection H as -> -> -> -> -> -> -> -> -> -> _.
  exists p. now apply strip_literal_Some.
Qed.

Lemma match_marker_no_literal (d : bytes) :
  strip_literal DEVICE_ID_ d = None -> match_marker d = None.
Proof. unfold match_marker. now intros ->. Qed.

Lemma re_search_marker_skip (pre t : bytes) :
  occurrences DEVICE_ID_ pre = 0 ->
  re_search_marker (pre ++ DEVICE_ID_ ++ t) = re_search_marker (DEVICE_ID_ ++ t).
Proof.
  induction pre as [|b pre IH]; intros Hocc; [reflexivity|].
  cbn [occurrences] in Hocc.
  destruct (strip_literal DEVICE_ID_ (b :: pre)) eqn:Hhere; [lia|].
  cbn [app re_search_marker].
  rewrite match_marker_no_literal; [apply IH; lia|].
  destruct (strip_literal DEVICE_ID_ (b :: pre ++ DEVICE_ID_ ++ t)) eqn:E;
    [|reflexivity].
  apply (literal_not_astride (b :: pre)) in E as [r' Hr']; congruence.
Qed.

Lemma span_not_colon_run (g r : bytes) :
  Forall (fun b => Byte.eqb b colon = false) g ->
  span_not_colon (g ++ colon :: r) = (g, colon :: r).
Proof.
  induction 1 as [|b g Hb _ IH]; cbn [app span_not_colon].
  - now rewrite byte_eqb_refl.
  - now rewrite Hb, IH.
Qed.

Lemma match_marker_here (enc rest : bytes) :
  enc <> [] ->
  Forall (fun b => Byte.eqb b colon = false) enc ->
  match_marker (DEVICE_ID_ ++ (enc ++ _END) ++ rest) = Some enc.
Proof.
  intros Hne Hcol. unfold match_marker.
  rewrite strip_literal_app, <- app_assoc.
  change (_END ++ rest) with (colon :: (tl _END ++ rest)).
  rewrite span_not_colon_run by assumption.
  change (colon :: (tl _END ++ rest)) with (_END ++ rest).
  rewrite strip_literal_app. destruct enc; congruence.
Qed.

Lemma re_search_marker_here (d : bytes) g :
  match_marker d = Some g -> re_search_marker d = Some g.
Proof. intros H. destruct d; cbn [re_search_marker]; now rewrite H. Qed.

Lemma plain_serial_encode serial :
  plain_serial serial = true ->
  exists enc,
    encode_ascii serial = Some enc
    /\ enc <> []
    /\ Forall (fun b => Byte.eqb b colon = false) enc
    /\ decode_ascii enc = Some serial.
Proof.
  unfold plain_serial. intros H. apply andb_prop in H as [Hne Hall].
  assert (Hgen : forall s,
    forallb (fun c => Py.is_ascii c && negb (Ascii.eqb c ":")) (Py.chars s) = true ->
    exists enc, encode_ascii s = Some enc
      /\ length enc = String.length s
      /\ Forall (fun b => Byte.eqb b colon = false) enc
      /\ decode_ascii enc = Some s).
  { clear. induction s as [|c s IH]; intros H.
    - exists []. repeat split; constructor.
    - cbn [Py.chars list_ascii_of_string forallb] in H.
      apply andb_prop in H as [Hc Hs]. apply andb_prop in Hc as [Ha Hc].
      destruct (IH Hs) as (enc & He & Hl & Hf & Hd).
      exists (byte_of_ascii c :: enc). cbn [encode_ascii decode_ascii].
      rewrite Ha, He, ascii_of_byte_of_ascii, Ha, Hd. cbn [option_map length String.length].
      repeat split; [congruence|].
      constructor; [|assumption].
      destruct (Byte.eqb (byte_of_ascii c) colon) eqn:E; [|reflexivity].
      apply Byte.byte_dec_bl in E. apply (f_equal ascii_of_byte) in E.
      rewrite ascii_of_byte_of_ascii in E. subst c. discriminate. }
  destruct (Hgen serial Hall) as (enc & He & Hl & Hf & Hd).
  exists enc. repeat split; try assumption.
  intros ->. destruct serial; discriminate.
Qed.

(** The marker comes back from any buffer that starts with bytes free of
    [DEVICE_ID:] followed by the marker. *)
Lemma re_search_marker_embedded (pre enc rest : bytes) :
  occurrences DEVICE_ID_ pre = 0 ->
  enc <> [] ->
  Forall (fun b => Byte.eqb b colon = false) enc ->
  re_search_marker (pre ++ (DEVICE_ID_ ++ enc ++ _END) ++ rest) = Some enc.
Proof.
  intros Hpre Hne Hcol.
  rewrite <- (app_assoc DEVICE_ID_).
  rewrite re_search_marker_skip by assumption.
  now apply re_search_marker_here, match_marker_here.
Qed.

(** ** The claims about the marker *)

(** C2, as the specification states it, fails: a serial number holding a
    colon is cut short by the pattern and not found at all, an empty serial
    number is not embedded, a serial number outside ASCII is not embedded,
    and a marker already in the image is the one that is read back. *)
Lemma uf2_marker_roundtrip_counterexample :
  let fs : filesystem := {[ "fw.uf2" := list_byte_of_string "hello" ]} in
  let old : filesystem := {[ "fw.uf2" := list_byte_of_string "DEVICE_ID:OLD:END" ]} in
  let writable := fun _ : string => true in
  extract_serial_from_uf2
    (modify_uf2_with_serial writable fs "fw.uf2" "A:B").2 "fw.uf2"
    <> Some "A:B"
  /\ extract_serial_from_uf2
       (modify_uf2_with_serial writable fs "fw.uf2" "").2 "fw.uf2"
    <> Some ""
  /\ extract_serial_from_uf2
       (modify_uf2_with_serial writable fs "fw.uf2"
          (String (ascii_of_nat 233) "")).2 "fw.uf2"
    <> Some (String (ascii_of_nat 233) "")
  /\ extract_serial_from_uf2
       (modify_uf2_with_serial writable old "fw.uf2" "NEW").2 "fw.uf2"
    = Some "OLD".
Proof. vm_compute. repeat split; discriminate. Qed.

(** C2 (amended): for every image file and every serial number that is not
    empty, is pure ASCII and holds no colon, if the bytes [DEVICE_ID:] do not
    occur in the first 10240 bytes of the image, then extracting the serial
    number from the image rewritten by [modify_uf2_with_serial] returns
    exactly that serial number.  The image is rewritten when it can be
    opened for writing. *)
Theorem uf2_marker_roundtrip (writable : string -> bool) (fs : filesystem)
    (path : string) (buffer : bytes) (serial : string) :
  fs !! path = Some buffer ->
  writable path = true ->
  plain_serial serial = true ->
  occurrences DEVICE_ID_ (firstn interval buffer) = 0 ->
  extract_serial_from_uf2 (modify_uf2_with_serial writable fs path serial).2 path
  = Some serial.
Proof.
  intros Hfile Hwritable Hplain Hfree.
  destruct (plain_serial_encode serial Hplain) as (enc & Henc & Hne & Hcol & Hdec).
  assert (Htruthy : Py.truthy serial = true)
    by (unfold plain_serial in Hplain; now apply andb_prop in Hplain as [? _]).
  assert (Hm : encode_ascii (marker serial) = Some (DEVICE_ID_ ++ enc ++ _END)).
  { unfold marker. rewrite !encode_ascii_app, Henc. reflexivity. }
  unfold modify_uf2_with_serial. rewrite Htruthy. cbn [negb].
  unfold read, init. cbn [uf2_path]. rewrite Hfile.
  assert (Hwork : working_buffer fs {| uf2_path := path; data := Some buffer |}
                  = Some buffer).
  { unfold working_buffer. cbn [data uf2_path]. now destruct buffer. }
  rewrite (embed_serial_number_ok fs _ buffer serial _ Hwork Htruthy Hm).
  unfold write. cbn [Py.truthy_opt data uf2_path]. rewrite Hwritable.
  cbn [snd].
  unfold extract_serial_from_uf2. rewrite lookup_insert_eq.
  destruct (marked_chunks_head (DEVICE_ID_ ++ enc ++ _END) (length buffer) buffer eq_refl)
    as [rest ->].
  rewrite app_assoc, <- (app_assoc (firstn interval buffer)).
  rewrite re_search_marker_embedded by assumption.
  exact Hdec.
Qed.

Lemma uf2_marker_roundtrip_witness :
  let fs : filesystem := {[ "fw.uf2" := list_byte_of_string "UF2 image" ]} in
  extract_serial_from_uf2
    (modify_uf2_with_serial (fun _ => true) fs "fw.uf2" "SN-0042").2 "fw.uf2"
  = Some "SN-0042".
Proof.
  intros fs.
  apply (uf2_marker_roundtrip (fun _ => true) fs "fw.uf2"
           (list_byte_of_string "UF2 image") "SN-0042");
    reflexivity.
Defined.




End UF2Facts.

(* ===================================================================== *)
(** * The numeric version of the serial header *)
(* ===================================================================== *)

Section SerialHeaderFacts.
Import SerialHeader.





End SerialHeaderFacts.

(* ===================================================================== *)
(** * The pixel size of a label *)
(* ===================================================================== *)

Section LabelFacts.
Import Label.

Lemma pixels_width : pixels LABEL_WIDTH_MM LABEL_DPI = Some 885%Z.
Proof. vm_compute. reflexivity. Qed.

Lemma pixels_height : pixels LABEL_HEIGHT_MM LABEL_DPI = Some 590%Z.
Proof. vm_compute. reflexivity. Qed.

Lemma _resize_image_size env img width height d :
  PIL_AVAILABLE env = true -> pil_ok env = true ->
  _resize_image env img width height d
  = {| size := (width, height); save_dpi := Some (d, d) |}.
Proof.
  intros Hpil Hok. unfold _resize_image. rewrite Hpil, Hok. cbn [negb].
  destruct (Z.eqb_spec (fst (size img)) width) as [Hw|Hw];
    destruct (Z.eqb_spec (snd (size img)) height) as [Hh|Hh];
    cbn [andb negb size]; try reflexivity.
  destruct img as [[w h] dp]. cbn in *. now subst.
Qed.

(** C3, as the specification states it, fails: the pixel counts are cut
    off by [int], not rounded, which gives 885 x 590. *)
Lemma generate_label_counterexample :
  let env := {| SVG_AVAILABLE := true; PIL_AVAILABLE := true;
                template_files := {[ LABEL_TEMPLATE_EU := "<svg>SERIAL_NUMBER</svg>" ]};
                template_path := String.append "templates/";
                render := fun _ => Drawn (1000, 700)%Z;
                pil_ok := true |} in
  let r := generate_label env "SN-1" "EU" in
  status r = SUCCESS
  /\ option_map size (png r) = Some (885, 590)%Z
  /\ option_map size (png r) <> Some (886, 591)%Z.
Proof. vm_compute. repeat split. discriminate. Qed.

(** C3 (amended): for every label generated with success under the fixed
    75 mm x 50 mm, 300 DPI configuration, when the resize step of Pillow
    runs through, the raster is exactly 885 x 590 pixels, that is
    [int(75/25.4*300)] by [int(50/25.4*300)] with the fraction cut off,
    whatever the size of the raster drawn from the SVG. *)
Theorem generate_label_pixel_size (env : Env) (serial_number region : string) :
  success (generate_label env serial_number region) = true ->
  pil_ok env = true ->
  option_map size (png (generate_label env serial_number region))
  = Some (885, 590)%Z
  /\ pixels 75 300 = Some 885%Z
  /\ pixels 50 300 = Some 590%Z.
Proof.
  intros Hs Hok. split; [|split; [exact pixels_width | exact pixels_height]].
  revert Hs. unfold generate_label, check_dependencies, success.
  destruct (SVG_AVAILABLE env); cbn [negb status]; [|discriminate].
  destruct (PIL_AVAILABLE env) eqn:Hpil; cbn [negb status]; [|discriminate].
  destruct (template_files env !! get_label_template region);
    cbn [status]; [|discriminate].
  rewrite pixels_width, pixels_height.
  destruct (render env _); cbn [status png]; [|discriminate].
  intros _. now rewrite _resize_image_size.
Qed.

Lemma generate_label_pixel_size_witness :
  let env := {| SVG_AVAILABLE := true; PIL_AVAILABLE := true;
                template_files := {[ LABEL_TEMPLATE_US := "<svg>SERIAL_NUMBER</svg>" ]};
                template_path := String.append "templates/";
                render := fun _ => Drawn (640, 480)%Z;
                pil_ok := true |} in
  option_map size (png (generate_label env "SN-1" "US")) = Some (885, 590)%Z.
Proof.
  intros env.
  apply (generate_label_pixel_size env "SN-1" "US"); reflexivity.
Defined.

End LabelFacts.

(* ===================================================================== *)
(** * Firmware validation in the uploader *)
(* ===================================================================== *)

Section UploaderFacts.
Import Uploader.

Lemma mem_extensions ext :
  existsb (String.eqb ext) FIRMWARE_EXTENSIONS = true
  <-> In ext [".elf"; ".hex"; ".uf2"].
Proof.
  unfold FIRMWARE_EXTENSIONS. rewrite existsb_exists. split.
  - intros (x & Hx & E). apply String.eqb_eq in E. now subst.
  - intros H. exists ext. split; [exact H|apply String.eqb_refl].
Qed.

Lemma verify_firmware_fails env firmware_path :
  (verify_firmware env firmware_path).1 = false
  <-> fails_validation env firmware_path.
Proof.
  unfold verify_firmware, fails_validation.
  destruct (exists_ (path env firmware_path)); cbn [negb fst];
    [|split; [now left|reflexivity]].
  destruct (is_file (path env firmware_path)); cbn [negb fst];
    [|split; [now right; left|reflexivity]].
  destruct (existsb (String.eqb (Py.lower (suffix (path env firmware_path))))
              FIRMWARE_EXTENSIONS) eqn:Hext; cbn [negb fst].
  - apply mem_extensions in Hext.
    destruct (Z.ltb_spec (st_size (path env firmware_path)) 100); cbn [fst].
    + split; [intros _; do 3 right; now left|reflexivity].
    + destruct (Z.gtb_spec (st_size (path env firmware_path)) (16 * 1024 * 1024));
        cbn [fst].
      * split; [intros _; do 4 right; lia|reflexivity].
      * split; [discriminate|].
        intros [?|[?|[?|[?|?]]]]; try discriminate; try tauto; lia.
  - split; [|reflexivity]. intros _. do 2 right. left.
    intros Hin. apply mem_extensions in Hin. congruence.
Qed.

(** C9, as stated, fails when the flashing tool itself is missing: the
    tool is looked for first, and its absence is what is reported. *)
Lemma upload_invalid_firmware_counterexample :
  let env := {| path := fun _ => {| exists_ := false; is_file := false;
                                    suffix := ""; name := ""; st_size := 0 |};
                run := fun _ => TimeoutExpired |} in
  (verify_firmware env "missing.uf2").1 = false
  /\ status (upload env "/opt/picotool" "missing.uf2").1 = PICOTOOL_NOT_FOUND
  /\ status (upload env "/opt/picotool" "missing.uf2").1 <> FIRMWARE_NOT_FOUND.
Proof. vm_compute. repeat split. discriminate. Qed.

(** C9 (amended): a firmware path fails validation exactly when the file is
    missing, is not a regular file, has an extension outside .elf, .hex and
    .uf2, or a size below 100 bytes or above 16 MiB.  For every such path,
    [upload] hands nothing to the external tool and returns a result with
    [success = false], whose status is [FIRMWARE_NOT_FOUND] when the
    flashing tool is in place and [PICOTOOL_NOT_FOUND] when it is not.
    [upload] returns [INVALID_FIRMWARE] for no input at all. *)
Theorem upload_invalid_firmware (env : Env)
    (picotool_path firmware_path : string) :
  ((verify_firmware env firmware_path).1 = false
   <-> fails_validation env firmware_path)
  /\ (fails_validation env firmware_path ->
      let '(result, commands) := upload env picotool_path firmware_path in
      commands = []
      /\ success result = false
      /\ status result
         = if _picotool_exists env picotool_path
           then FIRMWARE_NOT_FOUND else PICOTOOL_NOT_FOUND)
  /\ status (upload env picotool_path firmware_path).1 <> INVALID_FIRMWARE.
Proof.
  split; [apply verify_firmware_fails|]. split.
  - intros Hf. apply verify_firmware_fails in Hf.
    unfold upload. destruct (_picotool_exists env picotool_path); cbn [negb].
    + destruct (verify_firmware env firmware_path) as [valid msg].
      cbn [fst] in Hf. subst valid. cbn [negb]. now repeat split.
    + now repeat split.
  - unfold upload. destruct (_picotool_exists env picotool_path); cbn [negb fst status];
      [|discriminate].
    destruct (verify_firmware env firmware_path) as [[|] msg]; cbn [negb fst status];
      [|discriminate].
    destruct (run env _) as [rc out err| |e]; cbn [status]; try discriminate.
    destruct (rc =? 0)%Z; cbn [status]; [discriminate|].
    destruct (Py.contains _ _); cbn [status]; discriminate.
Qed.

Lemma upload_invalid_firmware_witness :
  let env := {| path := fun p =>
                  if String.eqb p "/opt/picotool"
                  then {| exists_ := true; is_file := true; suffix := "";
                          name := "picotool"; st_size := 900000 |}
                  else {| exists_ := true; is_file := true; suffix := ".BIN";
                          name := "fw.BIN"; st_size := 4096 |};
                run := fun _ => Completed 0 "" "" |} in
  let '(result, commands) := upload env "/opt/picotool" "fw.BIN" in
  commands = [] /\ success result = false /\ status result = FIRMWARE_NOT_FOUND.
Proof.
  intros env.
  destruct (upload_invalid_firmware env "/opt/picotool" "fw.BIN") as (Hiff & H & _).
  apply H, Hiff. reflexivity.
Defined.

End UploaderFacts.

(* ===================================================================== *)
(** * The verdict of the verifier *)
(* ===================================================================== *)

Section VerificationFacts.
Import Verification.

Lemma add_check_checks r n e a m :
  checks (add_check r n e a m).2
  = checks r ++ [ {| name := n; expected := e; actual := a;
                     passed := String.eqb (Py.lower (Py.strip e))
                                 (Py.lower (Py.strip a));
                     check_message := m |} ].
Proof. reflexivity. Qed.

(** With SYSINFO at hand, [verify] is the verdict over four checks. *)
Lemma verify_four_checks provisioner sn region fw hw :
  truthy_dict (get_system_info provisioner) = true ->
  exists result c1 c2 c3 c4,
    verify provisioner sn region fw hw = overall_status result
    /\ checks result = [c1; c2; c3; c4]
    /\ map name [c1; c2; c3; c4]
       = ["Serial Number"; "Region"; "Firmware Version"; "Hardware Version"].
Proof.
  intros Hsys. unfold verify. rewrite Hsys. cbn [negb]. cbv zeta.
  eexists. do 4 eexists. split; [reflexivity|].
  unfold _verify_hardware, _verify_firmware, _verify_region, _verify_serial_number.
  rewrite !add_check_checks.
  destruct (truthy_dict (get_network_info provisioner)); cbn [checks app];
    split; reflexivity.
Qed.

(** The verdict as a function of the four flags. *)
Lemma overall_status_four result c1 c2 c3 c4 :
  checks result = [c1; c2; c3; c4] ->
  let r := overall_status result in
  checks r = [c1; c2; c3; c4]
  /\ passed_count r + failed_count r = 4
  /\ (status r = PASSED <-> forallb passed (checks r) = true)
  /\ (status r = FAILED <-> forallb (fun c => negb (passed c)) (checks r) = true)
  /\ (status r = PARTIAL <->
      forallb passed (checks r) = false
      /\ forallb (fun c => negb (passed c)) (checks r) = false)
  /\ message r
     = match status r with
       | PASSED => "All 4 checks passed"
       | FAILED => "All 4 checks failed"
       | PARTIAL => Py.str_of_nat (passed_count r) +:+ " passed, "
                    +:+ Py.str_of_nat (failed_count r) +:+ " failed"
       | ERROR => ""
       end.
Proof.
  intros Hc r.
  assert (Hr : checks r = [c1; c2; c3; c4]).
  { unfold r, overall_status, with_status.
    destruct (_ =? _); [|destruct (_ <? _)]; exact Hc. }
  assert (Hsm : (status r, message r)
    = let n := length (List.filter passed [c1; c2; c3; c4]) in
      let f := length (List.filter (fun c => negb (passed c)) [c1; c2; c3; c4]) in
      if f =? 0
      then (PASSED, "All " +:+ Py.str_of_nat n +:+ " checks passed")
      else if 0 <? n
      then (PARTIAL, Py.str_of_nat n +:+ " passed, " +:+ Py.str_of_nat f +:+ " failed")
      else (FAILED, "All " +:+ Py.str_of_nat f +:+ " checks failed")).
  { unfold r, overall_status, with_status, passed_count, failed_count.
    rewrite Hc. cbv zeta.
    destruct (_ =? _); [|destruct (_ <? _)]; reflexivity. }
  pose proof (f_equal fst Hsm) as Hs. pose proof (f_equal snd Hsm) as Hm.
  cbn [fst snd] in Hs, Hm.
  unfold passed_count, failed_count. rewrite Hr, Hm, Hs.
  clear. cbv zeta. cbn [List.filter forallb].
  destruct (passed c1), (passed c2), (passed c3), (passed c4);
    cbn; repeat split; try reflexivity; try discriminate;
    try (intros [? ?]; discriminate).
Qed.

(** C6, as stated, fails on the early exit: without SYSINFO no check is
    recorded and the status is [ERROR], although every recorded check
    (there is none) passed. *)
Lemma verify_status_counterexample :
  let provisioner := {| get_system_info := None; get_network_info := None |} in
  let r := verify provisioner "SN-1" "EU" "1.0.0" "A" in
  status r = ERROR
  /\ length (checks r) = 0
  /\ forallb passed (checks r) = true
  /\ status r <> PASSED.
Proof. vm_compute. repeat split. discriminate. Qed.

(** C6 (amended): for every result of [verify] reached with SYSINFO at
    hand, exactly 4 checks are recorded, the status is [PASSED] iff every
    check passed, [FAILED] iff no check passed and [PARTIAL] otherwise, and
    the message gives the exact counts: "All 4 checks passed", "All 4
    checks failed", or "<p> passed, <f> failed" with the counts of the
    checks that passed and failed.  Without SYSINFO the status is [ERROR]
    and no check is recorded. *)
Theorem verify_status (provisioner : Provisioner)
    (serial_number region firmware_version hardware_version : string) :
  let r := verify provisioner serial_number region firmware_version
             hardware_version in
  (truthy_dict (get_system_info provisioner) = true ->
   length (checks r) = 4
   /\ passed_count r + failed_count r = 4
   /\ (status r = PASSED <-> forallb passed (checks r) = true)
   /\ (status r = FAILED <-> forallb (fun c => negb (passed c)) (checks r) = true)
   /\ (status r = PARTIAL <->
       forallb passed (checks r) = false
       /\ forallb (fun c => negb (passed c)) (checks r) = false)
   /\ message r
      = match status r with
        | PASSED => "All 4 checks passed"
        | FAILED => "All 4 checks failed"
        | PARTIAL => Py.str_of_nat (passed_count r) +:+ " passed, "
                     +:+ Py.str_of_nat (failed_count r) +:+ " failed"
        | ERROR => ""
        end)
  /\ (truthy_dict (get_system_info provisioner) = false ->
      status r = ERROR /\ checks r = []).
Proof.
  intros r. split.
  - intros Hsys.
    destruct (verify_four_checks provisioner serial_number region
                firmware_version hardware_version Hsys)
      as (result & c1 & c2 & c3 & c4 & Hv & Hc & _).
    unfold r. rewrite Hv.
    destruct (overall_status_four result c1 c2 c3 c4 Hc)
      as (Hc' & Hn & Hp & Hf & Hpart & Hm).
    split; [now rewrite Hc'|]. now repeat (split; [assumption|]).
  - intros Hsys. unfold r, verify. rewrite Hsys. now split.
Qed.

Lemma verify_status_witness :
  let provisioner :=
    {| get_system_info :=
         Some ({[ "serial_number" := "SN-0042"; "region" := "EU";
                  "firmware_version" := "1.0.0"; "hw_version" := "B" ]}
               : gmap string string);
       get_network_info := None |} in
  let r := verify provisioner "sn-0042" "EU" "1.0.0" "A" in
  status r = PARTIAL /\ message r = "3 passed, 1 failed".
Proof.
  intros provisioner r.
  destruct (verify_status provisioner "sn-0042" "EU" "1.0.0" "A") as [H _].
  destruct H as (_ & _ & _ & _ & Hp & Hm); [vm_compute; reflexivity|].
  fold r in Hp, Hm.
  assert (Hs : status r = PARTIAL) by (apply Hp; split; vm_compute; reflexivity).
  split; [exact Hs|]. rewrite Hm, Hs. vm_compute. reflexivity.
Defined.

End VerificationFacts.

(* ===================================================================== *)
(** * The ledger *)
(* ===================================================================== *)

Section CsvFacts.
Import Csv.

Lemma is_programmed_blank row :
  is_programmed row = negb (blank (date_programmed row)).
Proof. unfold is_programmed, blank. apply strip_falsy. Qed.

(** [first_index] finds the first row with [p], and only that one. *)
Lemma first_index_Some p i rows k :
  first_index p i rows = Some k ->
  i <= k
  /\ exists row,
       nth_error rows (k - i) = Some row
       /\ p row = true
       /\ forall j row', j < k - i -> nth_error rows j = Some row' -> p row' = false.
Proof.
  revert i. induction rows as [|r rows IH]; intros i H; [discriminate|].
  cbn [first_index] in H. destruct (p r) eqn:Hp.
  - injection H as <-. split; [lia|]. exists r.
    rewrite Nat.sub_diag. repeat split; [assumption|]. intros j row' Hj. lia.
  - apply IH in H as (Hle & row & Hn & Hrow & Hbefore).
    split; [lia|]. exists row.
    replace (k - i) with (S (k - S i)) by lia. repeat split; try assumption.
    intros [|j] row' Hj Hnth; cbn [nth_error] in Hnth.
    + now injection Hnth as <-.
    + apply (Hbefore j); [lia|assumption].
Qed.

Lemma first_index_None p i rows :
  first_index p i rows = None -> forall row, In row rows -> p row = false.
Proof.
  revert i. induction rows as [|r rows IH]; intros i H row Hin; [destruct Hin|].
  cbn [first_index] in H. destruct (p r) eqn:Hp; [discriminate|].
  destruct Hin as [<-|Hin]; [assumption|]. now apply (IH (S i)).
Qed.

Lemma nth_error_lt {A} (l : list A) n x : nth_error l n = Some x -> n < length l.
Proof. intros H. apply nth_error_Some. congruence. Qed.

(** C10: after every successful [load], the selection is the first row
    whose [date_programmed] is empty or white space only, if there is one,
    and no row is selected when every row is programmed or the file has no
    rows; the selection is a function of the file alone, so nothing of an
    earlier selection is carried over. *)
Theorem load_selects_first_unprogrammed (self : CSVManager) (d : disk)
    (path : string) (self' : CSVManager) :
  load self d path = (true, self') ->
  exists f,
    d !! path = Some (CsvText f)
    /\ _rows self' = map from_dict (records f)
    /\ _selected_index self'
       = first_index (fun row => blank (date_programmed row)) 0
           (map from_dict (records f))
    /\ match selected_row self' with
       | Some row =>
           exists i,
             _selected_index self' = Some i
             /\ nth_error (_rows self') i = Some row
             /\ blank (date_programmed row) = true
             /\ forall j row', j < i -> nth_error (_rows self') j = Some row' ->
                  blank (date_programmed row') = false
       | None =>
           _selected_index self' = None
           /\ forall row, In row (_rows self') ->
                blank (date_programmed row) = false
       end.
Proof.
  unfold load. destruct (d !! path) as [[f|[f|]]|]; try discriminate.
  intros [= <-]. exists f. split; [reflexivity|].
  unfold select_next_unprogrammed. cbn [_rows].
  set (rows := map from_dict (records f)).
  assert (Hext : first_index (fun row => negb (is_programmed row)) 0 rows
                 = first_index (fun row => blank (date_programmed row)) 0 rows).
  { generalize 0. induction rows as [|r rows' IH]; intros i; [reflexivity|].
    cbn [first_index]. rewrite is_programmed_blank, negb_involutive.
    now rewrite IH. }
  rewrite Hext. clear Hext.
  destruct (first_index (fun row => blank (date_programmed row)) 0 rows)
    as [k|] eqn:Hfirst.
  - apply first_index_Some in Hfirst as (_ & row & Hn & Hrow & Hbefore).
    rewrite Nat.sub_0_r in *.
    pose proof (nth_error_lt _ _ _ Hn) as Hlt.
    unfold select_row. cbn [_rows _selected_index].
    replace ((0 <=? Z.of_nat k) && (Z.of_nat k <? Z.of_nat (length rows)))%Z
      with true by (symmetry; apply andb_true_intro; split;
                    [apply Z.leb_le|apply Z.ltb_lt]; lia).
    rewrite bool_decide_eq_false_2 by discriminate.
    cbn [snd _rows _selected_index selected_row]. rewrite Nat2Z.id.
    repeat split. rewrite Hn. exists k. now repeat split.
  - cbn [snd _rows _selected_index selected_row]. repeat split.
    now apply (first_index_None _ 0).
Qed.

Lemma load_selects_first_unprogrammed_witness :
  let record (sn date : string) : gmap string string :=
    {[ "serial_number" := sn; "date_programmed" := date ]} in
  let d : disk :=
    {[ "ledger.csv" :=
         CsvText {| fieldnames := ["serial_number"; "date_programmed"];
                    records := [record "SN-1" "2024-01-01 10:00:00";
                                record "SN-2" "  ";
                                record "SN-3" ""] |} ]} in
  let stale := {| _path := Some "old.csv"; _rows := []; _all_columns := CSV_COLUMNS;
                  _selected_index := Some 7; _modified := true |} in
  _selected_index (load stale d "ledger.csv").2 = Some 1.
Proof.
  intros record d stale.
  destruct (load_selects_first_unprogrammed stale d "ledger.csv"
              (load stale d "ledger.csv").2) as (f & Hf & _ & Hsel & _).
  - vm_compute. reflexivity.
  - rewrite Hsel. vm_compute in Hf. injection Hf as <-. vm_compute. reflexivity.
Defined.

(** ** Reprogram tracking *)

(** A row that carries no reprogram column comes out of
    [_handle_reprogram] with a count of three: one per column written. *)
Lemma handle_reprogram_count all_columns row :
  reprogram_count row = 0 ->
  reprogram_count (_handle_reprogram all_columns row).2 = 3.
Proof.
  unfold reprogram_count. intros H0.
  apply map_size_empty_iff in H0.
  unfold _handle_reprogram. cbn [snd extra_columns].
  fold (reprogram_count row). unfold reprogram_count. rewrite H0.
  rewrite map_size_empty. cbn [Nat.add].
  rewrite !map_filter_insert_True by reflexivity.
  rewrite H0. vm_compute. reflexivity.
Qed.

Lemma string_app_inv_head a b c : a +:+ b = a +:+ c -> b = c.
Proof.
  induction a as [|x a IH]; simpl; [tauto|]. intros [= H]. now apply IH.
Qed.

(** The columns [_handle_reprogram] writes are numbered by the count of
    reprogram columns, plus one, and hold the prior date and firmware. *)
Lemma handle_reprogram_archives all_columns row :
  let n := reprogram_count row + 1 in
  let row' := (_handle_reprogram all_columns row).2 in
  extra_columns row' !! reprogram_column n "_date" = Some (date_programmed row)
  /\ extra_columns row' !! reprogram_column n "_firmware"
     = Some (firmware_version row)
  /\ (_handle_reprogram all_columns row).1
     = add_columns all_columns
         [reprogram_column n "_date"; reprogram_column n "_firmware";
          reprogram_column n "_reason"].
Proof.
  intros n row'. unfold row', _handle_reprogram. cbn [fst snd extra_columns].
  fold n.
  assert (Hne : forall a b, a <> b -> reprogram_column n a <> reprogram_column n b).
  { intros a b Hab H. unfold reprogram_column in H.
    now apply string_app_inv_head, string_app_inv_head in H. }
  repeat split.
  - rewrite !lookup_insert_ne by (apply Hne; discriminate).
    apply lookup_insert_eq.
  - rewrite lookup_insert_ne by (apply Hne; discriminate).
    apply lookup_insert_eq.
Qed.

(** C1: the code at a programmed row without any reprogram column.  The
    first update archives the prior values under [reprogram_1_*], and the
    reprogram count of the row is then 3, not 1; the next update therefore
    writes [reprogram_4_*] columns, and no [reprogram_2_*] column exists. *)
Theorem reprogram_tracking_counts_columns :
  let row :=
    {| serial_number := "SN-0001"; date_programmed := "2024-01-01 10:00:00";
       firmware_version := "1.0.0"; hardware_version := "A";
       region_code := "EU"; batch_id := "B1"; notes := "";
       extra_columns := ∅ |} in
  let m0 := {| _path := Some "ledger.csv"; _rows := [row];
               _all_columns := CSV_COLUMNS; _selected_index := Some 0;
               _modified := false |} in
  exists m1 m2 row1 row2,
    update_selected_row m0 "1.1.0" "A" "EU" "B1" "" true "2024-02-02 10:00:00"
    = Some (true, m1)
    /\ _rows m1 = [row1]
    /\ extra_columns row1
       = {[ "reprogram_1_date" := "2024-01-01 10:00:00";
            "reprogram_1_firmware" := "1.0.0";
            "reprogram_1_reason" := "Reprogrammed (1)" ]}
    /\ reprogram_count row1 = 3
    /\ update_selected_row m1 "1.2.0" "A" "EU" "B1" "" true "2024-03-03 10:00:00"
       = Some (true, m2)
    /\ _rows m2 = [row2]
    /\ _all_columns m2
       = CSV_COLUMNS
         ++ ["reprogram_1_date"; "reprogram_1_firmware"; "reprogram_1_reason";
             "reprogram_4_date"; "reprogram_4_firmware"; "reprogram_4_reason"]
    /\ extra_columns row2 !! "reprogram_2_date" = None
    /\ extra_columns row2 !! "reprogram_4_date" = Some "2024-02-02 10:00:00"
    /\ extra_columns row2 !! "reprogram_4_firmware" = Some "1.1.0".
Proof.
  intros row m0. do 4 eexists.
  split; [vm_compute; reflexivity|].
  split; [reflexivity|].
  split; [vm_compute; reflexivity|].
  split; [vm_compute; reflexivity|].
  split; [vm_compute; reflexivity|].
  split; [reflexivity|].
  repeat split; vm_compute; reflexivity.
Qed.

End CsvFacts.

(* ===================================================================== *)
(** * The workflow after a failed upload *)
(* ===================================================================== *)

Section WorkflowFacts.
Import Workflow.

Variable P : State -> Prop.

Lemma preserves_ret {A} (a : A) : preserves P (ret a).
Proof. intros s Hs. exact Hs. Qed.

Lemma preserves_bind {A B} (m : M A) (k : A -> M B) :
  preserves P m -> (forall a, preserves P (k a)) -> preserves P (bind m k).
Proof.
  intros Hm Hk s Hs. unfold bind. specialize (Hm s Hs).
  destruct (m s) as [a s'| |]; try assumption. now apply Hk.
Qed.

Lemma preserves_raise {A} e : preserves P (@raise A e).
Proof. intros s Hs. exact Hs. Qed.

Lemma preserves_return {A} : preserves P (@return_ A).
Proof. intros s Hs. exact Hs. Qed.

Lemma preserves_when b m : preserves P m -> preserves P (when b m).
Proof. intros Hm. destruct b; [exact Hm|apply preserves_ret]. Qed.

Lemma preserves_check_stop env k : preserves P (check_stop env k).
Proof. apply preserves_when, preserves_return. Qed.

(** A step that reads the state and then runs a computation chosen from it. *)
Lemma preserves_get_bind {B} (k : State -> M B) :
  (forall s, P s -> preserves P (k s)) -> preserves P (bind get k).
Proof. intros Hk s Hs. unfold bind, get. now apply Hk. Qed.

Lemma preserves_put s' : P s' -> preserves P (put s').
Proof. intros Hs' s _. exact Hs'. Qed.

End WorkflowFacts.

Section UploadFailure.
Import Workflow.

Variable r : Uploader.UploadResult.

Ltac keeps :=
  repeat lazymatch goal with
  | |- preserves _ (bind get _) => apply preserves_get_bind; intros ? ?
  | |- preserves _ (bind _ _) => apply preserves_bind; [|intros ?]
  | |- preserves _ (check_stop _ _) => apply preserves_check_stop
  | |- preserves _ (when _ _) => apply preserves_when
  | |- preserves _ (raise _) => apply preserves_raise
  | |- preserves _ (ret _) => apply preserves_ret
  | |- preserves _ (put _) => apply preserves_put; assumption
  end.

Lemma _queue_message_keeps msg : preserves (has_upload r) (_queue_message msg).
Proof. unfold _queue_message. keeps. Qed.

Lemma update_report_keeps f : preserves (has_upload r) (update_report f).
Proof. unfold update_report. keeps. Qed.

Lemma set_csv_keeps m d : preserves (has_upload r) (set_csv m d).
Proof. unfold set_csv. keeps. Qed.

Lemma update_ctx_keeps f :
  (forall c, upload_result (f c) = upload_result c) ->
  preserves (has_upload r) (update_ctx f).
Proof.
  intros Hf. unfold update_ctx. apply preserves_get_bind. intros s Hs.
  apply preserves_put. unfold has_upload in *. cbn [ctx]. now rewrite Hf.
Qed.

Ltac keeps_steps :=
  repeat lazymatch goal with
  | |- preserves _ (bind get _) => apply preserves_get_bind; intros ? ?
  | |- preserves _ (bind _ _) => apply preserves_bind; [|intros ?]
  | |- preserves _ (check_stop _ _) => apply preserves_check_stop
  | |- preserves _ (_queue_message _) => apply _queue_message_keeps
  | |- preserves _ (update_report _) => apply update_report_keeps
  | |- preserves _ (set_csv _ _) => apply set_csv_keeps
  | |- preserves _ (update_ctx _) => apply update_ctx_keeps; reflexivity
  | |- preserves _ (when _ _) => apply preserves_when
  | |- preserves _ (raise _) => apply preserves_raise
  | |- preserves _ (ret _) => apply preserves_ret
  end.

(** No step after the upload touches the upload result. *)
Lemma after_upload_keeps env : preserves (has_upload r) (after_upload env).
Proof.
  unfold after_upload, step_wait_for_serial, step_provisioning,
    step_verification, step_label, step_report, step_update_csv.
  keeps_steps.
  - destruct (generate_report env); keeps_steps.
  - destruct (Csv.update_selected_row _ _ _ _ _ _ _ _) as [[[|] m]|];
      [destruct (Csv.save _ _ _) as [[? ?] ?]| |]; keeps_steps.
Qed.

(** How the upload step can end. *)
Lemma step_upload_cases env s :
  match step_upload env s with
  | Return s' => s' = s
  | Raise e s' =>
      exists result,
        has_upload result s'
        /\ Uploader.success result = false
        /\ e = "Firmware upload failed: " +:+ Uploader.message result
        /\ queue s' = queue s ++ [MsgState UPLOADING_FIRMWARE]
        /\ csv_manager s' = csv_manager s
        /\ files s' = files s
  | Continue _ s' =>
      exists result, has_upload result s' /\ Uploader.success result = true
  end.
Proof.
  unfold step_upload, check_stop, when, bind, return_, ret.
  destruct (stop_requested env 1); [reflexivity|].
  unfold _queue_message, get, put, bind. cbn [ctx queue].
  destruct (Uploader.upload _ _ _) as [result cmds].
  unfold record_commands, update_ctx, update_report, bind, get, put, raise, ret.
  cbn [ctx queue report csv_manager files commands].
  destruct (Uploader.success result) eqn:Hs; cbn [negb].
  - exists result. now split.
  - exists result. now repeat split.
Qed.

End UploadFailure.

Section ShortCircuit.
Import Workflow.

(** C7: in every run of the workflow, if the upload result has
    [success = false], the worker queues the state UPLOADING_FIRMWARE and
    then the error and nothing else, so that the GUI enters none of
    WAITING_FOR_SERIAL, PROVISIONING, VERIFYING, GENERATING_LABEL,
    GENERATING_REPORT, UPDATING_CSV and COMPLETED and ends in ERROR; the
    ledger in memory and the ledger file are left as they were. *)
Theorem upload_failure_short_circuit (env : Env) (row : Csv.CSVRow)
    (firmware_version hardware_version region_code batch_id notes
       firmware_path device_path : string)
    (m : Csv.CSVManager) (d : Csv.disk) (r : Uploader.UploadResult) (g : Gui) :
  let s := _run_workflow env
             (start row firmware_version hardware_version region_code
                batch_id notes firmware_path device_path m d) in
  upload_result (ctx s) = Some r ->
  Uploader.success r = false ->
  queue s = [MsgState UPLOADING_FIRMWARE;
             MsgError ("Firmware upload failed: " +:+ Uploader.message r)]
  /\ csv_manager s = m
  /\ files s = d
  /\ (pump g (queue s)).2 = [UPLOADING_FIRMWARE; ERROR]
  /\ workflow_state (pump g (queue s)).1 = ERROR
  /\ forall state,
       In state [WAITING_FOR_SERIAL; PROVISIONING; VERIFYING; GENERATING_LABEL;
                 GENERATING_REPORT; UPDATING_CSV; COMPLETED] ->
       ~ In state (pump g (queue s)).2.
Proof.
  intros s Hr Hfail.
  set (s0 := start row firmware_version hardware_version region_code
               batch_id notes firmware_path device_path m d) in *.
  assert (Hq : queue s = [MsgState UPLOADING_FIRMWARE;
                          MsgError ("Firmware upload failed: " +:+ Uploader.message r)]
               /\ csv_manager s = m /\ files s = d).
  { revert Hr. unfold s, _run_workflow, body, bind.
    pose proof (step_upload_cases env s0) as Hup.
    destruct (step_upload env s0) as [[] s1|s1|e s1].
    - destruct Hup as (result & Hkeep & Hok).
      pose proof (after_upload_keeps result env s1 Hkeep) as Hafter.
      destruct (after_upload env s1) as [[] s2|s2|e s2];
        cbn [ctx]; unfold has_upload in Hafter; congruence.
    - subst s1. discriminate.
    - destruct Hup as (result & Hkeep & Hbad & -> & Hqueue & Hcsv & Hfiles).
      cbn [ctx queue csv_manager files]. unfold has_upload in Hkeep.
      intros Hr. assert (result = r) by congruence. subst result.
      rewrite Hqueue, Hcsv, Hfiles. now repeat split. }
  destruct Hq as (Hq & Hcsv & Hfiles). rewrite Hq.
  repeat split; try assumption.
  intros state Hin Hstate. cbn [pump process snd workflow_state
    _update_workflow_state _on_workflow_error] in Hstate.
  destruct Hstate as [<-|[<-|[]]];
    repeat (destruct Hin as [Hin|Hin]; [discriminate|]); destruct Hin.
Qed.

Lemma upload_failure_short_circuit_witness :
  let path := fun p : string =>
    if String.eqb p "/opt/picotool"
    then {| Uploader.exists_ := true; Uploader.is_file := true;
            Uploader.suffix := ""; Uploader.name := "picotool";
            Uploader.st_size := 900000 |}
    else {| Uploader.exists_ := true; Uploader.is_file := true;
            Uploader.suffix := ".uf2"; Uploader.name := "fw.uf2";
            Uploader.st_size := 4096 |} in
  let env :=
    {| stop_requested := fun _ => false;
       picotool_path := "/opt/picotool";
       uploader := {| Uploader.path := path;
                      Uploader.run := fun _ =>
                        Uploader.Completed 1 "" "No accessible RP2040 devices" |};
       wait_for_serial_port := Some "/dev/ttyACM0";
       provision := {| prov_status := PROV_SUCCESS; prov_message := "" |};
       provisioner_port := Some "/dev/ttyACM0";
       reboot_and_reconnect_wait_ready := None;
       provisioner := {| Verification.get_system_info := None;
                         Verification.get_network_info := None |};
       label := {| Label.SVG_AVAILABLE := true; Label.PIL_AVAILABLE := true;
                   Label.template_files := ∅;
                   Label.template_path := String.append "templates/";
                   Label.render := fun _ => Label.RenderError "no SVG";
                   Label.pil_ok := true |};
       auto_print_label := false; print_label := false;
       generate_report := Some "/artefacts/SN-1";
       now := "2024-05-05 12:00:00"; write_ok := true |} in
  let row := {| Csv.serial_number := "SN-1"; Csv.date_programmed := "";
                Csv.firmware_version := ""; Csv.hardware_version := "";
                Csv.region_code := ""; Csv.batch_id := ""; Csv.notes := "";
                Csv.extra_columns := ∅ |} in
  let m := {| Csv._path := Some "ledger.csv"; Csv._rows := [row];
              Csv._all_columns := Csv.CSV_COLUMNS;
              Csv._selected_index := Some 0; Csv._modified := false |} in
  let g := {| workflow_state := IDLE; programming_active := true;
              has_context := true; dialogs := [] |} in
  let s := _run_workflow env (start row "1.0.0" "A" "EU" "B1" "" "fw.uf2" "/media/RPI-RP2" m ∅) in
  (pump g (queue s)).2 = [UPLOADING_FIRMWARE; ERROR]
  /\ csv_manager s = m /\ files s = ∅.
Proof.
  intros path env row m g s.
  destruct (upload_failure_short_circuit env row "1.0.0" "A" "EU" "B1" ""
              "fw.uf2" "/media/RPI-RP2" m ∅
              {| Uploader.status := Uploader.NO_DEVICE;
                 Uploader.message := "No RP2040 device found in BOOTSEL mode";
                 Uploader.exit_code := 1; Uploader.stdout := "";
                 Uploader.stderr := "No accessible RP2040 devices" |} g)
    as (_ & Hcsv & Hfiles & Htrace & _).
  - vm_compute. reflexivity.
  - reflexivity.
  - now repeat split.
Defined.

End ShortCircuit.

(* ===================================================================== *)
(** * Verification after a deployment *)
(* ===================================================================== *)

Section DeployFacts.
Import Deploy.

(** A serial number read from the banner starts with [SN-]. *)
Lemma re_search_device_serial_truthy line g :
  re_search match_device_serial line = Some g -> Py.truthy g = true.
Proof.
  assert (Hat : forall s g', match_device_serial s = Some g' -> Py.truthy g' = true).
  { intros s g'. unfold match_device_serial.
    destruct (strip_literal _ s); [|discriminate].
    destruct (colon_between_spaces _); [|discriminate].
    destruct (strip_literal _ _); [|discriminate].
    destruct (span_digits _) as [[|c dgt] rest]; [discriminate|].
    now intros [= <-]. }
  induction line as [|c line IH]; cbn [re_search];
    destruct (match_device_serial _) eqn:E; intros H;
    try discriminate; try (injection H as <-; eauto).
  now apply IH.
Qed.

(** The loop reports a verified device only with the expected serial
    number, and any serial number it reports is not empty. *)
Lemma monitor_loop_result events target ds df v ds' df' :
  Py.truthy target = true ->
  (forall d, ds = Some d -> Py.truthy d = true) ->
  monitor_loop events (Some target) ds df = (v, ds', df') ->
  (v = true -> ds' = Some target)
  /\ (forall d, ds' = Some d -> Py.truthy d = true).
Proof.
  intros Ht. revert ds df.
  induction events as [|[raw|] events IH]; intros ds df Hds H;
    cbn [monitor_loop] in H.
  - injection H as <- <- <-. split; [discriminate|exact Hds].
  - destruct (Py.truthy (Py.strip raw)); [|now apply (IH ds df)].
    set (ds1 := match re_search match_device_serial (Py.strip raw) with
                | Some g => Some g | None => ds end) in *.
    set (df1 := match re_search match_firmware_ver (Py.strip raw) with
                | Some g => Some g | None => df end) in *.
    assert (Hds1 : forall d, ds1 = Some d -> Py.truthy d = true).
    { intros d. unfold ds1.
      destruct (re_search match_device_serial (Py.strip raw)) eqn:E.
      - intros [= <-]. eapply re_search_device_serial_truthy; eassumption.
      - apply Hds. }
    destruct (Py.truthy_opt ds1 && Py.truthy_opt df1); [|now apply (IH ds1 df1)].
    cbn [Py.truthy_opt] in H. rewrite Ht in H. cbn [andb] in H.
    destruct (Py.differs ds1 (Some target)) eqn:Hdiff;
      injection H as <- <- <-; split; try discriminate; try assumption.
    intros _. destruct ds1 as [d|]; [|discriminate].
    cbn [Py.differs] in Hdiff. apply negb_false_iff, String.eqb_eq in Hdiff.
    now subst.
  - injection H as <- <- <-. split; [discriminate|exact Hds].
Qed.

Lemma monitor_serial_port_result env port target v ds df :
  Py.truthy target = true ->
  monitor_serial_port env port (Some target) = (v, ds, df) ->
  (v = true -> ds = Some target)
  /\ (forall d, ds = Some d -> Py.truthy d = true).
Proof.
  intros Ht. unfold monitor_serial_port.
  destruct (serial_open env port) as [events|].
  - apply monitor_loop_result; [assumption|discriminate].
  - intros [= <- <- <-]. split; discriminate.
Qed.

(** After a flash that went through, with verification on, the outcome is
    the one of the block that waits for the port and reads the banner. *)
Lemma deploy_firmware_after_flash env fs force sn reprogram :
  Py.truthy_opt (get_uf2_path env) = true ->
  flash_went_through env fs (Some sn) = true ->
  (deploy_firmware env fs force (Some sn) true reprogram).1
  = after_flash env (Some sn) reprogram.
Proof.
  intros Huf2 Hflash. unfold deploy_firmware. rewrite Huf2. cbn [negb].
  unfold flash_went_through, image_after_marking in Hflash.
  cbn [Py.truthy_opt default] in *.
  assert (Hpair : forall (q : option string * UF2.filesystem),
    (Py.truthy_opt (get_elf_path env)
     && path_exists env (default "" (get_elf_path env))
     && flash_with_picotool env (default "" (get_elf_path env))
     || flash_image env q.1) = true ->
    (let '(uf2_path, fs0) := q in
     if Py.truthy_opt (get_elf_path env)
        && path_exists env (default "" (get_elf_path env))
     then
       if flash_with_picotool env (default "" (get_elf_path env))
       then (after_flash env (Some sn) reprogram, fs0)
       else (if flash_image env uf2_path
             then after_flash env (Some sn) reprogram else PicotoolFailed, fs0)
     else (if flash_image env uf2_path
           then after_flash env (Some sn) reprogram else PicotoolFailed, fs0)).1
    = after_flash env (Some sn) reprogram).
  { intros [uf2_path fs0] H. cbn [fst] in H.
    destruct (Py.truthy_opt (get_elf_path env)
              && path_exists env (default "" (get_elf_path env)));
      cbn [andb orb] in H.
    - destruct (flash_with_picotool env (default "" (get_elf_path env)));
        cbn [orb fst] in *; [reflexivity|]. now rewrite H.
    - cbn [fst]. now rewrite H. }
  destruct (Py.truthy sn); cbn [negb].
  - apply (Hpair (UF2.modify_uf2_with_serial (image_writable env) fs
                    (default "" (get_uf2_path env)) sn)). exact Hflash.
  - apply (Hpair (get_uf2_path env, fs)). exact Hflash.
Qed.

(** C8: in [deploy_firmware] with verification on and an expected serial
    number given, once a flash has gone through: a detected serial number
    other than the expected one gives a failure, unless the reprogram flag
    is set, which gives success with a warning; and when no new serial port
    shows up during the wait, or the banner read ends without a serial
    number that contradicts the expected one, the result is success.  The
    port is the one [wait_for_new_serial_port] returns, whichever of the
    new ports the set yields first. *)
Theorem deploy_firmware_verification (env : Env) (fs : UF2.filesystem)
    (force : bool) (sn : string) (reprogram : bool) :
  Py.truthy_opt (get_uf2_path env) = true ->
  Py.truthy sn = true ->
  flash_went_through env fs (Some sn) = true ->
  let outcome := (deploy_firmware env fs force (Some sn) true reprogram).1 in
  match wait_for_new_serial_port env with
  | None => outcome = NoSerialPortAppeared /\ returns outcome = true
  | Some port =>
      Py.truthy port = true ->
      match (monitor_serial_port env port (Some sn)).1.2 with
      | Some detected_serial =>
          if String.eqb detected_serial sn
          then returns outcome = true
          else outcome = (if reprogram then MismatchAcceptedWithWarning
                          else MismatchError)
               /\ returns outcome = reprogram
      | None => outcome = VerificationFailedOrTimedOut /\ returns outcome = true
      end
  end.
Proof.
  intros Huf2 Hsn Hflash outcome. unfold outcome.
  rewrite deploy_firmware_after_flash by assumption.
  unfold after_flash.
  destruct (wait_for_new_serial_port env) as [port|]; [|now split].
  intros Hport. cbn [Py.truthy_opt default id]. rewrite Hport.
  destruct (monitor_serial_port env port (Some sn)) as [[v ds] df] eqn:Hmon.
  apply monitor_serial_port_result in Hmon as [Hv Hds]; [|assumption].
  cbn [fst snd Py.truthy_opt]. rewrite Hsn.
  destruct ds as [d|]; cbn [Py.truthy_opt].
  - rewrite (Hds d eq_refl). cbn [andb Py.differs].
    destruct (String.eqb_spec d sn) as [->|Hne]; cbn [negb].
    + now destruct v.
    + destruct v; [specialize (Hv eq_refl); congruence|].
      now destruct reprogram.
  - cbn [andb]. destruct v; [specialize (Hv eq_refl); discriminate|now split].
Qed.

Lemma deploy_firmware_verification_witness :
  let env :=
    {| get_uf2_path := Some "build/fw.uf2";
       get_elf_path := Some "build/fw.elf";
       path_exists := fun _ => true;
       flash_with_picotool := fun _ => true;
       image_writable := fun _ => true;
       initial_ports := ["COM1"];
       port_scans := [["COM1"]; ["COM1"; "COM7"; "COM8"]];
       set_first := fun _ => 1;
       serial_open := fun port =>
         if String.eqb port "COM8"
         then Some [Line "Booting..."; Line "Device Serial : SN-0007";
                    Line "Firmware Ver : 1.0.0"]
         else None |} in
  let fs : UF2.filesystem := {[ "build/fw.uf2" := list_byte_of_string "UF2" ]} in
  wait_for_new_serial_port env = Some "COM8"
  /\ (deploy_firmware env fs false (Some "SN-0042") true false).1 = MismatchError
  /\ (deploy_firmware env fs false (Some "SN-0042") true true).1
     = MismatchAcceptedWithWarning.
Proof.
  intros env fs.
  pose proof (deploy_firmware_verification env fs false "SN-0042" false
                eq_refl eq_refl eq_refl) as Hplain.
  pose proof (deploy_firmware_verification env fs false "SN-0042" true
                eq_refl eq_refl eq_refl) as Hreprogram.
  cbv zeta in Hplain, Hreprogram.
  remember (deploy_firmware env fs false (Some "SN-0042") true false).1 as plain.
  remember (deploy_firmware env fs false (Some "SN-0042") true true).1 as again.
  vm_compute in Hplain, Hreprogram.
  split; [vm_compute; reflexivity|].
  split; [apply (Hplain eq_refl)|apply (Hreprogram eq_refl)].
Defined.

End DeployFacts.

(* ===================================================================== *)
(** * Further properties of the UF2 tools *)
(* ===================================================================== *)

Section UF2More.
Import UF2.

Lemma modify_uf2_with_serial_effect_core (writable : string -> bool)
    (fs : filesystem) (path serial : string) :
  modify_uf2_with_serial writable fs path serial
  = match fs !! path, encode_ascii (marker serial) with
    | Some buffer, Some m =>
        if Py.truthy serial
        then if writable path
             then (Some path,
                   <[path := marked_chunks m ((length buffer - 1) / interval)
                               buffer]> fs)
             else (None, fs)
        else (Some path, fs)
    | _, _ => (Some path, fs)
    end.
Proof.
  unfold modify_uf2_with_serial.
  destruct (Py.truthy serial) eqn:Hs; cbn [negb].
  2:{ destruct (fs !! path), (encode_ascii (marker serial)); reflexivity. }
  unfold read, init. cbn [uf2_path].
  destruct (fs !! path) as [buffer|] eqn:Hfile; [|reflexivity].
  destruct (encode_ascii (marker serial)) as [m|] eqn:Hm.
  - assert (Hwork : working_buffer fs {| uf2_path := path; data := Some buffer |}
                    = Some buffer).
    { unfold working_buffer. cbn [data uf2_path]. now destruct buffer. }
    rewrite (embed_serial_number_ok fs _ buffer serial m Hwork Hs Hm).
    unfold write. cbn [Py.truthy_opt uf2_path data].
    now destruct (writable path).
  - unfold embed_serial_number. rewrite Hs. cbn [negb data].
    unfold read. cbn [uf2_path]. rewrite Hfile, Hm.
    now destruct buffer.
Qed.

(** [modify_uf2_with_serial] in closed form.  When the serial number is
    empty, the image cannot be read, or the marker does not encode as
    ASCII, it hands back the path it was given and the files stay as they
    are.  Otherwise the outcome hangs on the image being opened for
    writing: if it is, the image, and no other file, is replaced by its
    bytes with the markers put in, and the path is handed back; if it is
    not, the result is [None] and the files stay as they are. *)
Theorem modify_uf2_with_serial_effect (writable : string -> bool)
    (fs : filesystem) (path serial : string) :
  modify_uf2_with_serial writable fs path serial
  = match fs !! path, encode_ascii (marker serial) with
    | Some buffer, Some m =>
        if Py.truthy serial
        then if writable path
             then (Some path,
                   <[path := marked_chunks m ((length buffer - 1) / interval)
                               buffer]> fs)
             else (None, fs)
        else (Some path, fs)
    | _, _ => (Some path, fs)
    end.
Proof. apply modify_uf2_with_serial_effect_core. Qed.

Lemma span_not_colon_split (d g r : bytes) :
  span_not_colon d = (g, r) ->
  d = g ++ r /\ Forall (fun b => Byte.eqb b colon = false) g.
Proof.
  revert g r. induction d as [|b d IH]; intros g r H; cbn [span_not_colon] in H.
  - injection H as <- <-. now split.
  - destruct (Byte.eqb b colon) eqn:Hb.
    + injection H as <- <-. now split.
    + destruct (span_not_colon d) as [g' r'] eqn:E. injection H as <- <-.
      destruct (IH g' r' eq_refl) as [-> Hg]. split; [reflexivity|].
      now constructor.
Qed.

Lemma match_marker_Some (d g : bytes) :
  match_marker d = Some g ->
  exists post,
    d = DEVICE_ID_ ++ g ++ _END ++ post
    /\ g <> [] /\ Forall (fun b => Byte.eqb b colon = false) g.
Proof.
  unfold match_marker.
  destruct (strip_literal DEVICE_ID_ d) as [r|] eqn:Hlit; [|discriminate].
  apply strip_literal_Some in Hlit as ->.
  destruct (span_not_colon r) as [g' r'] eqn:Hspan.
  apply span_not_colon_split in Hspan as [-> Hg].
  destruct g' as [|b g']; [discriminate|].
  destruct (strip_literal _END r') as [post|] eqn:Hend; [|discriminate].
  apply strip_literal_Some in Hend as ->.
  intros [= <-]. exists post. now repeat split.
Qed.

Lemma re_search_marker_Some (d g : bytes) :
  re_search_marker d = Some g ->
  exists pre post,
    d = pre ++ DEVICE_ID_ ++ g ++ _END ++ post
    /\ g <> [] /\ Forall (fun b => Byte.eqb b colon = false) g.
Proof.
  induction d as [|b d IH]; cbn [re_search_marker];
    destruct (match_marker _) as [g'|] eqn:Hm; intros H; try discriminate.
  - injection H as <-. apply match_marker_Some in Hm as (post & ? & ? & ?).
    now exists [], post.
  - destruct (IH H) as (pre & post & -> & ? & ?).
    now exists (b :: pre), post.
Qed.

Lemma re_search_marker_None (d : bytes) :
  occurrences DEVICE_ID_ d = 0 -> re_search_marker d = None.
Proof.
  induction d as [|b d IH]; cbn [occurrences re_search_marker]; intros H.
  - reflexivity.
  - destruct (strip_literal DEVICE_ID_ (b :: d)) eqn:E; [lia|].
    rewrite match_marker_no_literal by assumption. apply IH. lia.
Qed.

Lemma decode_ascii_not_empty (g : bytes) s :
  decode_ascii g = Some s -> g <> [] -> s <> "".
Proof.
  destruct g as [|b g]; [congruence|]. cbn [decode_ascii].
  destruct (Py.is_ascii _); [|discriminate].
  destruct (decode_ascii g); cbn [option_map]; [|discriminate].
  intros [= <-] _. discriminate.
Qed.

(** What [extract_serial_from_uf2] returns was found in the file: the file
    holds [DEVICE_ID:], then the bytes of the result, then [:END]; the
    result is not empty and has no colon.  A file without the bytes
    [DEVICE_ID:], like a file that cannot be read, gives [None]. *)
Theorem extract_serial_from_uf2_sound (fs : filesystem) (path : string) :
  (forall s,
     extract_serial_from_uf2 fs path = Some s ->
     exists d pre g post,
       fs !! path = Some d
       /\ d = pre ++ DEVICE_ID_ ++ g ++ _END ++ post
       /\ decode_ascii g = Some s
       /\ s <> ""
       /\ Forall (fun b => Byte.eqb b colon = false) g)
  /\ (fs !! path = None -> extract_serial_from_uf2 fs path = None)
  /\ (forall d, fs !! path = Some d -> occurrences DEVICE_ID_ d = 0 ->
        extract_serial_from_uf2 fs path = None).
Proof.
  unfold extract_serial_from_uf2, bytes. repeat split.
  - intros s. destruct (fs !! path) as [d|]; [|discriminate].
    destruct (re_search_marker d) as [g|] eqn:Hg; [|discriminate].
    intros Hdec. apply re_search_marker_Some in Hg as (pre & post & -> & Hne & Hcol).
    exists (pre ++ DEVICE_ID_ ++ g ++ _END ++ post), pre, g, post.
    repeat split; try assumption. eapply decode_ascii_not_empty; eassumption.
  - intros H. now rewrite H.
  - intros d H H0. now rewrite H, re_search_marker_None.
Qed.

End UF2More.

(* ===================================================================== *)
(** * Further properties of the ledger *)
(* ===================================================================== *)

Section CsvMore.
Import Csv CsvInv.

Lemma mem_In col columns : mem col columns = true <-> In col columns.
Proof.
  unfold mem. rewrite existsb_exists. split.
  - intros (x & Hin & Heq). apply String.eqb_eq in Heq. now subst.
  - intros Hin. exists col. split; [assumption|apply String.eqb_refl].
Qed.

Lemma mem_not_In col columns : mem col columns = false <-> ~ In col columns.
Proof.
  rewrite <- mem_In. destruct (mem col columns); split; congruence.
Qed.

Lemma add_columns_app columns names1 names2 :
  add_columns columns (names1 ++ names2)
  = add_columns (add_columns columns names1) names2.
Proof. apply fold_left_app. Qed.

Lemma add_columns_extends columns names :
  exists rest, add_columns columns names = columns ++ rest.
Proof.
  revert columns. induction names as [|n names IH]; intros columns.
  - exists []. cbn. now rewrite app_nil_r.
  - cbn [add_columns fold_left]. destruct (mem n columns).
    + apply IH.
    + destruct (IH (columns ++ [n])) as [rest Hrest]. exists (n :: rest).
      unfold add_columns in Hrest. rewrite Hrest.
      now rewrite <- List.app_assoc.
Qed.

Lemma add_columns_In columns names k :
  In k (add_columns columns names) <-> In k columns \/ In k names.
Proof.
  revert columns. induction names as [|n names IH]; intros columns.
  - cbn. tauto.
  - cbn [add_columns fold_left]. destruct (mem n columns) eqn:Hn.
    + fold (add_columns columns names). rewrite IH. apply mem_In in Hn.
      cbn [In]. intuition (subst; auto).
    + fold (add_columns (columns ++ [n]) names). rewrite IH, in_app_iff.
      cbn [In]. tauto.
Qed.

Lemma add_columns_NoDup columns names :
  NoDup columns -> NoDup (add_columns columns names).
Proof.
  revert columns. induction names as [|n names IH]; intros columns Hnd.
  - exact Hnd.
  - cbn [add_columns fold_left]. destruct (mem n columns) eqn:Hn.
    + now apply IH.
    + apply IH. apply mem_not_In in Hn. apply NoDup_app. repeat split.
      * assumption.
      * intros x Hx [<-|[]]%list_elem_of_In. now apply list_elem_of_In in Hx.
      * apply NoDup_singleton.
Qed.

Lemma add_columns_known columns names :
  (forall n, In n names -> In n columns) -> add_columns columns names = columns.
Proof.
  induction names as [|n names IH]; intros H; [reflexivity|].
  cbn [add_columns fold_left].
  assert (Hn : mem n columns = true) by (apply mem_In, H; now left).
  rewrite Hn. apply IH. intros x Hx. apply H. now right.
Qed.

Lemma add_columns_fresh columns names :
  NoDup (columns ++ names) -> add_columns columns names = columns ++ names.
Proof.
  revert columns. induction names as [|n names IH]; intros columns Hnd.
  - cbn. now rewrite app_nil_r.
  - cbn [add_columns fold_left].
    assert (Hn : mem n columns = false).
    { apply mem_not_In. intros Hin. apply NoDup_app in Hnd as (_ & Hdis & _).
      apply (Hdis n); [now apply list_elem_of_In|]. now left. }
    rewrite Hn. fold (add_columns (columns ++ [n]) names).
    rewrite IH; rewrite <- List.app_assoc; [reflexivity|exact Hnd].
Qed.

Lemma add_columns_ok columns names :
  columns_ok columns -> columns_ok (add_columns columns names).
Proof.
  intros [Hnd [rest ->]]. split; [now apply add_columns_NoDup|].
  destruct (add_columns_extends (CSV_COLUMNS ++ rest) names) as [rest' ->].
  exists (rest ++ rest'). now rewrite List.app_assoc.
Qed.

Lemma columns_ok_base : columns_ok CSV_COLUMNS.
Proof.
  split; [|exists []; reflexivity].
  unfold CSV_COLUMNS. repeat constructor; rewrite ?elem_of_cons, ?elem_of_nil;
    intuition discriminate.
Qed.

(** Reloading a well-formed header gives the same column list. *)
Lemma add_columns_reload columns :
  columns_ok columns -> add_columns CSV_COLUMNS columns = columns.
Proof.
  intros [Hnd [rest ->]]. rewrite add_columns_app.
  rewrite (add_columns_known CSV_COLUMNS CSV_COLUMNS) by tauto.
  now apply add_columns_fresh.
Qed.

(** The cells of [to_dict]: the base fields under their names, and under
    every other listed column the extra cell, or the empty string. *)
Lemma to_dict_fold (row : CSVRow) columns (acc : gmap string string) k :
  fold_left (fun result col =>
               match result !! col with
               | Some _ => result
               | None => <[col := default "" (extra_columns row !! col)]> result
               end) columns acc !! k
  = match acc !! k with
    | Some v => Some v
    | None => if mem k columns
              then Some (default "" (extra_columns row !! k)) else None
    end.
Proof.
  revert acc. induction columns as [|c columns IH]; intros acc.
  - cbn. now destruct (acc !! k).
  - cbn [fold_left]. rewrite IH. unfold mem. cbn [existsb].
    fold (mem k columns).
    destruct (acc !! c) eqn:Hc.
    + destruct (acc !! k) eqn:Hk; [reflexivity|].
      destruct (String.eqb_spec k c) as [->|Hne]; [congruence|reflexivity].
    + destruct (String.eqb_spec k c) as [->|Hne].
      * rewrite lookup_insert_eq, Hc. reflexivity.
      * rewrite lookup_insert_ne by congruence. reflexivity.
Qed.

Lemma to_dict_base (row : CSVRow) columns :
  let data := to_dict row columns in
  data !! "serial_number" = Some (serial_number row)
  /\ data !! "date_programmed" = Some (date_programmed row)
  /\ data !! "firmware_version" = Some (firmware_version row)
  /\ data !! "hardware_version" = Some (hardware_version row)
  /\ data !! "region_code" = Some (region_code row)
  /\ data !! "batch_id" = Some (batch_id row)
  /\ data !! "notes" = Some (notes row).
Proof.
  cbv zeta. unfold to_dict. rewrite !to_dict_fold.
  repeat split;
    repeat (rewrite lookup_insert_ne by discriminate);
    now rewrite lookup_insert_eq.
Qed.

Lemma to_dict_extra (row : CSVRow) columns k :
  ~ In k CSV_COLUMNS ->
  to_dict row columns !! k
  = if mem k columns then Some (default "" (extra_columns row !! k)) else None.
Proof.
  intros Hk. unfold to_dict. rewrite to_dict_fold.
  unfold CSV_COLUMNS in Hk. cbn [In] in Hk.
  repeat (rewrite lookup_insert_ne by (intros <-; tauto)).
  now rewrite lookup_empty.
Qed.

Lemma from_dict_to_dict_core (row : CSVRow) (all_columns : list string) :
  let row' := from_dict (to_dict row all_columns) in
  base_fields row' = base_fields row
  /\ forall k,
       extra_columns row' !! k
       = if mem k CSV_COLUMNS then None
         else if mem k all_columns
              then Some (default "" (extra_columns row !! k)) else None.
Proof.
  cbv zeta. split.
  - destruct (to_dict_base row all_columns) as (H1 & H2 & H3 & H4 & H5 & H6 & H7).
    unfold base_fields, from_dict.
    cbn [serial_number date_programmed firmware_version hardware_version
         region_code batch_id notes].
    now rewrite H1, H2, H3, H4, H5, H6, H7.
  - intros k. unfold from_dict. cbn [extra_columns].
    destruct (mem k CSV_COLUMNS) eqn:Hk.
    + apply map_lookup_filter_None. right. intros v _ H.
      cbv beta in H. cbn [fst] in H. congruence.
    + rewrite <- (to_dict_extra row all_columns k) by now apply mem_not_In.
      destruct (to_dict row all_columns !! k) as [v|] eqn:Hv.
      * apply map_lookup_filter_Some. split; [assumption|exact Hk].
      * apply map_lookup_filter_None. now left.
Qed.

(** [from_dict] undoes [to_dict]: the seven named fields come back as they
    were, and the extra cells are those of the listed columns that are not
    base columns, each with the value the row had there, or the empty
    string where it had none.  A cell under an unlisted column is lost. *)
Theorem from_dict_to_dict (row : CSVRow) (all_columns : list string) :
  let row' := from_dict (to_dict row all_columns) in
  base_fields row' = base_fields row
  /\ forall k,
       extra_columns row' !! k
       = if mem k CSV_COLUMNS then None
         else if mem k all_columns
              then Some (default "" (extra_columns row !! k)) else None.
Proof. apply from_dict_to_dict_core. Qed.


Lemma nth_error_lookup {A} (l : list A) i : nth_error l i = l !! i.
Proof. revert i. induction l as [|x l IH]; intros [|i]; cbn; auto. Qed.

Lemma select_row_keeps self index :
  let self' := (select_row self index).2 in
  _path self' = _path self /\ _rows self' = _rows self
  /\ _all_columns self' = _all_columns self /\ _modified self' = _modified self.
Proof.
  cbv zeta. unfold select_row.
  destruct (_ && _)%bool; [|now repeat split].
  destruct (bool_decide _); now repeat split.
Qed.

Lemma select_next_unprogrammed_keeps self :
  let self' := (select_next_unprogrammed self).2 in
  _path self' = _path self /\ _rows self' = _rows self
  /\ _all_columns self' = _all_columns self /\ _modified self' = _modified self.
Proof.
  cbv zeta. unfold select_next_unprogrammed.
  destruct (first_index _ 0 (_rows self)); [apply select_row_keeps|now repeat split].
Qed.

Lemma select_by_serial_keeps self serial :
  let self' := (select_by_serial self serial).2 in
  _path self' = _path self /\ _rows self' = _rows self
  /\ _all_columns self' = _all_columns self /\ _modified self' = _modified self.
Proof.
  cbv zeta. unfold select_by_serial.
  destruct (first_index _ 0 (_rows self)); [apply select_row_keeps|now repeat split].
Qed.

Lemma row_ok_mono columns columns' row :
  (forall k, In k columns -> In k columns') ->
  row_ok columns row -> row_ok columns' row.
Proof. intros Hsub Hrow k Hk. destruct (Hrow k Hk). split; auto. Qed.

Lemma reprogram_column_not_base count what :
  ~ In (reprogram_column count what) CSV_COLUMNS.
Proof.
  unfold reprogram_column, CSV_COLUMNS, CSV_REPROGRAM_PREFIX. cbn [In].
  intros H. repeat (destruct H as [H|H]; [discriminate H|]). exact H.
Qed.

Lemma handle_reprogram_ok columns row :
  columns_ok columns -> row_ok columns row ->
  columns_ok (_handle_reprogram columns row).1
  /\ row_ok (_handle_reprogram columns row).1 (_handle_reprogram columns row).2
  /\ (forall k, In k columns -> In k (_handle_reprogram columns row).1).
Proof.
  intros Hcols Hrow. unfold _handle_reprogram. cbn [fst snd].
  split; [now apply add_columns_ok|]. split.
  - intros k Hk. cbn [extra_columns] in Hk.
    rewrite add_columns_In. cbn [In].
    repeat (apply lookup_insert_is_Some in Hk as [<-|[_ Hk]];
            [split; [tauto|apply reprogram_column_not_base]|]).
    destruct (Hrow k Hk). split; tauto.
  - intros k Hk. apply add_columns_In. now left.
Qed.

Lemma update_selected_row_ok self fw hw rc b n mark now r :
  ledger_ok self ->
  update_selected_row self fw hw rc b n mark now = Some r -> ledger_ok r.2.
Proof.
  intros [Hcols Hrows]. unfold update_selected_row.
  destruct (_selected_index self) as [i|]; [|intros [= <-]; now split].
  destruct (nth_error (_rows self) i) as [row|] eqn:Hrow; [|discriminate].
  assert (Hok : row_ok (_all_columns self) row).
  { rewrite Forall_forall in Hrows. apply Hrows.
    apply list_elem_of_In. eapply nth_error_In. eassumption. }
  destruct (is_programmed row).
  - destruct (handle_reprogram_ok _ row Hcols Hok) as (Hc & Hr & Hsub).
    destruct (_handle_reprogram (_all_columns self) row) as [columns' row'].
    cbn [fst snd] in *. intros [= <-]. split; cbn [snd _all_columns _rows].
    + assumption.
    + apply Forall_insert; [|exact Hr].
      eapply Forall_impl; [exact Hrows|].
      intros x Hx. eapply row_ok_mono; eassumption.
  - intros [= <-]. split; cbn [snd _all_columns _rows]; [assumption|].
    apply Forall_insert; [assumption|exact Hok].
Qed.

(** Every operation of the manager keeps the ledger well formed: the
    column list starts with the seven base columns and names no column
    twice, and every extra cell of every row sits under a listed column
    that is not a base column.  The new manager is well formed, and so is
    what [load] builds from a file whose records have no cell outside the
    header. *)
Theorem ledger_ok_kept :
  ledger_ok init
  /\ (forall self d path f,
        d !! path = Some (CsvText f) ->
        (forall data k, In data (records f) -> is_Some (data !! k) ->
                        In k (fieldnames f)) ->
        ledger_ok (load self d path).2)
  /\ (forall self index, ledger_ok self -> ledger_ok (select_row self index).2)
  /\ (forall self, ledger_ok self -> ledger_ok (select_next_unprogrammed self).2)
  /\ (forall self serial, ledger_ok self ->
        ledger_ok (select_by_serial self serial).2)
  /\ (forall self fw hw rc b n mark now r,
        ledger_ok self ->
        update_selected_row self fw hw rc b n mark now = Some r -> ledger_ok r.2)
  /\ (forall self serial fw n now r,
        ledger_ok self ->
        mark_programmed self serial fw n now = Some r -> ledger_ok r.2)
  /\ (forall self d write_ok, ledger_ok self -> ledger_ok (save self d write_ok).1.2).
Proof.
  assert (Hsel : forall self self',
            _rows self' = _rows self /\ _all_columns self' = _all_columns self ->
            ledger_ok self -> ledger_ok self').
  { intros self self' [Hr Hc] H. unfold ledger_ok. now rewrite Hr, Hc. }
  split; [|split; [|split; [|split; [|split; [|split; [|split]]]]]].
  - split; [apply columns_ok_base|constructor].
  - intros self d path f Hfile Hcells. unfold load. rewrite Hfile.
    cbn [snd]. eapply Hsel.
    { destruct (select_next_unprogrammed_keeps
                  {| _path := Some path; _rows := map from_dict (records f);
                     _all_columns := add_columns CSV_COLUMNS (fieldnames f);
                     _selected_index := None; _modified := false |})
        as (_ & Hr & Hc & _).
      split; eassumption. }
    split; cbn [_all_columns _rows].
    + apply add_columns_ok, columns_ok_base.
    + apply Forall_forall. intros row Hrow.
      apply list_elem_of_In, in_map_iff in Hrow as (data & <- & Hdata).
      intros k Hk. unfold from_dict in Hk. cbn [extra_columns] in Hk.
      destruct Hk as [v Hv]. apply map_lookup_filter_Some in Hv as [Hv Hbase].
      cbv beta in Hbase. cbn [fst] in Hbase.
      split; [|now apply mem_not_In].
      apply add_columns_In. right. eapply Hcells; eauto.
  - intros self index. apply Hsel.
    destruct (select_row_keeps self index) as (_ & ? & ? & _). now split.
  - intros self. apply Hsel.
    destruct (select_next_unprogrammed_keeps self) as (_ & ? & ? & _). now split.
  - intros self serial. apply Hsel.
    destruct (select_by_serial_keeps self serial) as (_ & ? & ? & _). now split.
  - apply update_selected_row_ok.
  - intros self serial fw n now r Hok. unfold mark_programmed.
    destruct (first_index _ 0 (_rows self)); [|now intros [= <-]].
    destruct (nth_error (_rows self) _); [|discriminate].
    apply update_selected_row_ok. exact Hok.
  - intros self d write_ok Hok. unfold save.
    destruct (_path self); [|exact Hok].
    unfold _write_csv. destruct write_ok; exact Hok.
Qed.

(** What [save] writes, [load] reads back.  For a well-formed ledger with a
    path, saving and then loading that path, into any manager, gives the
    same column list and as many rows; each row has its seven named fields
    as before, keeps every extra cell it had, and gains an empty cell under
    each further column. *)
Theorem save_load_round_trip (self other : CSVManager) (d : disk) (path : string) :
  ledger_ok self ->
  _path self = Some path ->
  let saved := save self d true in
  let loaded := load other saved.2 path in
  saved.1.1 = true /\ loaded.1 = true
  /\ _path loaded.2 = Some path
  /\ _all_columns loaded.2 = _all_columns self
  /\ length (_rows loaded.2) = length (_rows self)
  /\ forall i row,
       nth_error (_rows self) i = Some row ->
       exists row',
         nth_error (_rows loaded.2) i = Some row'
         /\ base_fields row' = base_fields row
         /\ (forall k v, extra_columns row !! k = Some v ->
                         extra_columns row' !! k = Some v)
         /\ (forall k v, extra_columns row' !! k = Some v ->
                         extra_columns row !! k = Some v \/ v = "").
Proof.
  intros [Hcols Hrows] Hpath. cbv zeta.
  unfold save, _write_csv. rewrite Hpath. cbn [fst snd].
  unfold load. rewrite lookup_insert_eq. cbn [fst snd fieldnames records].
  match goal with
  | |- context [select_next_unprogrammed ?m] =>
      destruct (select_next_unprogrammed_keeps m) as (Hp & Hr & Hc & _)
  end.
  cbn [_path _rows _all_columns] in Hp, Hr, Hc. rewrite Hp, Hr, Hc.
  rewrite add_columns_reload by assumption.
  rewrite !length_map. repeat split.
  intros i row Hrow.
  exists (from_dict (to_dict row (_all_columns self))).
  destruct (from_dict_to_dict_core row (_all_columns self)) as [Hbase Hextra].
  assert (Hok : row_ok (_all_columns self) row).
  { rewrite Forall_forall in Hrows. apply Hrows.
    apply list_elem_of_In. eapply nth_error_In. eassumption. }
  repeat split.
  - rewrite map_map. now rewrite nth_error_map, Hrow.
  - exact Hbase.
  - intros k v Hv. rewrite Hextra.
    destruct (Hok k (ex_intro _ v Hv)) as [Hin Hbase'].
    apply mem_not_In in Hbase'. apply mem_In in Hin.
    now rewrite Hbase', Hin, Hv.
  - intros k v. rewrite Hextra.
    destruct (mem k CSV_COLUMNS); [discriminate|].
    destruct (mem k (_all_columns self)); [|discriminate].
    destruct (extra_columns row !! k); cbn; intros [= <-]; auto.
Qed.


Lemma ledger_ok_plain path row :
  extra_columns row = ∅ ->
  ledger_ok {| _path := path; _rows := [row]; _all_columns := CSV_COLUMNS;
               _selected_index := Some 0; _modified := false |}.
Proof.
  intros Hextra. split; [apply columns_ok_base|].
  cbn [_rows _all_columns]. constructor; [|constructor].
  intros k [v Hv]. rewrite Hextra, lookup_empty in Hv. discriminate.
Qed.

Lemma save_load_round_trip_witness :
  (load init
     (save {| _path := Some "ledger.csv";
              _rows := [mkCSVRow "SN-001" "" "" "1.0" "EU" "B1" "" ∅];
              _all_columns := CSV_COLUMNS;
              _selected_index := Some 0; _modified := false |} ∅ true).2
     "ledger.csv").1 = true.
Proof.
  exact (proj1 (proj2
    (save_load_round_trip
       {| _path := Some "ledger.csv";
          _rows := [mkCSVRow "SN-001" "" "" "1.0" "EU" "B1" "" ∅];
          _all_columns := CSV_COLUMNS;
          _selected_index := Some 0; _modified := false |}
       init ∅ "ledger.csv" (ledger_ok_plain (Some "ledger.csv")
          (mkCSVRow "SN-001" "" "" "1.0" "EU" "B1" "" ∅) eq_refl) eq_refl))).
Defined.

Lemma nth_error_insert_ne {A} (l : list A) i j x :
  j <> i -> nth_error (<[i := x]> l) j = nth_error l j.
Proof. intros H. rewrite !nth_error_lookup. now apply list_lookup_insert_ne. Qed.

Lemma nth_error_insert_eq {A} (l : list A) i x y :
  nth_error l i = Some y -> nth_error (<[i := x]> l) i = Some x.
Proof.
  intros H. rewrite nth_error_lookup. apply list_lookup_insert_eq.
  eapply nth_error_lt. eassumption.
Qed.

Lemma update_selected_row_frame_core (self : CSVManager)
    (fw hw rc b n : string) (mark : bool) (now : string) (i : nat) (row : CSVRow) :
  _selected_index self = Some i ->
  nth_error (_rows self) i = Some row ->
  exists self' row',
    update_selected_row self fw hw rc b n mark now = Some (true, self')
    /\ _path self' = _path self
    /\ _selected_index self' = Some i
    /\ _modified self' = true
    /\ length (_rows self') = length (_rows self)
    /\ (forall j, j <> i -> nth_error (_rows self') j = nth_error (_rows self) j)
    /\ nth_error (_rows self') i = Some row'
    /\ base_fields row'
       = [serial_number row; if mark then now else date_programmed row;
          fw; hw; rc; b; n]
    /\ (exists rest, _all_columns self' = _all_columns self ++ rest)
    /\ (is_programmed row = false ->
        _all_columns self' = _all_columns self
        /\ extra_columns row' = extra_columns row).
Proof.
  intros Hsel Hrow. unfold update_selected_row. rewrite Hsel, Hrow.
  destruct (is_programmed row) eqn:Hprog.
  - unfold _handle_reprogram. cbv zeta. cbv beta iota.
    eexists _, _. split; [reflexivity|].
    cbn [_path _selected_index _modified _rows _all_columns].
    do 5 (split; [first [reflexivity | apply length_insert
                        | intros j Hj; now apply nth_error_insert_ne]|]).
    split; [eapply nth_error_insert_eq; eassumption|].
    split; [reflexivity|]. split; [apply add_columns_extends|discriminate].
  - eexists _, _. split; [reflexivity|].
    cbn [_path _selected_index _modified _rows _all_columns].
    do 5 (split; [first [reflexivity | apply length_insert
                        | intros j Hj; now apply nth_error_insert_ne]|]).
    split; [eapply nth_error_insert_eq; eassumption|].
    split; [reflexivity|]. split; [exists []; now rewrite app_nil_r|].
    intros _. now split.
Qed.

(** [update_selected_row] on a selected row that exists and holds strings,
    as [CSVRow] declares its fields and the keys of its extra columns,
    always succeeds and touches that row alone: the other rows, the path
    and the selection stay, the serial number of the row stays, its five
    fields are the arguments and its date is the current time when
    [mark_programmed] is set.  The column list only grows at its end, and
    for a row that was not yet programmed neither the columns nor the extra
    cells change.  A row that [load] built from a record with a cell
    missing or to spare can hold [None]; it is not a [CSVRow] of this
    model, and nothing is said about it. *)
Theorem update_selected_row_frame (self : CSVManager)
    (fw hw rc b n : string) (mark : bool) (now : string) (i : nat) (row : CSVRow) :
  _selected_index self = Some i ->
  nth_error (_rows self) i = Some row ->
  exists self' row',
    update_selected_row self fw hw rc b n mark now = Some (true, self')
    /\ _path self' = _path self
    /\ _selected_index self' = Some i
    /\ _modified self' = true
    /\ length (_rows self') = length (_rows self)
    /\ (forall j, j <> i -> nth_error (_rows self') j = nth_error (_rows self) j)
    /\ nth_error (_rows self') i = Some row'
    /\ base_fields row'
       = [serial_number row; if mark then now else date_programmed row;
          fw; hw; rc; b; n]
    /\ (exists rest, _all_columns self' = _all_columns self ++ rest)
    /\ (is_programmed row = false ->
        _all_columns self' = _all_columns self
        /\ extra_columns row' = extra_columns row).
Proof. apply update_selected_row_frame_core. Qed.

Lemma update_selected_row_frame_witness :
  exists self',
    update_selected_row
      {| _path := Some "ledger.csv";
         _rows := [mkCSVRow "SN-001" "2024-01-01 10:00:00" "1.0" "1.0" "EU" "B1" "" ∅;
                   mkCSVRow "SN-002" "" "" "1.0" "EU" "B1" "" ∅];
         _all_columns := CSV_COLUMNS;
         _selected_index := Some 1; _modified := false |}
      "1.1" "1.0" "EU" "B1" "ok" true "2024-02-02 12:00:00"
    = Some (true, self').
Proof.
  destruct (update_selected_row_frame
              {| _path := Some "ledger.csv";
                 _rows := [mkCSVRow "SN-001" "2024-01-01 10:00:00" "1.0" "1.0" "EU" "B1" "" ∅;
                           mkCSVRow "SN-002" "" "" "1.0" "EU" "B1" "" ∅];
                 _all_columns := CSV_COLUMNS;
                 _selected_index := Some 1; _modified := false |}
              "1.1" "1.0" "EU" "B1" "ok" true "2024-02-02 12:00:00" 1
              (mkCSVRow "SN-002" "" "" "1.0" "EU" "B1" "" ∅) eq_refl eq_refl)
    as (self' & row' & H & _).
  exists self'. exact H.
Defined.

Lemma first_index_not p i rows k row :
  nth_error rows k = Some row -> p row = false ->
  first_index p i rows <> Some (i + k).
Proof.
  intros Hrow Hp H. apply first_index_Some in H as (_ & row' & Hn & Hp' & _).
  replace (i + k - i) with k in Hn by lia. congruence.
Qed.

(** A row marked as programmed is not offered again.  After an update that
    stamps a date which is not blank, the updated row is not the first
    unprogrammed row, so [select_next_unprogrammed] either moves the
    selection to another row or finds none. *)
Theorem updated_row_not_selected_again (self self' : CSVManager)
    (fw hw rc b n now : string) (i : nat) :
  _selected_index self = Some i ->
  blank now = false ->
  update_selected_row self fw hw rc b n true now = Some (true, self') ->
  let next := select_next_unprogrammed self' in
  (exists row, nth_error (_rows self') i = Some row /\ is_programmed row = true)
  /\ (next.1 = true -> _selected_index next.2 <> Some i)
  /\ (next.1 = false ->
      forall row, In row (_rows self') -> is_programmed row = true).
Proof.
  intros Hsel Hnow Hup. cbv zeta.
  destruct (nth_error (_rows self) i) as [row|] eqn:Hrow.
  2:{ unfold update_selected_row in Hup. now rewrite Hsel, Hrow in Hup. }
  destruct (update_selected_row_frame_core self fw hw rc b n true now i row Hsel Hrow)
    as (self2 & row' & Hup' & _ & _ & _ & Hlen & _ & Hrow' & Hbase & _).
  rewrite Hup in Hup'. injection Hup' as <-.
  assert (Hprog : is_programmed row' = true).
  { rewrite is_programmed_blank. unfold base_fields in Hbase.
    injection Hbase as _ -> _. now rewrite Hnow. }
  split; [now exists row'|].
  unfold select_next_unprogrammed.
  destruct (first_index _ 0 (_rows self')) as [j|] eqn:Hfirst.
  - assert (Hji : j <> i).
    { intros ->. apply (first_index_not _ 0 _ i row') in Hfirst; [assumption| |].
      - assumption.
      - now rewrite Hprog. }
    split; [|].
    + intros _. unfold select_row.
      destruct (_ && _)%bool eqn:Hrange.
      * destruct (bool_decide _) eqn:Hdec; cbn [snd _selected_index].
        -- apply bool_decide_eq_true in Hdec. rewrite Hdec, Nat2Z.id. congruence.
        -- rewrite Nat2Z.id. congruence.
      * exfalso. apply first_index_Some in Hfirst as (_ & r & Hn & _).
        apply nth_error_lt in Hn. apply andb_false_iff in Hrange as [H|H].
        -- apply Z.leb_gt in H. lia.
        -- apply Z.ltb_ge in H. lia.
    + intros Hfalse. exfalso. unfold select_row in Hfalse.
      apply first_index_Some in Hfirst as (_ & r & Hn & _).
      apply nth_error_lt in Hn.
      destruct (_ && _)%bool eqn:Hrange.
      * now destruct (bool_decide _).
      * apply andb_false_iff in Hrange as [H|H].
        -- apply Z.leb_gt in H. lia.
        -- apply Z.ltb_ge in H. lia.
  - split; [discriminate|]. intros _ r Hr.
    apply (first_index_None _ _ _ Hfirst) in Hr.
    now destruct (is_programmed r).
Qed.

Lemma updated_row_not_selected_again_witness :
  exists row,
    nth_error
      (_rows
         {| _path := Some "ledger.csv";
            _rows := <[0 := mkCSVRow "SN-001" "2024-02-02 12:00:00" "1.1" "1.0" "EU" "B1" "ok" ∅]>
                       [mkCSVRow "SN-001" "" "" "1.0" "EU" "B1" "" ∅;
                        mkCSVRow "SN-002" "" "" "1.0" "EU" "B1" "" ∅];
            _all_columns := CSV_COLUMNS;
            _selected_index := Some 0; _modified := true |}) 0 = Some row
    /\ is_programmed row = true.
Proof.
  exact (proj1
    (updated_row_not_selected_again
       {| _path := Some "ledger.csv";
          _rows := [mkCSVRow "SN-001" "" "" "1.0" "EU" "B1" "" ∅;
                    mkCSVRow "SN-002" "" "" "1.0" "EU" "B1" "" ∅];
          _all_columns := CSV_COLUMNS;
          _selected_index := Some 0; _modified := false |}
       _ "1.1" "1.0" "EU" "B1" "ok" "2024-02-02 12:00:00" 0
       eq_refl eq_refl eq_refl)).
Defined.

(** A failed [load] costs the ledger in memory.  When the file exists but
    its reading raises, [load] returns [False] with the rows and the column
    list replaced by what was read before the failure, which is nothing
    when it is the opening or the header that fails, while the path and the
    selection of the ledger loaded before are kept.  A [save] after that
    goes through and writes what was read of the other file over the
    earlier ledger. *)
Theorem failed_load_then_save (self : CSVManager) (d : disk) (old path : string)
    (read : option CsvFile) :
  _path self = Some old ->
  d !! path = Some (Garbled read) ->
  let failed := load self d path in
  let got := default {| fieldnames := []; records := [] |} read in
  let columns := add_columns CSV_COLUMNS (fieldnames got) in
  failed.1 = false
  /\ _rows failed.2 = map from_dict (records got)
  /\ _all_columns failed.2 = columns
  /\ _path failed.2 = Some old
  /\ _selected_index failed.2 = _selected_index self
  /\ (save failed.2 d true).1.1 = true
  /\ (save failed.2 d true).2
     = <[old := CsvText
                  {| fieldnames := columns;
                     records := map (fun record => to_dict (from_dict record) columns)
                                    (records got) |}]> d.
Proof.
  intros Hold Hfile. cbv zeta. unfold load. rewrite Hfile.
  destruct read as [f|]; cbn [default id fst snd _rows _path _all_columns
                              _selected_index fieldnames records map];
    unfold save, _write_csv; cbn [_path _rows _all_columns];
    rewrite Hold; cbn [fst snd]; rewrite ?map_map; now repeat split.
Qed.

Lemma failed_load_then_save_witness :
  let ledger :=
    {| _path := Some "ledger.csv";
       _rows := [mkCSVRow "SN-001" "" "" "1.0" "EU" "B1" "" ∅];
       _all_columns := CSV_COLUMNS;
       _selected_index := Some 0; _modified := false |} in
  let other :=
    Garbled (Some {| fieldnames := ["serial_number"];
                     records := [ {[ "serial_number" := "X-9" ]} ] |}) in
  let d : disk := <["other.csv" := other]> ∅ in
  (load ledger d "other.csv").1 = false
  /\ option_map serial_number (_rows (load ledger d "other.csv").2 !! 0)
     = Some "X-9"
  /\ _path (load ledger d "other.csv").2 = Some "ledger.csv"
  /\ (save (load ledger d "other.csv").2 d true).1.1 = true.
Proof.
  intros ledger other d.
  destruct (failed_load_then_save ledger d "ledger.csv" "other.csv"
              (Some {| fieldnames := ["serial_number"];
                       records := [ {[ "serial_number" := "X-9" ]} ] |})
              eq_refl eq_refl)
    as (Hfalse & Hrows & _ & Hpath & _ & Hsave & _).
  split; [exact Hfalse|]. split; [rewrite Hrows; reflexivity|].
  split; [exact Hpath|exact Hsave].
Defined.

(** [mark_programmed] on a ledger whose rows hold strings, as [CSVRow]
    declares its fields and the keys of its extra columns, does not raise.
    Without a row of the given serial number it returns [False] and
    changes nothing.  Otherwise it selects the first such row and updates
    that row alone: the date becomes the current time, firmware version
    and notes are the arguments, and the hardware version, region code and
    batch of the row stay.  Rows that hold [None], which [load] builds
    from records with a cell missing or to spare, are not rows of this
    model, and nothing is said about them. *)
Theorem mark_programmed_first_match (self : CSVManager)
    (serial fw n now : string) :
  match first_index (fun row => String.eqb (serial_number row) serial) 0
          (_rows self) with
  | None => mark_programmed self serial fw n now = Some (false, self)
  | Some i =>
      exists row self' row',
        nth_error (_rows self) i = Some row
        /\ mark_programmed self serial fw n now = Some (true, self')
        /\ _selected_index self' = Some i
        /\ nth_error (_rows self') i = Some row'
        /\ base_fields row'
           = [serial; now; fw; hardware_version row; region_code row;
              batch_id row; n]
        /\ (forall j, j <> i ->
              nth_error (_rows self') j = nth_error (_rows self) j)
  end.
Proof.
  unfold mark_programmed.
  destruct (first_index _ 0 (_rows self)) as [i|] eqn:Hfirst; [|reflexivity].
  apply first_index_Some in Hfirst as (_ & row & Hrow & Hserial & _).
  rewrite Nat.sub_0_r in Hrow. apply String.eqb_eq in Hserial.
  rewrite Hrow.
  destruct (update_selected_row_frame_core
              {| _path := _path self; _rows := _rows self;
                 _all_columns := _all_columns self;
                 _selected_index := Some i; _modified := _modified self |}
              fw (hardware_version row) (region_code row) (batch_id row) n
              true now i row eq_refl Hrow)
    as (self' & row' & Hup & _ & Hsel & _ & _ & Hothers & Hrow' & Hbase & _).
  exists row, self', row'. rewrite Hserial in Hbase. now repeat split.
Qed.

End CsvMore.

(* ===================================================================== *)
(** * Further properties of the label generator *)
(* ===================================================================== *)

Section LabelMore.
Import Label.

(** The status of [generate_label], case by case.  A missing library is
    reported before the template is looked for, a missing template before
    anything is rendered; only the region [US], spelled exactly so, selects
    the US template.  A raster is returned exactly with [SUCCESS], and no
    status of the print step ever comes out of the generation. *)
Theorem generate_label_status (env : Env) (serial_number region : string) :
  let r := generate_label env serial_number region in
  status r
  = (if negb (SVG_AVAILABLE env && PIL_AVAILABLE env) then LIBRARY_MISSING
     else
       match template_files env
               !! (if String.eqb region "US"
                   then "ENERGIS_rating_label_US.svg"
                   else "ENERGIS_rating_label_EU.svg") with
       | None => TEMPLATE_NOT_FOUND
       | Some svg =>
           match render env (Py.replace svg "SERIAL_NUMBER" serial_number) with
           | RenderError _ => RENDER_ERROR
           | Drawn _ => SUCCESS
           end
       end)
  /\ (is_Some (png r) <-> status r = SUCCESS)
  /\ status r <> PRINT_ERROR
  /\ status r <> PRINTER_NOT_FOUND.
Proof.
  cbv zeta. unfold generate_label, check_dependencies.
  destruct (SVG_AVAILABLE env); cbn [negb andb status png];
    [|repeat split; try discriminate; intros [? ?]; discriminate].
  destruct (PIL_AVAILABLE env); cbn [negb andb status png];
    [|repeat split; try discriminate; intros [? ?]; discriminate].
  unfold get_label_template, LABEL_TEMPLATE_US, LABEL_TEMPLATE_EU,
    LABEL_SERIAL_PLACEHOLDER.
  destruct (template_files env !! _) as [svg|]; cbn [status png];
    [|repeat split; try discriminate; intros [? ?]; discriminate].
  rewrite pixels_width, pixels_height.
  destruct (render env _) as [native|e]; cbn [status png];
    repeat split; try discriminate; try (intros [? ?]; discriminate).
  intros _. eexists. reflexivity.
Qed.

(** A failure of Pillow does not fail the label.  With both libraries in
    place and the template rendered, a resize step that raises leaves the
    raster at the size it was drawn, without the save that carries the DPI
    argument, and the result is still [SUCCESS]. *)
Theorem generate_label_resize_failure (env : Env)
    (serial_number region svg : string) (native : Z * Z) :
  SVG_AVAILABLE env = true ->
  PIL_AVAILABLE env = true ->
  pil_ok env = false ->
  template_files env !! get_label_template region = Some svg ->
  render env (Py.replace svg LABEL_SERIAL_PLACEHOLDER serial_number)
  = Drawn native ->
  let r := generate_label env serial_number region in
  status r = SUCCESS /\ png r = Some {| size := native; save_dpi := None |}.
Proof.
  intros Hsvg Hpil Hok Htemplate Hrender. cbv zeta.
  unfold generate_label, check_dependencies. rewrite Hsvg, Hpil. cbn [negb].
  rewrite Htemplate, Hrender, pixels_width, pixels_height.
  cbn [status png]. unfold _resize_image. rewrite Hpil, Hok. now split.
Qed.

Lemma generate_label_resize_failure_witness :
  let env := {| SVG_AVAILABLE := true; PIL_AVAILABLE := true;
                template_files := {[ LABEL_TEMPLATE_EU := "<svg>SERIAL_NUMBER</svg>" ]};
                template_path := String.append "templates/";
                render := fun _ => Drawn (640, 480)%Z;
                pil_ok := false |} in
  status (generate_label env "SN-1" "EU") = SUCCESS
  /\ png (generate_label env "SN-1" "EU")
     = Some {| size := (640, 480)%Z; save_dpi := None |}.
Proof.
  intros env.
  apply (generate_label_resize_failure env "SN-1" "EU"
           "<svg>SERIAL_NUMBER</svg>" (640, 480)%Z); reflexivity.
Defined.

End LabelMore.

(* ===================================================================== *)
(** * Further properties of the uploader *)
(* ===================================================================== *)

Section UploaderMore.
Import Uploader.

(** [upload] succeeds exactly when the tool is in place, the firmware
    passes validation and the tool ends with exit code 0.  It runs the
    tool at most once, with the command [picotool load <firmware> -fx],
    and not at all when the tool or the firmware is rejected. *)
Theorem upload_success_iff (env : Env) (picotool_path firmware_path : string) :
  let r := upload env picotool_path firmware_path in
  let cmd := [picotool_path; "load"; firmware_path; "-fx"] in
  (success r.1 = true
   <-> _picotool_exists env picotool_path = true
       /\ (verify_firmware env firmware_path).1 = true
       /\ exists out err, run env cmd = Completed 0 out err)
  /\ r.2 = (if _picotool_exists env picotool_path
               && (verify_firmware env firmware_path).1
            then [cmd] else [])
  /\ (success r.1 = true -> exit_code r.1 = 0%Z).
Proof.
  cbv zeta. unfold upload, success.
  destruct (_picotool_exists env picotool_path); cbn [negb andb fst snd status].
  2:{ repeat split; try discriminate. now intros (? & _). }
  destruct (verify_firmware env firmware_path) as [[|] msg];
    cbn [negb fst snd status].
  2:{ repeat split; try discriminate. now intros (_ & ? & _). }
  unfold PICOTOOL_LOAD_ARGS. cbn [app].
  destruct (run env _) as [rc out err| |e]; cbn [status exit_code].
  - destruct (Z.eqb_spec rc 0) as [->|Hrc]; cbn [status exit_code].
    + repeat split. now exists out, err.
    + destruct (Py.contains _ _); cbn [status];
        (repeat split; try discriminate;
         intros (_ & _ & o & e & [= ? _ _]); congruence).
  - repeat split; try discriminate. now intros (_ & _ & o & e' & ?).
  - repeat split; try discriminate. now intros (_ & _ & o & e' & ?).
Qed.

(** [NO_DEVICE] is reported exactly when the tool ran, ended with a
    non-zero exit code, and the phrase [No accessible RP2040] stands in
    its error output, or in its standard output while the error output is
    empty.  The phrase in the standard output does not count once the tool
    wrote anything to its error output. *)
Theorem upload_no_device_iff (env : Env) (picotool_path firmware_path : string) :
  let r := (upload env picotool_path firmware_path).1 in
  let cmd := [picotool_path; "load"; firmware_path; "-fx"] in
  status r = NO_DEVICE
  <-> _picotool_exists env picotool_path = true
      /\ (verify_firmware env firmware_path).1 = true
      /\ exists rc out err,
           run env cmd = Completed rc out err
           /\ rc <> 0%Z
           /\ (Py.contains "No accessible RP2040" err = true
               \/ (err = "" /\ Py.contains "No accessible RP2040" out = true)).
Proof.
  cbv zeta. unfold upload.
  destruct (_picotool_exists env picotool_path); cbn [negb fst status].
  2:{ split; [discriminate|]. now intros (? & _). }
  destruct (verify_firmware env firmware_path) as [[|] msg];
    cbn [negb fst status].
  2:{ split; [discriminate|]. now intros (_ & ? & _). }
  unfold PICOTOOL_LOAD_ARGS. cbn [app].
  destruct (run env _) as [rc out err| |e]; cbn [status].
  - destruct (Z.eqb_spec rc 0) as [->|Hrc]; cbn [status].
    + split; [discriminate|].
      intros (_ & _ & rc & o & e & [= <- _ _] & Hrc & _). congruence.
    + destruct err as [|c err]; cbn [Py.truthy].
      * destruct (Py.contains "No accessible RP2040" out) eqn:Hout; cbn [status].
        -- split; [|reflexivity]. intros _. repeat split.
           exists rc, out, "". repeat split; [assumption|]. right. now split.
        -- split; [discriminate|].
           intros (_ & _ & rc' & o & e & [= <- <- <-] & _ & [H|[_ H]]);
             [discriminate H|congruence].
      * destruct (Py.contains "No accessible RP2040" (String c err)) eqn:Herr;
          cbn [status].
        -- split; [|reflexivity]. intros _. repeat split.
           exists rc, out, (String c err). repeat split; [assumption|]. now left.
        -- split; [discriminate|].
           intros (_ & _ & rc' & o & e & [= <- <- <-] & _ & [H|[H _]]);
             [congruence|discriminate H].
  - split; [discriminate|]. now intros (_ & _ & rc & o & e' & ? & _).
  - split; [discriminate|]. now intros (_ & _ & rc & o & e' & ? & _).
Qed.

End UploaderMore.

(* ===================================================================== *)
(** * Further properties of the verifier *)
(* ===================================================================== *)

Section VerificationMore.
Import Verification VerifierMore.

Lemma overall_status_checks result : checks (overall_status result) = checks result.
Proof.
  unfold overall_status, with_status.
  destruct (_ =? _); [|destruct (_ <? _)]; reflexivity.
Qed.

(** The four checks [verify] records, in full. *)
Lemma verify_checks provisioner sn region fw hw :
  truthy_dict (get_system_info provisioner) = true ->
  let sys := default ∅ (get_system_info provisioner) in
  let check n e a what :=
    {| name := n; expected := e; actual := a;
       passed := String.eqb (Py.lower (Py.strip e)) (Py.lower (Py.strip a));
       check_message := not_found a what |} in
  checks (verify provisioner sn region fw hw)
  = [check "Serial Number" sn
       (first_of sys ["serial_number"; "device_serial"; "sn"; "serial"])
       "Serial number not found in SYSINFO";
     check "Region" region (first_of sys ["region"; "region_code"])
       "Region not found in SYSINFO";
     check "Firmware Version" fw
       (first_of sys ["firmware_version"; "fw_version"; "firmware"; "version"])
       "Firmware version not found in SYSINFO";
     check "Hardware Version" hw
       (first_of sys ["hardware_version"; "hw_version"; "hardware"])
       "Hardware version not found in SYSINFO"].
Proof.
  intros Hsys. cbv zeta. unfold verify. rewrite Hsys. cbn [negb]. cbv zeta.
  rewrite overall_status_checks.
  unfold _verify_hardware, _verify_firmware, _verify_region, _verify_serial_number.
  rewrite !add_check_checks.
  destruct (truthy_dict (get_network_info provisioner)); reflexivity.
Qed.

Lemma lower_empty s : Py.lower s = "" <-> s = "".
Proof.
  split; [|now intros ->]. destruct s; [reflexivity|discriminate].
Qed.

Lemma truthy_false s : Py.truthy s = false <-> s = "".
Proof. destruct s; cbn [Py.truthy]; split; congruence. Qed.

(** A check against a missing value passes exactly for a blank expectation. *)
Lemma check_missing expected :
  String.eqb (Py.lower (Py.strip expected)) (Py.lower (Py.strip ""))
  = forallb Py.isspace (Py.chars expected).
Proof.
  change (Py.lower (Py.strip "")) with "".
  pose proof (strip_falsy expected) as H.
  destruct (forallb Py.isspace (Py.chars expected)); cbn [negb] in H.
  - apply truthy_false in H. now rewrite H.
  - apply String.eqb_neq. intros Hl. apply (proj1 (lower_empty _)) in Hl.
    rewrite Hl in H. discriminate.
Qed.

(** A serial number the device does not report.  When SYSINFO arrives but
    holds no value, or only empty ones, under [serial_number],
    [device_serial], [sn] and [serial], the first check compares the
    expected serial number with the empty string: it passes exactly when
    the expected serial number is itself empty or white space, and for any
    other expected serial number the verdict is not [PASSED]. *)
Theorem verify_missing_serial (provisioner : Provisioner)
    (serial_number region firmware_version hardware_version : string) :
  truthy_dict (get_system_info provisioner) = true ->
  first_of (default ∅ (get_system_info provisioner))
    ["serial_number"; "device_serial"; "sn"; "serial"] = "" ->
  let r := verify provisioner serial_number region firmware_version
             hardware_version in
  exists c rest,
    checks r = c :: rest
    /\ name c = "Serial Number"
    /\ actual c = ""
    /\ check_message c = "Serial number not found in SYSINFO"
    /\ passed c = forallb Py.isspace (Py.chars serial_number)
    /\ (forallb Py.isspace (Py.chars serial_number) = false ->
        status r <> PASSED).
Proof.
  intros Hsys Hnone r.
  pose proof (verify_checks provisioner serial_number region firmware_version
                hardware_version Hsys) as Hchecks.
  cbv zeta in Hchecks. rewrite Hnone in Hchecks. fold r in Hchecks.
  eexists _, _. split; [exact Hchecks|]. cbn [name actual check_message passed].
  repeat split.
  - apply check_missing.
  - intros Hblank Hpassed.
    destruct (verify_four_checks provisioner serial_number region
                firmware_version hardware_version Hsys)
      as (result & c1 & c2 & c3 & c4 & Hv & Hc & _).
    destruct (overall_status_four result c1 c2 c3 c4 Hc)
      as (_ & _ & Hp & _).
    fold r in Hv. rewrite <- Hv in Hp. apply Hp in Hpassed.
    rewrite Hchecks in Hpassed. cbn [forallb passed] in Hpassed.
    rewrite check_missing, Hblank in Hpassed. discriminate.
Qed.

Lemma verify_missing_serial_witness :
  let provisioner :=
    {| get_system_info := Some ({[ "region" := "EU"; "firmware" := "1.0" ]});
       get_network_info := None |} in
  exists c rest,
    checks (verify provisioner "SN-0042" "EU" "1.0" "1.0") = c :: rest
    /\ name c = "Serial Number"
    /\ actual c = ""
    /\ check_message c = "Serial number not found in SYSINFO"
    /\ passed c = forallb Py.isspace (Py.chars "SN-0042")
    /\ (forallb Py.isspace (Py.chars "SN-0042") = false ->
        status (verify provisioner "SN-0042" "EU" "1.0" "1.0") <> PASSED).
Proof.
  intros provisioner.
  apply (verify_missing_serial provisioner "SN-0042" "EU" "1.0" "1.0");
    vm_compute; reflexivity.
Defined.

(** [quick_check] does not read the key [device_serial].  It gives the
    verdict of the serial-number check of [verify] whenever that key does
    not decide the latter: when [serial_number] holds a value, or
    [device_serial] holds none. *)
Theorem quick_check_agrees (provisioner : Provisioner)
    (serial_number region firmware_version hardware_version : string) :
  truthy_dict (get_system_info provisioner) = true ->
  let sys := default ∅ (get_system_info provisioner) in
  Py.truthy (first_of sys ["serial_number"]) = true
  \/ first_of sys ["device_serial"] = "" ->
  exists c rest,
    checks (verify provisioner serial_number region firmware_version
              hardware_version) = c :: rest
    /\ quick_check provisioner serial_number = passed c.
Proof.
  intros Hsys sys Hkey.
  pose proof (verify_checks provisioner serial_number region firmware_version
                hardware_version Hsys) as Hchecks.
  cbv zeta in Hchecks. fold sys in Hchecks.
  eexists _, _. split; [exact Hchecks|]. cbn [passed].
  unfold quick_check. rewrite Hsys. cbn [negb]. fold sys.
  rewrite String.eqb_sym. f_equal. f_equal. f_equal.
  cbn [first_of] in *.
  destruct (sys !! "serial_number") as [v|]; [destruct (Py.truthy v) eqn:Hv|].
  - reflexivity.
  - destruct Hkey as [Hkey|Hkey]; [discriminate|].
    destruct (sys !! "device_serial") as [w|]; [|reflexivity].
    destruct (Py.truthy w) eqn:Hw; [|reflexivity].
    subst w. discriminate.
  - destruct Hkey as [Hkey|Hkey]; [discriminate|].
    destruct (sys !! "device_serial") as [w|]; [|reflexivity].
    destruct (Py.truthy w) eqn:Hw; [|reflexivity].
    subst w. discriminate.
Qed.

Lemma quick_check_agrees_witness :
  let provisioner :=
    {| get_system_info := Some ({[ "sn" := " sn-0042 "; "region" := "EU" ]});
       get_network_info := None |} in
  exists c rest,
    checks (verify provisioner "SN-0042" "EU" "1.0" "1.0") = c :: rest
    /\ quick_check provisioner "SN-0042" = passed c.
Proof.
  intros provisioner.
  apply (quick_check_agrees provisioner "SN-0042" "EU" "1.0" "1.0").
  - vm_compute. reflexivity.
  - right. vm_compute. reflexivity.
Defined.

End VerificationMore.

(* ===================================================================== *)
(** * Further properties of the deployment *)
(* ===================================================================== *)

Section DeployMore.
Import Deploy Banner.

Lemma not_initial p initial :
  negb (existsb (String.eqb p) initial) = true <-> ~ In p initial.
Proof.
  rewrite negb_true_iff. split.
  - intros H Hin. assert (existsb (String.eqb p) initial = true); [|congruence].
    apply existsb_exists. exists p. split; [assumption|apply String.eqb_refl].
  - intros H. destruct (existsb (String.eqb p) initial) eqn:E; [|reflexivity].
    apply existsb_exists in E as (x & Hx & Heq). apply String.eqb_eq in Heq.
    now subst.
Qed.

Lemma new_ports_In initial current_ports p :
  In p (new_ports initial current_ports)
  <-> In p current_ports /\ ~ In p initial.
Proof.
  unfold new_ports.
  rewrite <- list_elem_of_In, elem_of_remove_dups, list_elem_of_In, filter_In.
  now rewrite not_initial.
Qed.

(** The port [wait_for_new_serial_port] returns was seen at one of the
    polls and was not there at the start, whichever of the new ports the
    set yields first; it returns [None] exactly when no poll before the
    timeout shows a port that was not there at the start. *)
Theorem wait_for_new_serial_port_new (env : Env) :
  match wait_for_new_serial_port env with
  | Some port =>
      ~ In port (initial_ports env)
      /\ exists scan, In scan (port_scans env) /\ In port scan
  | None =>
      forall scan port,
        In scan (port_scans env) -> In port scan -> In port (initial_ports env)
  end.
Proof.
  unfold wait_for_new_serial_port.
  induction (port_scans env) as [|scan scans IH]; cbn [wait_loop].
  - intros scan port [].
  - destruct (new_ports (initial_ports env) scan) as [|new_port rest] eqn:Hnew.
    + destruct (wait_loop (set_first env) (initial_ports env) scans) as [port|].
      * destruct IH as (Hnot & scan' & Hscan' & Hport).
        split; [assumption|]. exists scan'. split; [now right|assumption].
      * intros scan' port [<-|Hscan'] Hport; [|now apply (IH scan')].
        destruct (in_dec String.string_dec port (initial_ports env))
          as [Hin|Hout]; [assumption|].
        assert (Hin : In port (new_ports (initial_ports env) scan))
          by now apply new_ports_In.
        rewrite Hnew in Hin. destruct Hin.
    + assert (Hin : In (nth (set_first env (new_port :: rest)
                              mod length (new_port :: rest))
                          (new_port :: rest) new_port)
                       (new_ports (initial_ports env) scan)).
      { rewrite Hnew. apply nth_In, Nat.mod_upper_bound. discriminate. }
      apply new_ports_In in Hin as [Hin Hnot].
      split; [assumption|]. exists scan. split; [now left|assumption].
Qed.

Lemma span_digits_spec s d r :
  span_digits s = (d, r) ->
  s = d +:+ r /\ forallb Py.isdecimal (Py.chars d) = true.
Proof.
  revert d r. induction s as [|c s IH]; intros d r H; cbn [span_digits] in H.
  - injection H as <- <-. now split.
  - destruct (Py.isdecimal c) eqn:Hc.
    + destruct (span_digits s) as [d' r'] eqn:E. injection H as <- <-.
      destruct (IH d' r' eq_refl) as [-> Hd]. split; [reflexivity|].
      cbn [Py.chars list_ascii_of_string forallb]. fold (Py.chars d').
      now rewrite Hc.
    + injection H as <- <-. now split.
Qed.

Lemma match_device_serial_format s g :
  match_device_serial s = Some g ->
  exists d, g = "SN-" +:+ d /\ d <> ""
            /\ forallb Py.isdecimal (Py.chars d) = true.
Proof.
  unfold match_device_serial.
  destruct (strip_literal _ s); [|discriminate].
  destruct (colon_between_spaces _); [|discriminate].
  destruct (strip_literal _ _); [|discriminate].
  destruct (span_digits _) as [d rest] eqn:Hspan.
  apply span_digits_spec in Hspan as [_ Hd].
  destruct d as [|c d]; [discriminate|].
  intros [= <-]. exists (String c d). now repeat split.
Qed.

Lemma re_search_device_serial_format line g :
  re_search match_device_serial line = Some g ->
  exists d, g = "SN-" +:+ d /\ d <> ""
            /\ forallb Py.isdecimal (Py.chars d) = true.
Proof.
  induction line as [|c line IH]; cbn [re_search];
    destruct (match_device_serial _) eqn:E; intros H; try discriminate.
  - injection H as <-. eapply match_device_serial_format; eassumption.
  - now apply IH.
Qed.

Lemma match_firmware_ver_truthy s g :
  match_firmware_ver s = Some g -> Py.truthy g = true.
Proof.
  unfold match_firmware_ver.
  destruct (strip_literal _ s); [|discriminate].
  destruct (colon_between_spaces _); [|discriminate].
  destruct (digits_dot _) as [[major r]|] eqn:Hmajor; [|discriminate].
  destruct (digits_dot r) as [[minor r']|]; [|discriminate].
  destruct (span_digits r') as [[|c patch] rest]; [discriminate|].
  intros [= <-]. unfold digits_dot in Hmajor.
  destruct (span_digits _) as [[|m major'] [|x y]]; try discriminate.
  destruct (Ascii.eqb x "."); [|discriminate].
  now injection Hmajor as <- _.
Qed.

Lemma re_search_firmware_ver_truthy line g :
  re_search match_firmware_ver line = Some g -> Py.truthy g = true.
Proof.
  induction line as [|c line IH]; cbn [re_search];
    destruct (match_firmware_ver _) eqn:E; intros H; try discriminate.
  - injection H as <-. eapply match_firmware_ver_truthy; eassumption.
  - now apply IH.
Qed.

Lemma monitor_loop_verified events target ds df ds' df' :
  banner_serial ds ->
  monitor_loop events target ds df = (true, ds', df') ->
  Py.truthy_opt ds' = true /\ Py.truthy_opt df' = true
  /\ banner_serial ds'
  /\ (Py.truthy_opt target = true -> ds' = target).
Proof.
  revert ds df.
  induction events as [|[raw|] events IH]; intros ds df Hds H;
    cbn [monitor_loop] in H; try discriminate.
  destruct (Py.truthy (Py.strip raw)); [|now apply (IH ds df)].
  set (ds1 := match re_search match_device_serial (Py.strip raw) with
              | Some g => Some g | None => ds end) in *.
  set (df1 := match re_search match_firmware_ver (Py.strip raw) with
              | Some g => Some g | None => df end) in *.
  assert (Hds1 : banner_serial ds1).
  { intros g. unfold ds1.
    destruct (re_search match_device_serial (Py.strip raw)) eqn:E.
    - intros [= <-]. eapply re_search_device_serial_format; eassumption.
    - apply Hds. }
  destruct (Py.truthy_opt ds1 && Py.truthy_opt df1) eqn:Hboth;
    [|now apply (IH ds1 df1)].
  apply andb_true_iff in Hboth as [H1 H2].
  destruct (Py.truthy_opt target && Py.differs ds1 target) eqn:Hdiff;
    [discriminate|].
  injection H as <- <-. repeat split; try assumption.
  intros Ht. rewrite Ht in Hdiff. cbn [andb] in Hdiff.
  destruct ds1 as [d|], target as [t|]; try discriminate.
  cbn [Py.differs] in Hdiff. apply negb_false_iff, String.eqb_eq in Hdiff.
  now subst.
Qed.

(** What a verified banner read means.  [monitor_serial_port] reports
    success only after it has read both a serial number and a firmware
    version; the serial number has the form [SN-] followed by decimal
    digits, and when an expected serial number is given it is that one.
    So an expected serial number of any other form is never verified. *)
Theorem monitor_serial_port_verified (env : Env) (port_name : string)
    (target_serial detected_serial detected_firmware : option string) :
  monitor_serial_port env port_name target_serial
  = (true, detected_serial, detected_firmware) ->
  Py.truthy_opt detected_firmware = true
  /\ (exists digits,
        detected_serial = Some ("SN-" +:+ digits)
        /\ digits <> ""
        /\ forallb Py.isdecimal (Py.chars digits) = true)
  /\ (Py.truthy_opt target_serial = true -> detected_serial = target_serial).
Proof.
  unfold monitor_serial_port.
  destruct (serial_open env port_name) as [events|]; [|discriminate].
  intros H. apply monitor_loop_verified in H as (Hs & Hf & Hform & Ht);
    [|intros g; discriminate].
  repeat split; try assumption.
  destruct detected_serial as [g|]; [|discriminate].
  destruct (Hform g eq_refl) as (d & -> & Hd & Hdigits).
  now exists d.
Qed.

Lemma monitor_serial_port_verified_witness :
  let env :=
    {| get_uf2_path := Some "build/fw.uf2";
       get_elf_path := None;
       path_exists := fun _ => true;
       flash_with_picotool := fun _ => true;
       image_writable := fun _ => true;
       initial_ports := [];
       port_scans := [["COM7"]];
       set_first := fun _ => 0;
       serial_open := fun _ =>
         Some [Line "Booting..."; Line "Device Serial : SN-0042";
               Line "Firmware Ver : 1.0.0"] |} in
  Py.truthy_opt (Some "1.0.0") = true
  /\ (exists digits,
        Some "SN-0042" = Some ("SN-" +:+ digits)
        /\ digits <> ""
        /\ forallb Py.isdecimal (Py.chars digits) = true)
  /\ (Py.truthy_opt (Some "SN-0042") = true -> Some "SN-0042" = Some "SN-0042").
Proof.
  intros env.
  exact (monitor_serial_port_verified env "COM7" (Some "SN-0042")
           (Some "SN-0042") (Some "1.0.0") eq_refl).
Defined.

Lemma deploy_firmware_verdict_core (env : Env) (fs : UF2.filesystem)
    (force : bool) (serial_number : option string) (verify reprogram : bool) :
  let r := deploy_firmware env fs force serial_number verify reprogram in
  let flashed := Py.truthy_opt (get_uf2_path env)
                 && flash_went_through env fs serial_number in
  (returns r.1 = true -> flashed = true)
  /\ (verify = false -> returns r.1 = flashed)
  /\ (flashed = true -> returns r.1 = false ->
      r.1 = MismatchError /\ verify = true /\ reprogram = false)
  /\ (forall p, get_uf2_path env <> Some p -> r.2 !! p = fs !! p)
  /\ (Py.truthy_opt serial_number = false -> r.2 = fs)
  /\ (flashed = true -> flash_succeeded env = true)
  /\ (image_writable env (default "" (get_uf2_path env)) = true
      \/ Py.truthy_opt serial_number = false ->
      flashed = Py.truthy_opt (get_uf2_path env) && flash_succeeded env).
Proof.
  cbv zeta. unfold deploy_firmware, flash_went_through, image_after_marking.
  destruct (Py.truthy_opt (get_uf2_path env)) eqn:Huf2; cbn [negb andb fst snd].
  2:{ repeat split; try discriminate. }
  destruct (get_uf2_path env) as [path|] eqn:Hpath; [|discriminate].
  cbn [default id].
  assert (Hafter : returns (after_flash env serial_number reprogram) = false ->
                   after_flash env serial_number reprogram = MismatchError
                   /\ reprogram = false).
  { unfold after_flash.
    destruct (Py.truthy_opt (wait_for_new_serial_port env)); [|discriminate].
    destruct (monitor_serial_port _ _ _) as [[v ds] df].
    destruct v; [discriminate|].
    destruct (Py.truthy_opt ds && Py.truthy_opt serial_number
              && Py.differs ds serial_number); [|discriminate].
    destruct reprogram; [discriminate|]. now split. }
  assert (Hmod : exists u fs',
    (if Py.truthy_opt serial_number
     then UF2.modify_uf2_with_serial (image_writable env) fs path
            (default "" serial_number)
     else (Some path, fs)) = (u, fs')
    /\ (if Py.truthy_opt serial_number
        then (UF2.modify_uf2_with_serial (image_writable env) fs path
                (default "" serial_number)).1
        else Some path) = u
    /\ (u = Some path \/ u = None)
    /\ (forall p, Some path <> Some p -> fs' !! p = fs !! p)
    /\ (Py.truthy_opt serial_number = false -> fs' = fs)
    /\ (image_writable env path = true \/ Py.truthy_opt serial_number = false ->
        u = Some path)).
  { destruct (Py.truthy_opt serial_number).
    - rewrite modify_uf2_with_serial_effect_core.
      destruct (fs !! path); [|exists (Some path), fs; now repeat split; auto].
      destruct (UF2.encode_ascii _);
        [|exists (Some path), fs; now repeat split; auto].
      destruct (Py.truthy _);
        [|exists (Some path), fs; now repeat split; auto].
      destruct (image_writable env path).
      + eexists _, _. split; [reflexivity|]. split; [reflexivity|].
        split; [now left|]. split; [|split; [discriminate|reflexivity]].
        intros p Hp. apply lookup_insert_ne. congruence.
      + exists None, fs. split; [reflexivity|]. split; [reflexivity|].
        split; [now right|]. split; [reflexivity|].
        split; [discriminate|]. intros [?|?]; discriminate.
    - exists (Some path), fs. now repeat split; auto. }
  destruct Hmod as (u & fs' & -> & -> & Hu & Hframe & Hsame & Hwritable).
  unfold flash_succeeded. rewrite Hpath. cbn [default id].
  destruct Hu as [-> | ->]; cbn [flash_image].
  - destruct (Py.truthy_opt (get_elf_path env)
              && path_exists env (default "" (get_elf_path env)));
      cbn [andb orb];
      [destruct (flash_with_picotool env (default "" (get_elf_path env)));
       cbn [orb fst snd]|];
      destruct (flash_with_picotool env path); cbn [fst snd];
      destruct verify; cbn [negb returns];
      repeat split; try assumption; try discriminate; try reflexivity;
      try apply Hafter; try congruence;
      try (intros _ H; now apply Hafter in H).
  - destruct (Py.truthy_opt (get_elf_path env)
              && path_exists env (default "" (get_elf_path env)));
      cbn [andb orb];
      [destruct (flash_with_picotool env (default "" (get_elf_path env)));
       cbn [orb fst snd]|];
      destruct verify; cbn [negb returns fst snd];
      repeat split; try assumption; try discriminate; try reflexivity;
      try apply Hafter; try congruence;
      try (intros _ H; now apply Hafter in H);
      try (intros H; specialize (Hwritable H); discriminate).
Qed.

(** The verdict of [deploy_firmware].  It reports success only when an
    image was found and one of the flash attempts went through, and with
    verification off it reports exactly that.  Once a flash has gone
    through, the only failure left is a serial number mismatch without the
    reprogram flag.  Of the files, only the UF2 image can change, and
    nothing changes without a serial number.  A flash attempt goes through
    only when picotool takes one of the two files of the build, and that is
    all it needs when the image can be written or no serial number is
    given; an image that was marked but could not be written is not
    flashed. *)
Theorem deploy_firmware_verdict (env : Env) (fs : UF2.filesystem)
    (force : bool) (serial_number : option string) (verify reprogram : bool) :
  let r := deploy_firmware env fs force serial_number verify reprogram in
  let flashed := Py.truthy_opt (get_uf2_path env)
                 && flash_went_through env fs serial_number in
  (returns r.1 = true -> flashed = true)
  /\ (verify = false -> returns r.1 = flashed)
  /\ (flashed = true -> returns r.1 = false ->
      r.1 = MismatchError /\ verify = true /\ reprogram = false)
  /\ (forall p, get_uf2_path env <> Some p -> r.2 !! p = fs !! p)
  /\ (Py.truthy_opt serial_number = false -> r.2 = fs)
  /\ (flashed = true -> flash_succeeded env = true)
  /\ (image_writable env (default "" (get_uf2_path env)) = true
      \/ Py.truthy_opt serial_number = false ->
      flashed = Py.truthy_opt (get_uf2_path env) && flash_succeeded env).
Proof. apply deploy_firmware_verdict_core. Qed.

End DeployMore.

(* ===================================================================== *)
(** * Further properties of the workflow *)
(* ===================================================================== *)

Section WorkflowMore.
Import Workflow WorkflowSpec.

Ltac run_step :=
  unfold check_stop, when, _queue_message, update_ctx, update_report,
    set_csv, record_commands, bind, get, put, raise, return_, ret;
  cbn [queue ctx report csv_manager files commands].

Lemma step_upload_full env s :
  match step_upload env s with
  | Continue _ s' =>
      stop_requested env 1 = false
      /\ Uploader.success (upload_of env s) = true
      /\ stepped UPLOADING_FIRMWARE s s'
      /\ flags (report s') = <[0 := true]> (flags (report s))
  | Return s' => stop_requested env 1 = true /\ s' = s
  | Raise e s' =>
      stop_requested env 1 = false
      /\ Uploader.success (upload_of env s) = false
      /\ stepped UPLOADING_FIRMWARE s s'
      /\ e = "Firmware upload failed: " +:+ Uploader.message (upload_of env s)
  end.
Proof.
  unfold step_upload, upload_of. run_step.
  destruct (stop_requested env 1); [now split|].
  destruct (Uploader.upload _ _ _) as [result cmds]. run_step. cbn [fst].
  destruct (Uploader.success result) eqn:Hs; cbn [negb];
    unfold stepped; cbn [queue ctx report csv_manager files];
    now repeat split.
Qed.

Lemma step_wait_for_serial_full env s :
  match step_wait_for_serial env s with
  | Continue _ s' =>
      stop_requested env 2 = false
      /\ Py.truthy_opt (wait_for_serial_port env) = true
      /\ stepped WAITING_FOR_SERIAL s s'
      /\ report s' = report s
  | Return s' => stop_requested env 2 = true /\ s' = s
  | Raise e s' =>
      stop_requested env 2 = false
      /\ Py.truthy_opt (wait_for_serial_port env) = false
      /\ stepped WAITING_FOR_SERIAL s s'
      /\ e = "Serial port did not appear after firmware upload"
  end.
Proof.
  unfold step_wait_for_serial. run_step.
  destruct (stop_requested env 2); [now split|].
  destruct (Py.truthy_opt (wait_for_serial_port env)); cbn [negb];
    unfold stepped; cbn [queue ctx report csv_manager files];
    now repeat split.
Qed.

Lemma step_provisioning_full env s :
  match step_provisioning env s with
  | Continue _ s' =>
      stop_requested env 3 = false
      /\ prov_success (provision env) = true
      /\ stepped PROVISIONING s s'
      /\ flags (report s') = <[1 := true]> (flags (report s))
  | Return s' => stop_requested env 3 = true /\ s' = s
  | Raise e s' =>
      stop_requested env 3 = false
      /\ prov_success (provision env) = false
      /\ stepped PROVISIONING s s'
      /\ e = "Provisioning failed: " +:+ prov_message (provision env)
  end.
Proof.
  unfold step_provisioning. run_step.
  destruct (stop_requested env 3); [now split|].
  destruct (prov_success (provision env)); cbn [negb];
    unfold stepped; cbn [queue ctx report csv_manager files];
    now repeat split.
Qed.

Lemma step_verification_full env s :
  match step_verification env s with
  | Continue _ s' =>
      stop_requested env 4 = false
      /\ Py.truthy_opt (port_after_reboot env) = true
      /\ Verification.success (verdict_of env s) = true
      /\ stepped VERIFYING s s'
      /\ flags (report s') = <[2 := true]> (flags (report s))
  | Return s' => stop_requested env 4 = true /\ s' = s
  | Raise e s' =>
      stop_requested env 4 = false
      /\ stepped VERIFYING s s'
      /\ ((Py.truthy_opt (port_after_reboot env) = false
           /\ e = "Serial port did not reappear after reboot")
          \/ (Py.truthy_opt (port_after_reboot env) = true
              /\ Verification.success (verdict_of env s) = false
              /\ e = "'list' object has no attribute 'items'"
              /\ verification_result (ctx s') = Some (verdict_of env s)
              /\ verification_success (report s') = false))
  end.
Proof.
  unfold step_verification, port_after_reboot, verdict_of. run_step.
  destruct (stop_requested env 4); [now split|].
  destruct (Py.truthy_opt (if Py.truthy_opt (provisioner_port env)
                           then provisioner_port env
                           else reboot_and_reconnect_wait_ready env));
    cbn [negb]; run_step.
  - cbn [serial_number region_code firmware_version hardware_version with_port].
    destruct (Verification.success _) eqn:Hv; cbn [negb];
      unfold stepped; cbn [queue ctx report csv_manager files].
    + now repeat split.
    + repeat split. right. now repeat split.
  - unfold stepped; cbn [queue ctx report csv_manager files].
    repeat split. now left.
Qed.

Lemma step_label_full env s :
  match step_label env s with
  | Continue _ s' =>
      stop_requested env 5 = false
      /\ stepped GENERATING_LABEL s s'
      /\ label_result (ctx s') = Some (label_of env s)
      /\ flags (report s')
         = if Label.success (label_of env s)
           then <[4 := auto_print_label env && print_label env]>
                  (<[3 := true]> (flags (report s)))
           else flags (report s)
  | Return s' => stop_requested env 5 = true /\ s' = s
  | Raise e s' => False
  end.
Proof.
  unfold step_label, label_of. run_step.
  destruct (stop_requested env 5); [now split|].
  destruct (Label.success _); run_step;
    unfold stepped; cbn [queue ctx report csv_manager files];
    now repeat split.
Qed.

Lemma step_report_full env s :
  match step_report env s with
  | Continue _ s' =>
      stop_requested env 6 = false
      /\ is_Some (generate_report env)
      /\ stepped GENERATING_REPORT s s'
      /\ flags (report s') = <[6 := true]> (<[5 := true]> (flags (report s)))
      /\ ctx s' = ctx s
  | Return s' => stop_requested env 6 = true /\ s' = s
  | Raise e s' =>
      stop_requested env 6 = false
      /\ generate_report env = None
      /\ stepped GENERATING_REPORT s s'
  end.
Proof.
  unfold step_report. run_step.
  destruct (stop_requested env 6); [now split|].
  destruct (generate_report env) as [path|]; run_step;
    unfold stepped; cbn [queue ctx report csv_manager files];
    repeat split. now exists path.
Qed.

(** A selection that [select_by_serial] has just made is never stale. *)
Lemma select_by_serial_then_update m serial fw hw rc b n mark now :
  Csv.update_selected_row (Csv.select_by_serial m serial).2 fw hw rc b n mark now
  = None ->
  (Csv.select_by_serial m serial).2 = m.
Proof.
  unfold Csv.select_by_serial.
  destruct (Csv.first_index _ 0 (Csv._rows m)) as [i|] eqn:Hfirst; [|reflexivity].
  apply first_index_Some in Hfirst as (_ & row & Hrow & _).
  rewrite Nat.sub_0_r in Hrow.
  unfold Csv.select_row.
  assert (Hrange : ((0 <=? Z.of_nat i) && (Z.of_nat i <? Z.of_nat (length (Csv._rows m))))%Z
                   = true).
  { apply nth_error_lt in Hrow. apply andb_true_iff. split.
    - apply Z.leb_le. lia.
    - apply Z.ltb_lt. lia. }
  rewrite Hrange, Nat2Z.id.
  destruct (bool_decide _); [reflexivity|]. cbn [snd].
  unfold Csv.update_selected_row. cbn [Csv._selected_index Csv._rows].
  rewrite Hrow. destruct (Csv.is_programmed row); [|discriminate].
  destruct (Csv._handle_reprogram _ _). discriminate.
Qed.

Lemma step_update_csv_full env s :
  match step_update_csv env s with
  | Continue _ s' =>
      stop_requested env 7 = false
      /\ job (ctx s') = job (ctx s)
      /\ queue s' = queue s ++ [MsgState UPDATING_CSV]
      /\ report s' = report s
      /\ match ledger_update env s with
         | Some (true, m) =>
             csv_manager s' = (Csv.save m (files s) (write_ok env)).1.2
             /\ files s' = (Csv.save m (files s) (write_ok env)).2
         | Some (false, m) => csv_manager s' = m /\ files s' = files s
         | None => False
         end
      /\ ctx s' = ctx s
  | Return s' => stop_requested env 7 = true /\ s' = s
  | Raise e s' =>
      stop_requested env 7 = false
      /\ ledger_update env s = None
      /\ stepped UPDATING_CSV s s'
  end.
Proof.
  unfold step_update_csv, ledger_update. run_step.
  destruct (stop_requested env 7); [now split|].
  destruct (Csv.update_selected_row _ _ _ _ _ _ _ _) as [[[|] m]|] eqn:Hup.
  - destruct (Csv.save m (files s) (write_ok env)) as [[ok m'] d'].
    run_step. now repeat split.
  - run_step. now repeat split.
  - run_step. apply select_by_serial_then_update in Hup.
    unfold stepped; cbn [queue ctx report csv_manager files].
    now repeat split.
Qed.


Lemma bind_eq {A B} (m : M A) (k : A -> M B) s :
  bind m k s
  = match m s with
    | Continue a s' => k a s'
    | Return s' => Return s'
    | Raise e s' => Raise e s'
    end.
Proof. reflexivity. Qed.

Lemma advanced_nil s : advanced [] s s.
Proof. unfold advanced. cbn [map]. now rewrite app_nil_r. Qed.

Lemma advanced_step states state s s' s'' :
  advanced states s s' -> stepped state s' s'' ->
  advanced (states ++ [state]) s s''.
Proof.
  intros (Hj & Hq & Hm & Hd) (Hj' & Hq' & Hm' & Hd'). unfold advanced.
  rewrite Hj', Hq', Hm', Hd', Hj, Hq, Hm, Hd, map_app, <- List.app_assoc.
  now repeat split.
Qed.

Lemma advanced_results env states s s' :
  advanced states s s' ->
  upload_of env s' = upload_of env s
  /\ verdict_of env s' = verdict_of env s
  /\ label_of env s' = label_of env s
  /\ ledger_update env s' = ledger_update env s.
Proof.
  intros (Hj & _ & Hm & _). unfold job in Hj.
  injection Hj as H1 H2 H3 H4 H5 H6 H7.
  unfold upload_of, verdict_of, label_of, ledger_update.
  now rewrite H1, H2, H3, H4, H5, H6, H7, Hm.
Qed.

Lemma completes_stop env s k :
  completes env s -> In k [1; 2; 3; 4; 5; 6; 7] -> stop_requested env k = false.
Proof.
  intros (Hstop & _) Hk. rewrite Forall_forall in Hstop.
  apply Hstop. now apply list_elem_of_In.
Qed.

Lemma fails_verification_stop env s k :
  fails_verification env s -> In k [1; 2; 3; 4] -> stop_requested env k = false.
Proof.
  intros (Hstop & _) Hk. rewrite Forall_forall in Hstop.
  apply Hstop. now apply list_elem_of_In.
Qed.

(** How the body of the [try] block can end. *)
Lemma body_cases env s :
  match body env s with
  | Continue _ s' =>
      completes env s
      /\ queue s' = queue s ++ map MsgState ALL_STATES ++ [MsgComplete true]
      /\ flags (report s')
         = <[6 := true]> (<[5 := true]>
             (let f := <[2 := true]> (<[1 := true]> (<[0 := true]>
                         (flags (report s)))) in
              if Label.success (label_of env s)
              then <[4 := auto_print_label env && print_label env]>
                     (<[3 := true]> f)
              else f))
      /\ label_result (ctx s') = Some (label_of env s)
      /\ match ledger_update env s with
         | Some (true, m) =>
             csv_manager s' = (Csv.save m (files s) (write_ok env)).1.2
             /\ files s' = (Csv.save m (files s) (write_ok env)).2
         | Some (false, m) => csv_manager s' = m /\ files s' = files s
         | None => False
         end
  | Return s' =>
      ~ completes env s
      /\ ~ fails_verification env s
      /\ (exists states, queue s' = queue s ++ map MsgState states)
      /\ csv_manager s' = csv_manager s
      /\ files s' = files s
  | Raise e s' =>
      ~ completes env s
      /\ (fails_verification env s ->
          e = "'list' object has no attribute 'items'"
          /\ queue s' = queue s ++ map MsgState
               [UPLOADING_FIRMWARE; WAITING_FOR_SERIAL; PROVISIONING; VERIFYING])
      /\ (exists states, queue s' = queue s ++ map MsgState states)
      /\ csv_manager s' = csv_manager s
      /\ files s' = files s
  end.
Proof.
  assert (Hstopped : forall k states s',
            In k [1; 2; 3; 4; 5; 6; 7] -> stop_requested env k = true ->
            ~ fails_verification env s ->
            advanced states s s' ->
            ~ completes env s
            /\ ~ fails_verification env s
            /\ (exists states, queue s' = queue s ++ map MsgState states)
            /\ csv_manager s' = csv_manager s
            /\ files s' = files s).
  { intros k states s' Hk Hstop Hnot (_ & Hq & Hm & Hd).
    split; [|split; [assumption|repeat split; eauto]].
    intros Hc. apply (completes_stop env s k) in Hc; [congruence|assumption]. }
  assert (Hfailed : forall e states s',
            ~ completes env s -> ~ fails_verification env s ->
            advanced states s s' ->
            ~ completes env s
            /\ (fails_verification env s ->
                e = "'list' object has no attribute 'items'"
                /\ queue s' = queue s ++ map MsgState
                     [UPLOADING_FIRMWARE; WAITING_FOR_SERIAL; PROVISIONING;
                      VERIFYING])
            /\ (exists states, queue s' = queue s ++ map MsgState states)
            /\ csv_manager s' = csv_manager s
            /\ files s' = files s).
  { intros e states s' Hc Hnot (_ & Hq & Hm & Hd).
    split; [assumption|]. split; [intros Hf; destruct (Hnot Hf)|].
    repeat split; eauto. }
  assert (Hearly : forall k, In k [1; 2; 3; 4] -> stop_requested env k = true ->
                             ~ fails_verification env s).
  { intros k Hk Hstop Hf. apply (fails_verification_stop env s k) in Hf;
      [congruence|assumption]. }
  pose proof (advanced_nil s) as A0.
  unfold body. rewrite bind_eq.
  pose proof (step_upload_full env s) as H1.
  destruct (step_upload env s) as [[] s1|s1|e s1].
  2:{ destruct H1 as [Hstop ->].
      apply (Hstopped 1 []); [cbn; tauto|assumption| |assumption].
      apply (Hearly 1); [cbn; tauto|assumption]. }
  2:{ destruct H1 as (_ & Hbad & Hst & _).
      apply (Hfailed _ _ _ ltac:(intros (_ & Hc & _); congruence)
               ltac:(intros (_ & Hc & _); congruence)
               (advanced_step _ _ _ _ _ A0 Hst)). }
  destruct H1 as (Hs1 & Hupload & Hst1 & Hf1).
  pose proof (advanced_step _ _ _ _ _ A0 Hst1) as A1. cbn [app] in A1.
  unfold after_upload. rewrite bind_eq.
  pose proof (step_wait_for_serial_full env s1) as H2.
  destruct (step_wait_for_serial env s1) as [[] s2|s2|e s2].
  2:{ destruct H2 as [Hstop ->].
      apply (Hstopped 2 _ _ ltac:(cbn; tauto) Hstop
               (Hearly 2 ltac:(cbn; tauto) Hstop) A1). }
  2:{ destruct H2 as (_ & Hbad & Hst & _).
      apply (Hfailed _ _ _ ltac:(intros (_ & _ & Hc & _); congruence)
               ltac:(intros (_ & _ & Hc & _); congruence)
               (advanced_step _ _ _ _ _ A1 Hst)). }
  destruct H2 as (Hs2 & Hport & Hst2 & Hf2).
  pose proof (advanced_step _ _ _ _ _ A1 Hst2) as A2. cbn [app] in A2.
  rewrite bind_eq.
  pose proof (step_provisioning_full env s2) as H3.
  destruct (step_provisioning env s2) as [[] s3|s3|e s3].
  2:{ destruct H3 as [Hstop ->].
      apply (Hstopped 3 _ _ ltac:(cbn; tauto) Hstop
               (Hearly 3 ltac:(cbn; tauto) Hstop) A2). }
  2:{ destruct H3 as (_ & Hbad & Hst & _).
      apply (Hfailed _ _ _ ltac:(intros (_ & _ & _ & Hc & _); congruence)
               ltac:(intros (_ & _ & _ & Hc & _); congruence)
               (advanced_step _ _ _ _ _ A2 Hst)). }
  destruct H3 as (Hs3 & Hprov & Hst3 & Hf3).
  pose proof (advanced_step _ _ _ _ _ A2 Hst3) as A3. cbn [app] in A3.
  rewrite bind_eq.
  pose proof (step_verification_full env s3) as H4.
  destruct (advanced_results env _ _ _ A3) as (_ & Hv3 & _).
  rewrite Hv3 in H4.
  destruct (step_verification env s3) as [[] s4|s4|e s4].
  2:{ destruct H4 as [Hstop ->].
      apply (Hstopped 4 _ _ ltac:(cbn; tauto) Hstop
               (Hearly 4 ltac:(cbn; tauto) Hstop) A3). }
  2:{ destruct H4 as (_ & Hst & Hbad).
      pose proof (advanced_step _ _ _ _ _ A3 Hst) as A4. cbn [app] in A4.
      destruct A4 as (_ & Hq & Hm & Hd).
      destruct Hbad as [[Hport2 ->]|(Hport2 & Hverdict & -> & _)].
      - split; [intros (_ & _ & _ & _ & Hc & _); congruence|].
        split; [intros (_ & _ & _ & _ & Hc & _); congruence|].
        repeat split; eauto.
      - split; [intros (_ & _ & _ & _ & _ & Hc & _); congruence|].
        split; [intros _; now split|].
        repeat split; eauto. }
  destruct H4 as (Hs4 & Hport2 & Hverdict & Hst4 & Hf4).
  assert (Hpassed : ~ fails_verification env s).
  { intros (_ & _ & _ & _ & _ & Hc). congruence. }
  pose proof (advanced_step _ _ _ _ _ A3 Hst4) as A4. cbn [app] in A4.
  rewrite bind_eq.
  pose proof (step_label_full env s4) as H5.
  destruct (advanced_results env _ _ _ A4) as (_ & _ & Hl4 & _).
  rewrite Hl4 in H5.
  destruct (step_label env s4) as [[] s5|s5|e s5]; [| |destruct H5].
  2:{ destruct H5 as [Hstop ->].
      apply (Hstopped 5 _ _ ltac:(cbn; tauto) Hstop Hpassed A4). }
  destruct H5 as (Hs5 & Hst5 & Hlabel & Hf5).
  pose proof (advanced_step _ _ _ _ _ A4 Hst5) as A5. cbn [app] in A5.
  rewrite bind_eq.
  pose proof (step_report_full env s5) as H6.
  destruct (step_report env s5) as [[] s6|s6|e s6].
  2:{ destruct H6 as [Hstop ->].
      apply (Hstopped 6 _ _ ltac:(cbn; tauto) Hstop Hpassed A5). }
  2:{ destruct H6 as (_ & Hbad & Hst).
      apply (Hfailed _ _ _
               ltac:(intros (_ & _ & _ & _ & _ & _ & [x Hc] & _); congruence)
               Hpassed (advanced_step _ _ _ _ _ A5 Hst)). }
  destruct H6 as (Hs6 & Hreport & Hst6 & Hf6 & Hc6).
  pose proof (advanced_step _ _ _ _ _ A5 Hst6) as A6. cbn [app] in A6.
  rewrite bind_eq.
  pose proof (step_update_csv_full env s6) as H7.
  destruct (advanced_results env _ _ _ A6) as (_ & _ & _ & Hu6).
  rewrite Hu6 in H7.
  destruct (step_update_csv env s6) as [[] s7|s7|e s7].
  2:{ destruct H7 as [Hstop ->].
      apply (Hstopped 7 _ _ ltac:(cbn; tauto) Hstop Hpassed A6). }
  2:{ destruct H7 as (_ & Hbad & Hst).
      apply (Hfailed _ _ _
               ltac:(intros (_ & _ & _ & _ & _ & _ & _ & [x Hc]); congruence)
               Hpassed (advanced_step _ _ _ _ _ A6 Hst)). }
  destruct H7 as (Hs7 & Hj7 & Hq7 & Hr7 & Hledger & Hc7).
  destruct A6 as (Hj6 & Hq6 & Hm6 & Hd6).
  run_step. repeat split.
  - repeat constructor; assumption.
  - assumption.
  - assumption.
  - assumption.
  - assumption.
  - assumption.
  - assumption.
  - destruct (ledger_update env s) as [[? ?]|]; [eauto|destruct Hledger].
  - rewrite Hq7, Hq6. unfold ALL_STATES. cbn [map app].
    now rewrite <- !List.app_assoc.
  - rewrite Hr7, Hf6, Hf5, Hf4, Hf3, Hf2, Hf1. reflexivity.
  - now rewrite Hc7, Hc6.
  - rewrite Hd6 in Hledger. exact Hledger.
Qed.


Lemma not_complete_in_states states tail :
  (forall msg, In msg tail -> msg <> MsgComplete true) ->
  ~ In (MsgComplete true) (map MsgState states ++ tail).
Proof.
  intros Htail Hin. apply in_app_or in Hin as [Hin|Hin].
  - apply in_map_iff in Hin as (x & Hx & _). discriminate.
  - now apply (Htail _ Hin).
Qed.

(** When a run completes.  The worker queues the completion exactly when
    no stop request is seen at any of its seven checks, the upload and the
    provisioning succeed, the serial port shows up both times, the
    verification passes, the report is written and the ledger update does
    not raise.  Neither the label nor the saving of the ledger is among
    these conditions: a run whose label fails still completes, with the
    label flags of the report left unset.  A complete run announces the
    eight states in order, sets the other flags of the report, and leaves
    the GUI idle after the success dialog. *)
Theorem run_workflow_completes_iff (env : Env) (row : Csv.CSVRow)
    (firmware_version hardware_version region_code batch_id notes
       firmware_path device_path : string)
    (m : Csv.CSVManager) (d : Csv.disk) (g : Gui) :
  let s0 := start row firmware_version hardware_version region_code
              batch_id notes firmware_path device_path m d in
  let s := _run_workflow env s0 in
  let generated := Label.success (label_of env s0) in
  (In (MsgComplete true) (queue s) <-> completes env s0)
  /\ (completes env s0 ->
      queue s = map MsgState ALL_STATES ++ [MsgComplete true]
      /\ flags (report s)
         = [true; true; true; generated;
            generated && (auto_print_label env && print_label env);
            true; true]
      /\ label_result (ctx s) = Some (label_of env s0)
      /\ dialogs (pump g (queue s)).1 = dialogs g ++ ["Success"]
      /\ workflow_state (pump g (queue s)).1 = IDLE
      /\ programming_active (pump g (queue s)).1 = false).
Proof.
  intros s0 s generated. unfold s, _run_workflow.
  pose proof (body_cases env s0) as H.
  destruct (body env s0) as [[] s1|s1|e s1].
  - destruct H as (Hc & Hq & Hf & Hl & _).
    change (queue s0) with (@nil Message) in Hq. cbn [app] in Hq.
    split.
    + split; [intros _; exact Hc|]. intros _. rewrite Hq.
      apply in_or_app. right. now left.
    + intros _. rewrite Hq, Hf, Hl. repeat split.
      fold generated. now destruct generated.
  - destruct H as (Hc & _ & (states & Hq) & _).
    change (queue s0) with (@nil Message) in Hq. cbn [app] in Hq.
    split; [|intros Hyes; destruct (Hc Hyes)].
    split; [|intros Hyes; destruct (Hc Hyes)].
    intros Hin. rewrite Hq, <- (app_nil_r (map MsgState states)) in Hin.
    apply not_complete_in_states in Hin; [destruct Hin|intros msg []].
  - destruct H as (Hc & _ & (states & Hq) & _).
    change (queue s0) with (@nil Message) in Hq. cbn [app] in Hq.
    split; [|intros Hyes; destruct (Hc Hyes)].
    split; [|intros Hyes; destruct (Hc Hyes)].
    cbn [queue]. intros Hin. rewrite Hq in Hin.
    apply not_complete_in_states in Hin; [destruct Hin|].
    intros msg [<-|[]]. discriminate.
Qed.

(** The ledger is written by complete runs only.  A run that does not meet
    the conditions of completion, whether it is stopped or fails, leaves
    the ledger in memory and the ledger file exactly as they were and
    queues no completion: its queue holds states only, followed, when a
    step failed, by one error, which the report records with
    [overall_success = False]. *)
Theorem run_workflow_ledger_untouched (env : Env) (row : Csv.CSVRow)
    (firmware_version hardware_version region_code batch_id notes
       firmware_path device_path : string)
    (m : Csv.CSVManager) (d : Csv.disk) :
  let s0 := start row firmware_version hardware_version region_code
              batch_id notes firmware_path device_path m d in
  let s := _run_workflow env s0 in
  completes env s0
  \/ (csv_manager s = m /\ files s = d
      /\ ~ In (MsgComplete true) (queue s)
      /\ exists states,
           queue s = map MsgState states
           \/ exists e,
                queue s = map MsgState states ++ [MsgError e]
                /\ error_message (report s) = e
                /\ overall_success (report s) = false).
Proof.
  intros s0 s. unfold s, _run_workflow.
  pose proof (body_cases env s0) as H.
  destruct (body env s0) as [[] s1|s1|e s1].
  - left. apply H.
  - right. destruct H as (_ & _ & (states & Hq) & Hm & Hd).
    change (queue s0) with (@nil Message) in Hq. cbn [app] in Hq.
    repeat split; try assumption.
    + rewrite Hq, <- (app_nil_r (map MsgState states)).
      apply not_complete_in_states. intros msg [].
    + exists states. now left.
  - right. destruct H as (_ & _ & (states & Hq) & Hm & Hd).
    change (queue s0) with (@nil Message) in Hq. cbn [app] in Hq.
    cbn [queue csv_manager files report]. repeat split; try assumption.
    + rewrite Hq. apply not_complete_in_states. intros msg [<-|[]]. discriminate.
    + exists states. right. exists e. rewrite Hq. now repeat split.
Qed.

(** What the operator reads when the verification does not pass.  When a
    run gets as far as the verification and the verdict is not [PASSED],
    the worker fails on the list of checks itself, and the error it queues
    is the text of that [AttributeError], not the names of the failed
    checks; the GUI shows it in the failure dialog.  The ledger stays as
    it was. *)
Theorem verification_failure_message (env : Env) (row : Csv.CSVRow)
    (firmware_version hardware_version region_code batch_id notes
       firmware_path device_path : string)
    (m : Csv.CSVManager) (d : Csv.disk) (g : Gui) :
  let s0 := start row firmware_version hardware_version region_code
              batch_id notes firmware_path device_path m d in
  let s := _run_workflow env s0 in
  fails_verification env s0 ->
  queue s
  = map MsgState [UPLOADING_FIRMWARE; WAITING_FOR_SERIAL; PROVISIONING; VERIFYING]
    ++ [MsgError "'list' object has no attribute 'items'"]
  /\ error_message (report s) = "'list' object has no attribute 'items'"
  /\ dialogs (pump g (queue s)).1
     = dialogs g ++ ["Programming Failed: 'list' object has no attribute 'items'"]
  /\ workflow_state (pump g (queue s)).1 = ERROR
  /\ csv_manager s = m /\ files s = d.
Proof.
  intros s0 s Hfails. unfold s, _run_workflow.
  pose proof (body_cases env s0) as H.
  destruct (body env s0) as [[] s1|s1|e s1].
  - destruct H as ((_ & _ & _ & _ & _ & Hv & _) & _).
    destruct Hfails as (_ & _ & _ & _ & _ & Hv'). congruence.
  - destruct H as (_ & Hnot & _). destruct (Hnot Hfails).
  - destruct H as (_ & Hmsg & _ & Hm & Hd).
    destruct (Hmsg Hfails) as [-> Hq].
    change (queue s0) with (@nil Message) in Hq. cbn [app] in Hq.
    cbn [queue csv_manager files report error_message set_flags].
    rewrite Hq. now repeat split.
Qed.

(** A complete run does not mean a written ledger.  When the ledger file
    cannot be written, a run that meets the conditions of completion still
    queues the completion, and the file is as it was before. *)
Theorem completion_without_saved_ledger (env : Env) (row : Csv.CSVRow)
    (firmware_version hardware_version region_code batch_id notes
       firmware_path device_path : string)
    (m : Csv.CSVManager) (d : Csv.disk) :
  let s0 := start row firmware_version hardware_version region_code
              batch_id notes firmware_path device_path m d in
  let s := _run_workflow env s0 in
  completes env s0 ->
  write_ok env = false ->
  In (MsgComplete true) (queue s) /\ files s = d.
Proof.
  intros s0 s Hc Hw. unfold s, _run_workflow.
  pose proof (body_cases env s0) as H.
  destruct (body env s0) as [[] s1|s1|e s1].
  - destruct H as (_ & Hq & _ & _ & Hledger). split.
    + rewrite Hq. apply in_or_app. right. apply in_or_app. right. now left.
    + destruct (ledger_update env s0) as [[[|] m']|]; [|apply Hledger|destruct Hledger].
      destruct Hledger as [_ ->]. rewrite Hw. unfold Csv.save.
      now destruct (Csv._path m').
  - destruct H as (Hnot & _). destruct (Hnot Hc).
  - destruct H as (Hnot & _). destruct (Hnot Hc).
Qed.


Lemma verification_failure_message_witness :
  let path := fun p : string =>
    if String.eqb p "/opt/picotool"
    then {| Uploader.exists_ := true; Uploader.is_file := true;
            Uploader.suffix := ""; Uploader.name := "picotool";
            Uploader.st_size := 900000 |}
    else {| Uploader.exists_ := true; Uploader.is_file := true;
            Uploader.suffix := ".uf2"; Uploader.name := "fw.uf2";
            Uploader.st_size := 4096 |} in
  let env :=
    {| stop_requested := fun _ => false;
       picotool_path := "/opt/picotool";
       uploader := {| Uploader.path := path;
                      Uploader.run := fun _ => Uploader.Completed 0 "" "" |};
       wait_for_serial_port := Some "/dev/ttyACM0";
       provision := {| prov_status := PROV_SUCCESS; prov_message := "" |};
       provisioner_port := Some "/dev/ttyACM0";
       reboot_and_reconnect_wait_ready := None;
       provisioner := {| Verification.get_system_info := None;
                         Verification.get_network_info := None |};
       label := {| Label.SVG_AVAILABLE := true; Label.PIL_AVAILABLE := true;
                   Label.template_files := ∅;
                   Label.template_path := String.append "templates/";
                   Label.render := fun _ => Label.RenderError "no SVG";
                   Label.pil_ok := true |};
       auto_print_label := false; print_label := false;
       generate_report := Some "/artefacts/SN-1";
       now := "2024-05-05 12:00:00"; write_ok := false |} in
  let row := {| Csv.serial_number := "SN-1"; Csv.date_programmed := "";
                Csv.firmware_version := ""; Csv.hardware_version := "";
                Csv.region_code := ""; Csv.batch_id := ""; Csv.notes := "";
                Csv.extra_columns := ∅ |} in
  let m := {| Csv._path := Some "ledger.csv"; Csv._rows := [row];
              Csv._all_columns := Csv.CSV_COLUMNS;
              Csv._selected_index := Some 0; Csv._modified := false |} in
  let g := {| workflow_state := IDLE; programming_active := true;
              has_context := true; dialogs := [] |} in
  let s := _run_workflow env
             (start row "1.0.0" "A" "EU" "B1" "" "fw.uf2" "/media/RPI-RP2" m ∅) in
  queue s
  = map MsgState [UPLOADING_FIRMWARE; WAITING_FOR_SERIAL; PROVISIONING; VERIFYING]
    ++ [MsgError "'list' object has no attribute 'items'"].
Proof.
  intros path env row m g s.
  refine (proj1 (verification_failure_message env row "1.0.0" "A" "EU" "B1" ""
                   "fw.uf2" "/media/RPI-RP2" m ∅ g _)).
  repeat split; try (repeat constructor); vm_compute; reflexivity.
Defined.

Lemma completion_without_saved_ledger_witness :
  let path := fun p : string =>
    if String.eqb p "/opt/picotool"
    then {| Uploader.exists_ := true; Uploader.is_file := true;
            Uploader.suffix := ""; Uploader.name := "picotool";
            Uploader.st_size := 900000 |}
    else {| Uploader.exists_ := true; Uploader.is_file := true;
            Uploader.suffix := ".uf2"; Uploader.name := "fw.uf2";
            Uploader.st_size := 4096 |} in
  let env :=
    {| stop_requested := fun _ => false;
       picotool_path := "/opt/picotool";
       uploader := {| Uploader.path := path;
                      Uploader.run := fun _ => Uploader.Completed 0 "" "" |};
       wait_for_serial_port := Some "/dev/ttyACM0";
       provision := {| prov_status := PROV_SUCCESS; prov_message := "" |};
       provisioner_port := Some "/dev/ttyACM0";
       reboot_and_reconnect_wait_ready := None;
       provisioner := {| Verification.get_system_info := Some ({[ "serial_number" := "SN-1"; "region" := "EU";
                                    "firmware_version" := "1.0.0";
                                    "hardware_version" := "A" ]});
                         Verification.get_network_info := None |};
       label := {| Label.SVG_AVAILABLE := true; Label.PIL_AVAILABLE := true;
                   Label.template_files := ∅;
                   Label.template_path := String.append "templates/";
                   Label.render := fun _ => Label.RenderError "no SVG";
                   Label.pil_ok := true |};
       auto_print_label := false; print_label := false;
       generate_report := Some "/artefacts/SN-1";
       now := "2024-05-05 12:00:00"; write_ok := false |} in
  let row := {| Csv.serial_number := "SN-1"; Csv.date_programmed := "";
                Csv.firmware_version := ""; Csv.hardware_version := "";
                Csv.region_code := ""; Csv.batch_id := ""; Csv.notes := "";
                Csv.extra_columns := ∅ |} in
  let m := {| Csv._path := Some "ledger.csv"; Csv._rows := [row];
              Csv._all_columns := Csv.CSV_COLUMNS;
              Csv._selected_index := Some 0; Csv._modified := false |} in
  let s := _run_workflow env
             (start row "1.0.0" "A" "EU" "B1" "" "fw.uf2" "/media/RPI-RP2" m ∅) in
  In (MsgComplete true) (queue s) /\ files s = ∅.
Proof.
  intros path env row m s.
  refine (completion_without_saved_ledger env row "1.0.0" "A" "EU" "B1" ""
            "fw.uf2" "/media/RPI-RP2" m ∅ _ eq_refl).
  repeat split; try (repeat constructor);
    try (vm_compute; reflexivity); vm_compute; eexists; reflexivity.
Defined.

End WorkflowMore.
(* ===================================================================== *)
(** * The serial number ledger of the flasher *)
(* ===================================================================== *)

Section SerialLedgerFacts.
Import SerialLedger LedgerShape.

(** A decidable statement about concrete data, settled by evaluation. *)
#[local] Ltac by_evaluation :=
  match goal with
  | |- ?P => apply (bool_decide_unpack P); vm_compute; exact I
  end.

Lemma entry_eq (a b : Entry) :
  keys a = keys b -> cells a = cells b -> rest a = rest b -> a = b.
Proof. destruct a, b. cbn. now intros -> -> ->. Qed.

Lemma has_key_true entry k : has_key entry k = true <-> k ∈ keys entry.
Proof. unfold has_key. apply bool_decide_eq_true. Qed.

Lemma has_key_false entry k : has_key entry k = false <-> k ∉ keys entry.
Proof. unfold has_key. apply bool_decide_eq_false. Qed.

Lemma set_known entry k v :
  Some k ∈ keys entry ->
  set entry k v = {| keys := keys entry; cells := <[k := v]> (cells entry);
                     rest := rest entry |}.
Proof. intros H. unfold set. apply has_key_true in H. now rewrite H. Qed.

Lemma set_fresh entry k v :
  Some k ∉ keys entry ->
  set entry k v = {| keys := keys entry ++ [Some k];
                     cells := <[k := v]> (cells entry);
                     rest := rest entry |}.
Proof. intros H. unfold set. apply has_key_false in H. now rewrite H. Qed.

(** [dict(zip(fieldnames, row))] for field names that are all new. *)
Lemma fold_set_fresh names : forall row e,
  length row = length names ->
  NoDup names ->
  (forall k, k ∈ names -> Some k ∉ keys e) ->
  fold_left (fun d kv => set d kv.1 (Some kv.2)) (zip names row) e
  = {| keys := keys e ++ map Some names;
       cells := list_to_map (zip names (map Some row)) ∪ cells e;
       rest := rest e |}.
Proof.
  induction names as [|a names IH]; intros [|r row] e Hlen Hnd Hfresh;
    try discriminate; cbn [zip_with fold_left map].
  - apply entry_eq; cbn [keys cells rest]; [now rewrite app_nil_r| |reflexivity].
    now rewrite list_to_map_nil, (left_id_L ∅ (∪)).
  - apply NoDup_cons in Hnd as [Ha Hnd]. cbn [fst snd].
    rewrite set_fresh by (apply Hfresh; now left).
    rewrite IH; cbn [keys cells rest].
    + apply entry_eq; cbn [keys cells rest]; [|  |reflexivity].
      * now rewrite <- app_assoc.
      * rewrite list_to_map_cons.
        rewrite <- insert_union_l. symmetry. apply insert_union_r.
        apply not_elem_of_list_to_map_1. intros H.
        apply list_elem_of_fmap in H as ([x y] & -> & H).
        apply elem_of_zip_l in H. contradiction.
    + now injection Hlen.
    + assumption.
    + intros k Hk Hin. apply elem_of_app in Hin as [Hin|Hin].
      * apply (Hfresh k); [now right|assumption].
      * apply list_elem_of_singleton in Hin. injection Hin as ->. contradiction.
Qed.

(** A row with one cell for each field name. *)
Lemma read_entry_regular names row :
  NoDup names ->
  length row = length names ->
  read_entry names row
  = {| keys := map Some names;
       cells := list_to_map (zip names (map Some row));
       rest := None |}.
Proof.
  intros Hnd Hlen. unfold read_entry. rewrite Hlen, Nat.ltb_irrefl.
  rewrite fold_set_fresh; try assumption.
  - apply entry_eq; cbn [keys cells rest empty]; try reflexivity.
    now rewrite (right_id_L ∅ (∪)).
  - intros k _. cbn. apply not_elem_of_nil.
Qed.

Lemma lookup_zip_map {A} (names : list string) (vals : list A) k :
  NoDup names ->
  length vals = length names ->
  list_to_map (M := gmap string A) (zip names vals) !! k
  = match list_find (fun n => n = k) names with
    | Some (i, _) => vals !! i
    | None => None
    end.
Proof.
  intros Hnd Hlen.
  destruct (list_find (fun n => n = k) names) as [[i n]|] eqn:Hfind.
  - apply list_find_Some in Hfind as (Hi & -> & _).
    destruct (vals !! i) as [v|] eqn:Hv.
    + apply elem_of_list_to_map_1.
      * rewrite fst_zip by lia. assumption.
      * apply list_elem_of_lookup. exists i.
        apply lookup_zip_with_Some. eauto.
    + apply lookup_ge_None in Hv. apply lookup_lt_Some in Hi. lia.
  - apply not_elem_of_list_to_map_1. intros H.
    apply list_elem_of_fmap in H as ([x y] & -> & H).
    apply elem_of_zip_l in H. cbn in H.
    apply list_find_None in Hfind.
    rewrite Forall_forall in Hfind. now apply (Hfind x).
Qed.

Lemma read_entry_shaped names row :
  NoDup names ->
  length row = length names ->
  shaped names (read_entry names row).
Proof.
  intros Hnd Hlen. rewrite read_entry_regular by assumption.
  split; [reflexivity|]. split; [reflexivity|]. cbn [cells]. split.
  - intros k Hk. rewrite lookup_zip_map by (try assumption; now rewrite length_map).
    destruct (list_find (fun n => n = k) names) as [[i n]|] eqn:Hfind.
    + apply list_find_Some in Hfind as (Hi & _ & _).
      apply lookup_lt_Some in Hi.
      destruct (row !! i) as [s|] eqn:Hs.
      * exists s. now rewrite list_lookup_fmap, Hs.
      * apply lookup_ge_None in Hs. lia.
    + apply list_find_None in Hfind. rewrite Forall_forall in Hfind.
      now destruct (Hfind k Hk).
  - intros k Hk. apply not_elem_of_list_to_map_1. intros H.
    apply list_elem_of_fmap in H as ([x y] & -> & H).
    apply elem_of_zip_l in H. contradiction.
Qed.

(** What is written for a shaped entry reads back as the entry. *)
Lemma cell_text_row repr names e :
  map (cell_text repr e) (map Some names)
  = map (fun k => default "" (get_or_empty e k)) names.
Proof. now rewrite map_map. Qed.


Lemma elem_of_map_Some (names : list string) k :
  Some k ∈ map Some names <-> k ∈ names.
Proof.
  rewrite !list_elem_of_In. split.
  - intros H. apply in_map_iff in H as (x & [= ->] & H). exact H.
  - apply in_map.
Qed.


(** The loop of [update_serial_number_in_csv] marks the first entry that
    matches. *)
Lemma mark_first_at serial today fw who rows i entry :
  rows !! i = Some entry ->
  matches serial entry = Returns true ->
  (forall j e, j < i -> rows !! j = Some e -> matches serial e = Returns false) ->
  mark_first serial today fw who rows
  = Returns (Some (<[i := mark entry today fw who]> rows)).
Proof.
  revert i. induction rows as [|first rows IH]; intros i Hi Hm Hbefore;
    [discriminate|].
  cbn [mark_first]. destruct i as [|i]; cbn in Hi.
  - injection Hi as ->. now rewrite Hm.
  - rewrite (Hbefore 0 first) by first [lia|reflexivity].
    rewrite (IH i Hi Hm); [reflexivity|].
    intros j e Hj Hj'. apply (Hbefore (S j)); [lia|exact Hj'].
Qed.



Lemma writerows_stops repr fieldnames before bad after :
  (forall row, In row before ->
     forallb (fun k => bool_decide (k ∈ fieldnames)) (keys row) = true) ->
  forallb (fun k => bool_decide (k ∈ fieldnames)) (keys bad) = false ->
  writerows repr fieldnames (before ++ bad :: after)
  = (map (fun row => map (cell_text repr row) fieldnames) before, false).
Proof.
  induction before as [|row before IH]; intros H Hbad; cbn [app writerows map].
  - now rewrite Hbad.
  - rewrite (H row) by now left.
    rewrite IH; [reflexivity| |assumption]. intros r Hr. apply H. now right.
Qed.

Lemma keys_in_self (l : list (option string)) :
  forallb (fun k => bool_decide (k ∈ l)) l = true.
Proof.
  apply forallb_forall. intros k Hk. apply bool_decide_eq_true.
  now apply list_elem_of_In.
Qed.

(** The entries of a regular file. *)
Lemma entries_shaped f :
  regular f -> Forall (shaped (header f)) (entries f).
Proof.
  intros [Hnd Hreg]. unfold entries. apply Forall_forall. intros e He.
  apply list_elem_of_In, in_map_iff in He as (row & <- & Hrow).
  apply read_entry_shaped; [assumption|].
  rewrite Forall_forall in Hreg. apply Hreg. now apply list_elem_of_In.
Qed.





Lemma is_nil_lookup {A} (l : list A) i x : l !! i = Some x -> is_nil l = false.
Proof. now destruct l. Qed.






Lemma lookup_zip_at {A} (names : list string) (vals : list A) i k :
  NoDup names ->
  length vals = length names ->
  names !! i = Some k ->
  list_to_map (M := gmap string A) (zip names vals) !! k = vals !! i.
Proof.
  intros Hnd Hlen Hi.
  destruct (vals !! i) as [v|] eqn:Hv.
  - apply elem_of_list_to_map_1.
    + rewrite fst_zip by lia. assumption.
    + apply list_elem_of_lookup. exists i.
      apply lookup_zip_with_Some. eauto.
  - apply lookup_ge_None in Hv. apply lookup_lt_Some in Hi. lia.
Qed.

(** What is written for the entry of a regular row is the row. *)
Lemma read_row_written repr names row :
  NoDup names ->
  length row = length names ->
  map (cell_text repr (read_entry names row)) (map Some names) = row.
Proof.
  intros Hnd Hlen. rewrite cell_text_row.
  rewrite read_entry_regular by assumption.
  apply list_eq. intros i. rewrite list_lookup_fmap.
  destruct (names !! i) as [k|] eqn:Hk; cbn.
  - unfold get_or_empty. cbn [cells].
    rewrite (lookup_zip_at names (map Some row) i k)
      by (try assumption; now rewrite length_map).
    rewrite list_lookup_fmap.
    destruct (row !! i) as [s|] eqn:Hs; [reflexivity|].
    apply lookup_ge_None in Hs. apply lookup_lt_Some in Hk. lia.
  - symmetry. apply lookup_ge_None. apply lookup_ge_None in Hk. lia.
Qed.

Lemma elem_of_take_whole {A} (l : list A) n x : x ∈ take n l -> x ∈ l.
Proof.
  intros H. apply elem_of_take in H as (j & Hj & _).
  eapply list_elem_of_lookup_2. eassumption.
Qed.

Lemma set_keys_incl e k v k' : k' ∈ keys e -> k' ∈ keys (set e k v).
Proof.
  intros H. unfold set. cbn [keys].
  destruct (has_key e (Some k)); [assumption|].
  apply elem_of_app. now left.
Qed.

Lemma set_keys_new e k v : Some k ∈ keys (set e k v).
Proof.
  unfold set. cbn [keys]. destruct (has_key e (Some k)) eqn:H.
  - now apply has_key_true.
  - apply elem_of_app. right. now apply list_elem_of_singleton.
Qed.

Lemma mark_keys e today fw who k :
  k ∈ written_columns -> Some k ∈ keys (mark e today fw who).
Proof.
  unfold written_columns, mark. intros H.
  apply elem_of_cons in H as [->|H];
    [do 2 apply set_keys_incl; apply set_keys_new|].
  apply elem_of_cons in H as [->|H];
    [apply set_keys_incl, set_keys_new|].
  apply list_elem_of_singleton in H as ->. apply set_keys_new.
Qed.

(** A ledger cut short.  On a regular file whose header lacks one of the
    three columns that are written, when the first unused row of the
    serial number is not the first row of the file, the call returns
    [False], but not before it has opened the file for writing: what is
    left is the header and the rows that stood before the row to be
    marked.  That row and every row after it are gone. *)
Theorem update_serial_number_truncates (repr : list string -> string)
    (d : disk) (f : RawCsv)
    (csv_file serial_number firmware_version programmed_by today missing : string)
    (i : nat) (entry : Entry) :
  d !! csv_file = Some (Table f) ->
  regular f ->
  missing ∈ written_columns ->
  missing ∉ header f ->
  entries f !! i = Some entry ->
  0 < i ->
  matches serial_number entry = Returns true ->
  (forall j e, j < i -> entries f !! j = Some e ->
               matches serial_number e = Returns false) ->
  update_serial_number_in_csv repr d csv_file serial_number firmware_version
    programmed_by today true
  = (Returns false,
     <[csv_file := Table {| header := header f;
                            rows := take i (data_rows f) |}]> d).
Proof.
  intros Hfile Hreg Hmissing Hout Hi Hpos Hm Hbefore.
  pose proof (entries_shaped f Hreg) as Hshaped.
  unfold update_serial_number_in_csv, get_serial_numbers. rewrite Hfile.
  change (map (read_entry (header f))
            (List.filter (fun row => negb (is_nil row)) (rows f)))
    with (entries f).
  rewrite (is_nil_lookup _ _ _ Hi).
  rewrite (mark_first_at _ _ _ _ _ i entry Hi Hm Hbefore).
  assert (Hlen : i < length (entries f)) by (eapply lookup_lt_Some; eassumption).
  rewrite insert_take_drop by assumption.
  assert (Hfirst : match take i (entries f)
                         ++ mark entry today firmware_version programmed_by
                         :: drop (S i) (entries f) with
                   | first :: _ => keys first
                   | [] => []
                   end = map Some (header f)).
  { destruct (entries f) as [|first l] eqn:He; [cbn in Hlen; lia|].
    destruct i as [|i]; [lia|]. cbn [take app].
    apply Forall_cons in Hshaped as [(Hk & _) _]. exact Hk. }
  rewrite Hfirst.
  rewrite writerows_stops.
  - assert (Hheader : map (default "") (map Some (header f)) = header f).
    { rewrite map_map. cbn [default]. apply map_id. }
    assert (Hrows : map (fun row : Entry =>
                           map (cell_text repr row) (map Some (header f)))
                      (take i (entries f))
                    = take i (data_rows f)).
    { unfold entries. rewrite firstn_map, map_map.
      rewrite <- (map_id (take i (data_rows f))) at 2.
      apply map_ext_in. intros row Hrow.
      destruct Hreg as [Hnd Hreg]. apply read_row_written; [assumption|].
      rewrite Forall_forall in Hreg. apply Hreg.
      apply list_elem_of_In in Hrow. eapply elem_of_take_whole. eassumption. }
    now rewrite Hheader, Hrows.
  - intros row Hrow. rewrite Forall_forall in Hshaped.
    apply list_elem_of_In, elem_of_take_whole in Hrow.
    destruct (Hshaped row Hrow) as (-> & _). apply keys_in_self.
  - destruct (forallb _ _) eqn:E; [exfalso|reflexivity].
    rewrite forallb_forall in E.
    specialize (E (Some missing)
                  (proj1 (list_elem_of_In _ _) (mark_keys _ _ _ _ _ Hmissing))).
    apply bool_decide_eq_true in E. apply elem_of_map_Some in E. contradiction.
Qed.

Lemma update_serial_number_truncates_witness :
  let f := {| header := ["serial_number"; "date_programmed"];
              rows := [ ["SN-1"; "2024-01-01"];
                        ["SN-2"; ""];
                        ["SN-3"; ""] ] |} in
  let d : disk := {[ "serials.csv" := Table f ]} in
  update_serial_number_in_csv (fun _ => "") d "serials.csv" "SN-2" "1.1.0"
    "bob" "2024-02-02" true
  = (Returns false,
     <["serials.csv" := Table {| header := ["serial_number"; "date_programmed"];
                                 rows := [ ["SN-1"; "2024-01-01"] ] |}]> d).
Proof.
  intros f d.
  apply (update_serial_number_truncates (fun _ => "") d f "serials.csv" "SN-2"
           "1.1.0" "bob" "2024-02-02" "programmed_by" 1
           (read_entry (header f) ["SN-2"; ""])).
  - reflexivity.
  - split; by_evaluation.
  - by_evaluation.
  - by_evaluation.
  - reflexivity.
  - lia.
  - vm_compute. reflexivity.
  - intros [|j] e Hj He; [|lia]. vm_compute in He. injection He as <-.
    vm_compute. reflexivity.
Defined.

(** The loop of [get_next_available_serial] returns the serial number of
    the first entry that is unused. *)
Lemma find_available_Some l serial :
  find_available l = Returns (Some serial) ->
  exists i entry,
    l !! i = Some entry
    /\ available entry = Returns true
    /\ get entry "serial_number" = Some serial
    /\ forall j e, j < i -> l !! j = Some e -> available e = Returns false.
Proof.
  induction l as [|first l IH]; intros H; cbn [find_available] in H;
    [discriminate|].
  destruct (available first) as [[|]|] eqn:Ha; [| |discriminate].
  - injection H as H. exists 0, first. repeat split; try assumption.
    intros j e Hj. lia.
  - destruct (IH H) as (i & entry & Hi & Hav & Hs & Hbefore).
    exists (S i), entry. repeat split; try assumption.
    intros [|j] e Hj He; cbn in He.
    + now injection He as <-.
    + apply (Hbefore j); [lia|assumption].
Qed.




(** ** Rows that stop short *)

Lemma fold_set_none ks : forall d k,
  cells d !! k = Some None \/ k ∈ ks ->
  cells (fold_left (fun d k => set d k None) ks d) !! k = Some None.
Proof.
  induction ks as [|a ks IH]; intros d k H; cbn [fold_left].
  - destruct H as [H|H]; [assumption|]. now apply not_elem_of_nil in H.
  - apply IH. unfold set. cbn [cells].
    destruct (decide (k = a)) as [->|Hne].
    + left. apply lookup_insert_eq.
    + rewrite lookup_insert_ne by congruence.
      destruct H as [H|H]; [now left|right].
      apply elem_of_cons in H as [H|H]; [contradiction|assumption].
Qed.

(** A row that ends before the date column has [None] for its date, and
    asking whether it is unused raises. *)
Lemma short_row_raises names row c :
  names !! c = Some "date_programmed" ->
  length row <= c ->
  available (read_entry names row) = Raises.
Proof.
  intros Hc Hlen. pose proof (lookup_lt_Some _ _ _ Hc) as Hlt.
  unfold read_entry.
  replace (length names <? length row) with false
    by (symmetry; apply Nat.ltb_ge; lia).
  replace (length row <? length names) with true
    by (symmetry; apply Nat.ltb_lt; lia).
  unfold available, get_or_empty. rewrite fold_set_none; [reflexivity|].
  right. apply list_elem_of_lookup. exists (c - length row).
  rewrite lookup_drop. now replace (length row + (c - length row)) with c by lia.
Qed.

(** The search for the next serial number on a file with a short row.
    When a row that ends before the date column is reached before any
    unused row, [get_next_available_serial] does not return: the
    [AttributeError] of the [None] date escapes. *)
Lemma get_next_available_serial_short_row (d : disk) (f : RawCsv)
    (csv_file : string) (c i : nat) (row : list string) :
  d !! csv_file = Some (Table f) ->
  header f !! c = Some "date_programmed" ->
  data_rows f !! i = Some row ->
  length row <= c ->
  (forall j e, j < i -> entries f !! j = Some e -> available e = Returns false) ->
  get_next_available_serial d csv_file = Raises.
Proof.
  intros Hfile Hc Hrow Hlen Hbefore.
  unfold get_next_available_serial, get_serial_numbers. rewrite Hfile.
  change (map (read_entry (header f))
            (List.filter (fun row => negb (is_nil row)) (rows f)))
    with (entries f).
  assert (Hi : entries f !! i = Some (read_entry (header f) row)).
  { unfold entries. now rewrite list_lookup_fmap, Hrow. }
  rewrite (is_nil_lookup _ _ _ Hi).
  pose proof (short_row_raises (header f) row c Hc Hlen) as Hraise.
  clear Hrow. revert i Hi Hbefore.
  induction (entries f) as [|first l IH]; intros i Hi Hbefore; [discriminate|].
  cbn [find_available]. destruct i as [|i]; cbn in Hi.
  - injection Hi as ->. now rewrite Hraise.
  - rewrite (Hbefore 0 first) by first [lia|reflexivity].
    apply (IH i Hi). intros j e Hj He. apply (Hbefore (S j)); [lia|exact He].
Qed.

(** The board-ID database remembers what is registered.  With a board ID
    and a serial number that are not empty and a file that can be written,
    [register_board_id] succeeds; a lookup of that ID then gives the serial
    number, and the lookup of every other ID gives what it gave before,
    also when the file was missing or not valid JSON.  With an empty ID,
    an empty serial number or a file that cannot be written, it returns
    [False] and leaves the files as they were. *)
Theorem register_board_id_lookup (self : SerialHeader.SerialManager)
    (fs : jsonfiles) (board_id serial_number : string) (write_ok : bool) :
  let r := register_board_id self fs board_id serial_number write_ok in
  (Py.truthy board_id = true -> Py.truthy serial_number = true ->
   write_ok = true ->
   r.1 = true
   /\ lookup_serial_by_board_id self r.2 board_id = Some serial_number
   /\ forall other, other <> board_id ->
        lookup_serial_by_board_id self r.2 other
        = lookup_serial_by_board_id self fs other)
  /\ (Py.truthy board_id = false \/ Py.truthy serial_number = false
      \/ write_ok = false ->
      r = (false, fs))
  /\ lookup_serial_by_board_id self fs "" = None.
Proof.
  cbv zeta. unfold register_board_id, save_board_id_db.
  split; [|split].
  - intros Hid Hserial Hwrite. rewrite Hid, Hserial, Hwrite.
    cbn [negb orb fst snd]. split; [reflexivity|]. split.
    + unfold lookup_serial_by_board_id, load_board_id_db. rewrite Hid.
      cbn [negb]. rewrite lookup_insert_eq. apply lookup_insert_eq.
    + intros other Hother.
      unfold lookup_serial_by_board_id. destruct (negb (Py.truthy other));
        [reflexivity|].
      unfold load_board_id_db at 1. rewrite lookup_insert_eq.
      apply lookup_insert_ne. congruence.
  - intros [->|[->| ->]]; cbn [negb orb]; [reflexivity| |].
    + now rewrite orb_true_r.
    + now destruct (_ || _).
  - reflexivity.
Qed.

End SerialLedgerFacts.

(* ===================================================================== *)
(** * The lists of recent files *)
(* ===================================================================== *)

Section PersistenceFacts.
Import Persistence.

Lemma remove_sublist path recent : remove path recent `sublist_of` recent.
Proof.
  induction recent as [|x rest IH]; cbn [remove]; [constructor|].
  destruct (String.eqb x path).
  - apply sublist_cons. reflexivity.
  - now apply sublist_skip.
Qed.

Lemma remove_absent path recent :
  ~ In path recent -> remove path recent = recent.
Proof.
  induction recent as [|x rest IH]; intros H; [reflexivity|].
  cbn [remove]. destruct (String.eqb_spec x path) as [->|Hne].
  - destruct H. now left.
  - rewrite IH; [reflexivity|]. intros Hin. apply H. now right.
Qed.

Lemma remove_NoDup path recent :
  NoDup recent -> ~ In path (remove path recent).
Proof.
  induction recent as [|x rest IH]; intros Hnd; cbn [remove]; [tauto|].
  apply NoDup_cons in Hnd as [Hx Hrest].
  destruct (String.eqb_spec x path) as [->|Hne].
  - now rewrite <- list_elem_of_In.
  - intros [?|Hin]; [congruence|]. now apply IH.
Qed.

(** The list without [path], as [add_recent] puts [path] in front of it. *)
Lemma add_recent_eq recent path :
  add_recent recent path = path :: take 9 (remove path recent).
Proof.
  unfold add_recent, MAX_RECENT_FILES. cbn [take firstn].
  destruct (Csv.mem path recent) eqn:E; [reflexivity|].
  apply mem_not_In in E. now rewrite remove_absent.
Qed.

Lemma add_recent_facts recent path :
  let recent' := add_recent recent path in
  hd_error recent' = Some path
  /\ length recent' <= 10
  /\ tl recent' `sublist_of` recent
  /\ (NoDup recent -> NoDup recent')
  /\ add_recent recent' path = recent'.
Proof.
  cbv zeta. rewrite !add_recent_eq. cbn [hd_error tl length].
  assert (Hsub : take 9 (remove path recent) `sublist_of` recent).
  { transitivity (remove path recent);
      [apply sublist_take|apply remove_sublist]. }
  repeat split.
  - rewrite length_take. lia.
  - exact Hsub.
  - intros Hnd. apply NoDup_cons. split.
    + intros Hin. apply (elem_of_sublist _ (remove path recent)) in Hin;
        [|apply sublist_take].
      apply list_elem_of_In in Hin. now apply (remove_NoDup path recent).
    + eapply sublist_NoDup; eassumption.
  - cbn [remove]. rewrite String.eqb_refl. f_equal.
    rewrite take_take. reflexivity.
Qed.

(** The recent files are a most-recently-used list.  After
    [add_recent_csv] the path stands first in the list of CSV files, the
    list has at most ten entries, the entries after the first are entries
    of the list before, in their order, and a list without repetition
    stays so; adding the same path again changes nothing.  The list of
    firmware files is left alone.  [add_recent_firmware] does the same
    with the two lists exchanged. *)
Theorem add_recent_most_recent_first (s : PersistedState) (path : string) :
  (let s' := add_recent_csv s path in
   hd_error (recent_csv_files s') = Some path
   /\ length (recent_csv_files s') <= 10
   /\ tl (recent_csv_files s') `sublist_of` recent_csv_files s
   /\ (NoDup (recent_csv_files s) -> NoDup (recent_csv_files s'))
   /\ add_recent_csv s' path = s'
   /\ recent_firmware_files s' = recent_firmware_files s)
  /\ (let s' := add_recent_firmware s path in
      hd_error (recent_firmware_files s') = Some path
      /\ length (recent_firmware_files s') <= 10
      /\ tl (recent_firmware_files s') `sublist_of` recent_firmware_files s
      /\ (NoDup (recent_firmware_files s) -> NoDup (recent_firmware_files s'))
      /\ add_recent_firmware s' path = s'
      /\ recent_csv_files s' = recent_csv_files s).
Proof.
  split; cbv zeta.
  - destruct (add_recent_facts (recent_csv_files s) path)
      as (Hhd & Hlen & Hsub & Hnd & Hidem).
    cbn [add_recent_csv recent_csv_files recent_firmware_files].
    repeat split; try assumption.
    unfold add_recent_csv. cbn -[add_recent]. now rewrite Hidem.
  - destruct (add_recent_facts (recent_firmware_files s) path)
      as (Hhd & Hlen & Hsub & Hnd & Hidem).
    cbn [add_recent_firmware recent_csv_files recent_firmware_files].
    repeat split; try assumption.
    unfold add_recent_firmware. cbn -[add_recent]. now rewrite Hidem.
Qed.

End PersistenceFacts.

(* ===================================================================== *)
(** * The dict made of a response *)
(* ===================================================================== *)

Section ProvisionerFacts.
Import Provisioner.

Lemma squeeze_chars in_run s :
  forallb (fun c => is_key_char c || Ascii.eqb c "_") (Py.chars (squeeze in_run s))
  = true.
Proof.
  revert in_run. induction s as [|c s IH]; intros in_run; [reflexivity|].
  cbn [squeeze]. destruct (is_key_char c) eqn:Hc.
  - cbn [Py.chars list_ascii_of_string forallb]. rewrite Hc. cbn [orb andb].
    apply IH.
  - destruct in_run; [apply IH|].
    cbn [Py.chars list_ascii_of_string forallb].
    change (is_key_char "_" || Ascii.eqb "_" "_") with true. cbn [andb].
    apply IH.
Qed.

Lemma normalize_key_chars key :
  forallb (fun c => is_key_char c || Ascii.eqb c "_") (Py.chars (normalize_key key))
  = true.
Proof. apply squeeze_chars. Qed.

(** What the loops over the lines keep: the key [raw] stays, and every
    key is made of lowercase letters, digits and underscores. *)
Lemma parse_lines_keep (step : gmap string Value -> string -> gmap string Value)
    response (result : gmap string Value) :
  (forall r line,
     r = step r line
     \/ exists key v, step r line = <[normalize_key key := Text v]> r) ->
  is_Some (result !! "raw") ->
  (forall k, is_Some (result !! k) ->
     forallb (fun c => is_key_char c || Ascii.eqb c "_") (Py.chars k) = true) ->
  let r := fold_left step response result in
  is_Some (r !! "raw")
  /\ forall k, is_Some (r !! k) ->
       forallb (fun c => is_key_char c || Ascii.eqb c "_") (Py.chars k) = true.
Proof.
  intros Hstep. revert result.
  induction response as [|line response IH]; intros result Hraw Hkeys;
    cbn [fold_left]; [now split|].
  apply IH.
  - destruct (Hstep result line) as [<-|(key & v & ->)]; [assumption|].
    apply lookup_insert_is_Some'. now right.
  - intros k Hk. destruct (Hstep result line) as [E|(key & v & E)].
    + rewrite <- E in Hk. now apply Hkeys.
    + rewrite E in Hk. apply lookup_insert_is_Some' in Hk as [<-|Hk].
      * apply normalize_key_chars.
      * now apply Hkeys.
Qed.

Lemma parse_info_line_step r line :
  r = parse_info_line r line
  \/ exists key v, parse_info_line r line = <[normalize_key key := Text v]> r.
Proof.
  unfold parse_info_line.
  destruct (has_char ":" (strip_tag line)).
  - destruct (split_once ":" (strip_tag line)) as [key value]. right. eauto.
  - destruct (has_char "=" (strip_tag line)); [|now left].
    destruct (split_once "=" (strip_tag line)) as [key value]. right. eauto.
Qed.

Lemma parse_status_line_step r line :
  r = parse_status_line r line
  \/ exists key v, parse_status_line r line = <[normalize_key key := Text v]> r.
Proof.
  unfold parse_status_line.
  destruct (has_char ":" (strip_tag line)); [|now left].
  destruct (split_once ":" (strip_tag line)) as [key value]. right. eauto.
Qed.

Lemma add_serial_alias_cases result :
  add_serial_alias result = result
  /\ (is_Some (result !! "serial_number")
      \/ (result !! "device_serial" = None /\ result !! "sn" = None
          /\ result !! "s_n" = None /\ result !! "serial" = None))
  \/ exists v, add_serial_alias result = <["serial_number" := v]> result.
Proof.
  unfold add_serial_alias.
  destruct (result !! "serial_number") as [v|]; [left; split; eauto|].
  destruct (result !! "device_serial"); [right; eauto|].
  destruct (result !! "sn"); [right; eauto|].
  destruct (result !! "s_n"); [right; eauto|].
  destruct (result !! "serial"); [right; eauto|].
  left. split; [reflexivity|]. right. now repeat split.
Qed.

Lemma find_region_code val code :
  List.find (fun code => code_in code val) REGION_CODES = Some code ->
  (code = "EU" /\ code_in "EU" val = true)
  \/ (code = "US" /\ code_in "EU" val = false /\ code_in "US" val = true).
Proof.
  unfold REGION_CODES. cbn [List.find].
  destruct (code_in "EU" val) eqn:E1; [intros [= <-]; now left|].
  destruct (code_in "US" val) eqn:E2; [intros [= <-]; now right|discriminate].
Qed.

Lemma find_region_none val :
  List.find (fun code => code_in code val) REGION_CODES = None ->
  code_in "EU" val = false /\ code_in "US" val = false.
Proof.
  unfold REGION_CODES. cbn [List.find].
  destruct (code_in "EU" val); [discriminate|].
  destruct (code_in "US" val); [discriminate|]. now split.
Qed.

(** The last two blocks of the parsers. *)
Lemma finish_guarantees (result : gmap string Value) :
  is_Some (result !! "raw") ->
  (forall k, is_Some (result !! k) ->
     forallb (fun c => is_key_char c || Ascii.eqb c "_") (Py.chars k) = true) ->
  let r := add_region (add_serial_alias result) in
  is_Some (r !! "raw")
  /\ (forall k, is_Some (r !! k) ->
        forallb (fun c => is_key_char c || Ascii.eqb c "_") (Py.chars k) = true)
  /\ (forall alias, In alias ["device_serial"; "sn"; "s_n"; "serial"] ->
        is_Some (r !! alias) -> is_Some (r !! "serial_number"))
  /\ (is_Some (r !! "region_code") -> is_Some (r !! "region"))
  /\ (forall v, r !! "region" = Some (Text v) ->
        (Py.contains "EU" v = true -> v = "EU")
        /\ (Py.contains "US" v = true -> v = "EU" \/ v = "US")).
Proof.
  intros Hraw Hkeys.
  set (r1 := add_serial_alias result).
  assert (H1 : is_Some (r1 !! "raw")
               /\ (forall k, is_Some (r1 !! k) ->
                     forallb (fun c => is_key_char c || Ascii.eqb c "_")
                             (Py.chars k) = true)
               /\ (forall alias, In alias ["device_serial"; "sn"; "s_n"; "serial"] ->
                     is_Some (r1 !! alias) -> is_Some (r1 !! "serial_number"))).
  { unfold r1. destruct (add_serial_alias_cases result)
      as [[-> Hwhy]|[v ->]].
    - repeat split; try assumption.
      intros alias Halias Hsome. destruct Hwhy as [?|(Ha & Hb & Hc & Hd)];
        [assumption|].
      cbn [In] in Halias.
      destruct Halias as [<-|[<-|[<-|[<-|[]]]]]; destruct Hsome; congruence.
    - repeat split.
      + apply lookup_insert_is_Some'. now right.
      + intros k Hk. apply lookup_insert_is_Some' in Hk as [<-|Hk];
          [reflexivity|now apply Hkeys].
      + intros alias _ _. rewrite lookup_insert_eq. eauto. }
  destruct H1 as (Hraw1 & Hkeys1 & Halias1).
  cbv zeta. fold r1. unfold add_region.
  set (r2 := match r1 !! "region", r1 !! "region_code" with
             | None, Some v => <["region" := v]> r1
             | _, _ => r1
             end).
  assert (H2 : is_Some (r2 !! "raw")
               /\ (forall k, is_Some (r2 !! k) ->
                     forallb (fun c => is_key_char c || Ascii.eqb c "_")
                             (Py.chars k) = true)
               /\ (forall k, k <> "region" -> r2 !! k = r1 !! k)
               /\ (is_Some (r2 !! "region_code") -> is_Some (r2 !! "region"))).
  { unfold r2. destruct (r1 !! "region") as [v|] eqn:Hregion.
    - repeat split; try assumption. intros _. rewrite Hregion. eauto.
    - destruct (r1 !! "region_code") as [v|] eqn:Hcode.
      + repeat split.
        * apply lookup_insert_is_Some'. now right.
        * intros k Hk. apply lookup_insert_is_Some' in Hk as [<-|Hk];
            [reflexivity|now apply Hkeys1].
        * intros k Hk. apply lookup_insert_ne. congruence.
        * intros _. rewrite lookup_insert_eq. eauto.
      + repeat split; try assumption. rewrite Hcode. intros [? ?]. discriminate. }
  destruct H2 as (Hraw2 & Hkeys2 & Hsame2 & Hcode2).
  assert (Halias2 : forall alias, In alias ["device_serial"; "sn"; "s_n"; "serial"] ->
                      is_Some (r2 !! alias) -> is_Some (r2 !! "serial_number")).
  { intros alias Halias. rewrite !Hsame2.
    - now apply Halias1.
    - discriminate.
    - cbn [In] in Halias. intros ->.
      destruct Halias as [?|[?|[?|[?|[]]]]]; discriminate. }
  destruct (r2 !! "region") as [val|] eqn:Hval.
  2:{ repeat split; try assumption; try congruence.
      intros Hc. destruct (Hcode2 Hc) as [? ?]. discriminate. }
  destruct (List.find (fun code => code_in code val) REGION_CODES) as [code|] eqn:Hfind.
  - assert (Hother : forall k, k <> "region" ->
                       <["region" := Text code]> r2 !! k = r2 !! k).
    { intros k Hk. apply lookup_insert_ne. congruence. }
    repeat split.
    + now rewrite Hother by discriminate.
    + intros k Hk. apply lookup_insert_is_Some' in Hk as [<-|Hk];
        [reflexivity|now apply Hkeys2].
    + intros alias Halias. rewrite !Hother.
      * now apply Halias2.
      * discriminate.
      * cbn [In] in Halias. intros ->.
        destruct Halias as [?|[?|[?|[?|[]]]]]; discriminate.
    + intros _. rewrite lookup_insert_eq. eauto.
    + rewrite lookup_insert_eq in H. injection H as <-.
      apply find_region_code in Hfind as [[-> _]|[-> _]];
        [reflexivity|intros ?; discriminate].
    + rewrite lookup_insert_eq in H. injection H as <-.
      apply find_region_code in Hfind as [[-> _]|[-> _]]; intros _; tauto.
  - apply find_region_none in Hfind as [Heu Hus].
    repeat split; try assumption.
    + intros _. rewrite Hval. eauto.
    + rewrite Hval in H. injection H as ->. cbn [code_in] in Heu. congruence.
    + rewrite Hval in H. injection H as ->. cbn [code_in] in Hus. congruence.
Qed.

(** What the parsers promise their callers.  The dict [_parse_info_response]
    and [_parse_status] make of any response holds the key [raw], so it is
    never empty; each of its keys is made of lowercase letters, digits and
    underscores only; it holds [serial_number] whenever it holds one of the
    aliases [device_serial], [sn], [s_n], [serial], and [region] whenever
    it holds [region_code]; and a region that names [EU] is exactly [EU],
    one that names [US] is [EU] or [US]. *)
Theorem parse_response_guarantees (response : list string) (r : gmap string Value) :
  r = _parse_info_response response \/ r = _parse_status response ->
  is_Some (r !! "raw")
  /\ (forall k, is_Some (r !! k) ->
        forallb (fun c => is_key_char c || Ascii.eqb c "_") (Py.chars k) = true)
  /\ (forall alias, In alias ["device_serial"; "sn"; "s_n"; "serial"] ->
        is_Some (r !! alias) -> is_Some (r !! "serial_number"))
  /\ (is_Some (r !! "region_code") -> is_Some (r !! "region"))
  /\ (forall v, r !! "region" = Some (Text v) ->
        (Py.contains "EU" v = true -> v = "EU")
        /\ (Py.contains "US" v = true -> v = "EU" \/ v = "US")).
Proof.
  assert (Hstart : is_Some (({[ "raw" := Lines response ]} : gmap string Value) !! "raw")
                   /\ forall k, is_Some (({[ "raw" := Lines response ]}
                                            : gmap string Value) !! k) ->
                        forallb (fun c => is_key_char c || Ascii.eqb c "_")
                                (Py.chars k) = true).
  { split.
    - rewrite lookup_singleton_eq. eauto.
    - intros k [v Hk]. apply lookup_singleton_Some in Hk as [<- _]. reflexivity. }
  destruct Hstart as [Hraw Hkeys].
  intros [->| ->].
  - unfold _parse_info_response.
    destruct (parse_lines_keep parse_info_line response _
                parse_info_line_step Hraw Hkeys) as [Hr Hk].
    now apply finish_guarantees.
  - unfold _parse_status.
    destruct (parse_lines_keep parse_status_line response _
                parse_status_line_step Hraw Hkeys) as [Hr Hk].
    now apply finish_guarantees.
Qed.

Lemma parse_response_guarantees_witness :
  is_Some (_parse_info_response
             ["[INFO] Device-Serial: SN-0042"; "Region = EU (Europe)"]
           !! "serial_number").
Proof.
  refine (proj1 (proj2 (proj2
    (parse_response_guarantees
       ["[INFO] Device-Serial: SN-0042"; "Region = EU (Europe)"]
       _ (or_introl eq_refl)))) "device_serial" _ _).
  - cbn. tauto.
  - vm_compute. eexists. reflexivity.
Defined.

End ProvisionerFacts.
(* ===================================================================== *)
(** * production_programming: what a run leaves behind *)
(* ===================================================================== *)

Section ProductionFacts.
Import Production.

#[local] Ltac split_ifs :=
  repeat match goal with
         | |- context [if ?x then _ else _] => destruct x; cbn [snd fst negb andb]
         end.

(** The files after [deploy_firmware]: the image is marked once more when
    there is an image and a serial number, and nothing is written
    otherwise. *)
Lemma deploy_firmware_files (env : Deploy.Env) (fs : UF2.filesystem)
    (force : bool) (serial_number : option string) (verify reprogram : bool) :
  (Deploy.deploy_firmware env fs force serial_number verify reprogram).2
  = if Py.truthy_opt (Deploy.get_uf2_path env) && Py.truthy_opt serial_number
    then (UF2.modify_uf2_with_serial (Deploy.image_writable env) fs
            (default "" (Deploy.get_uf2_path env)) (default "" serial_number)).2
    else fs.
Proof.
  unfold Deploy.deploy_firmware.
  destruct (Py.truthy_opt (Deploy.get_uf2_path env)); cbn [negb andb snd];
    [|reflexivity].
  destruct (Py.truthy_opt serial_number).
  - destruct (UF2.modify_uf2_with_serial _ _ _ _) as [u fs']. cbn [snd].
    split_ifs; reflexivity.
  - split_ifs; reflexivity.
Qed.

(** Writing the ledger touches no other file. *)
Lemma update_serial_number_frame repr (d : SerialLedger.disk)
    (csv_file serial fw who today : string) (ok : bool) (p : string) :
  p <> csv_file ->
  (SerialLedger.update_serial_number_in_csv repr d csv_file serial fw who
     today ok).2 !! p
  = d !! p.
Proof.
  intros Hp. unfold SerialLedger.update_serial_number_in_csv.
  repeat match goal with
         | |- context [match ?x with _ => _ end] => destruct x; cbn [snd fst]
         end; try reflexivity; now rewrite lookup_insert_ne by congruence.
Qed.

(** The serial number that was handed out is marked without an exception:
    the rows the marking loop looks at were looked at before. *)
Lemma update_after_next repr (d : SerialLedger.disk)
    (csv_file serial fw who today : string) (ok : bool) :
  SerialLedger.get_next_available_serial d csv_file
  = SerialLedger.Returns (Some serial) ->
  (SerialLedger.update_serial_number_in_csv repr d csv_file serial fw who
     today ok).1
  <> SerialLedger.Raises.
Proof.
  unfold SerialLedger.get_next_available_serial,
    SerialLedger.update_serial_number_in_csv.
  destruct (SerialLedger.get_serial_numbers d csv_file) as [l|];
    [|discriminate].
  destruct (SerialLedger.is_nil l); [discriminate|].
  intros Hnext.
  apply find_available_Some in Hnext as (i & entry & Hi & Hav & Hs & Hbefore).
  rewrite (mark_first_at serial today fw who l i entry Hi).
  - destruct ok; [|discriminate].
    destruct (SerialLedger.writerows _ _ _). discriminate.
  - unfold SerialLedger.matches. now rewrite bool_decide_eq_true_2.
  - intros j e Hj He. unfold SerialLedger.matches.
    rewrite (Hbefore j e Hj He). now destruct (bool_decide _).
Qed.

(** What a run does to the ledger and to the board-ID database.  A run
    that returns False leaves both as they were; with verification on the
    database is never written.  When the ledger lets an exception escape,
    it is the search for the next serial number that does, before anything
    is touched: marking the serial number handed out does not raise.  A
    run returns True only after a serial number was handed out and
    picotool took one of the files, and then the ledger is what
    [update_serial_number_in_csv] left, also when that update failed; no
    ledger file other than the resolved one is touched. *)
Theorem production_programming_ledger (env : Env)
    (serial_manager : SerialHeader.SerialManager) (w : World)
    (csv_file : string) (template_file : option string)
    (firmware_version : string) (programmed_by : option string)
    (force verify reprogram : bool) :
  let csv :=
    if negb (SerialHeader.isabs csv_file)
    then SerialHeader.join (script_dir env) csv_file else csv_file in
  let who :=
    match programmed_by with
    | None => default "system" (username env)
    | Some programmed_by => programmed_by
    end in
  let r := production_programming env serial_manager w csv_file template_file
             firmware_version programmed_by force verify reprogram in
  (r.1 = SerialLedger.Returns false ->
   ledger r.2 = ledger w /\ board_ids r.2 = board_ids w)
  /\ (r.1 = SerialLedger.Raises ->
      SerialLedger.get_next_available_serial (ledger w) csv
      = SerialLedger.Raises
      /\ r.2 = w)
  /\ (verify = true -> board_ids r.2 = board_ids w)
  /\ (r.1 = SerialLedger.Returns true ->
      exists serial,
        SerialLedger.get_next_available_serial (ledger w) csv
        = SerialLedger.Returns (Some serial)
        /\ Py.truthy serial = true
        /\ Deploy.flash_succeeded (deploy env) = true
        /\ ledger r.2
           = (SerialLedger.update_serial_number_in_csv (repr_list env)
                (ledger w) csv serial firmware_version who (today env)
                (ledger_write_ok env)).2)
  /\ (forall p, p <> csv -> ledger r.2 !! p = ledger w !! p).
Proof.
  cbv zeta. unfold production_programming.
  set (csv := if negb (SerialHeader.isabs csv_file) then _ else _).
  set (who := match programmed_by with None => _ | Some _ => _ end).
  destruct (SerialLedger.get_next_available_serial (ledger w) csv)
    as [[serial|]|] eqn:Hnext; cbn [Py.truthy_opt negb default id fst snd].
  2,3:(repeat split; try discriminate; try reflexivity).
  destruct (Py.truthy serial) eqn:Hs; cbn [negb].
  2:{ repeat split; try discriminate. }
  destruct (SerialHeader.generate_serial_header _ _ _ _ _ _ _)
    as [generated hs].
  destruct generated; cbn [negb].
  2:{ repeat split; try discriminate. }
  destruct (configure env); cbn [negb].
  2:{ repeat split; try discriminate. }
  destruct (build env) as [built imgs]. destruct built; cbn [negb].
  2:{ repeat split; try discriminate. }
  destruct (Py.truthy_opt (Deploy.get_uf2_path (deploy env))) eqn:Hu; cbn [negb].
  2:{ repeat split; try discriminate. }
  destruct (UF2.modify_uf2_with_serial _ _ _ _) as [u imgs1].
  destruct (Py.truthy_opt u); cbn [negb].
  2:{ repeat split; try discriminate. }
  pose proof (deploy_firmware_verdict_core (deploy env) imgs1 force
                (Some serial) verify reprogram) as Hd.
  cbv zeta in Hd. destruct Hd as (Hflash & _ & _ & _ & _ & Horacle & _).
  destruct (Deploy.deploy_firmware _ _ _ _ _ _) as [outcome imgs2].
  cbn [fst] in Hflash.
  destruct (Deploy.returns outcome); cbn [negb fst snd ledger board_ids].
  2:{ repeat split; try discriminate. }
  pose proof (update_after_next (repr_list env) (ledger w) csv serial
                firmware_version who (today env) (ledger_write_ok env) Hnext)
    as Hno.
  pose proof (update_serial_number_frame (repr_list env) (ledger w) csv serial
                firmware_version who (today env) (ledger_write_ok env))
    as Hframe.
  destruct (SerialLedger.update_serial_number_in_csv _ _ _ _ _ _ _ _)
    as [[updated|] ledger'] eqn:Hup; cbn [fst snd ledger board_ids] in *;
    [|contradiction].
  split; [discriminate|]. split; [discriminate|].
  split; [now intros ->|]. split.
  - intros _. exists serial. split; [reflexivity|]. split; [assumption|].
    split; [exact (Horacle (Hflash eq_refl))|]. now rewrite Hup.
  - exact Hframe.
Qed.

(** The marker is embedded twice.  Once a serial number is handed out, the
    header is generated, the build has produced the image, the image can
    be opened for writing and the marker encodes, a run leaves the image
    with the marker embedded twice: by the step that prepares the upload,
    and again by [deploy_firmware] on the image already marked; this
    whatever the flash and the verification give, and no other file of the
    build directory is changed. *)
Theorem production_programming_embeds_twice (env : Env)
    (serial_manager : SerialHeader.SerialManager) (w : World)
    (csv_file : string) (template_file : option string)
    (firmware_version : string) (programmed_by : option string)
    (force verify reprogram : bool)
    (serial : string) (imgs : UF2.filesystem) (path : string)
    (buffer m : UF2.bytes) :
  let csv :=
    if negb (SerialHeader.isabs csv_file)
    then SerialHeader.join (script_dir env) csv_file else csv_file in
  let template :=
    match template_file with
    | None => SerialHeader.join (SerialHeader.join (script_dir env) "Templates")
                "serial_number.h.template"
    | Some template_file => template_file
    end in
  let r := production_programming env serial_manager w csv_file template_file
             firmware_version programmed_by force verify reprogram in
  let n0 := (length buffer - 1) / UF2.interval in
  let once := UF2.marked_chunks m n0 buffer in
  let n1 := (length once - 1) / UF2.interval in
  let twice := UF2.marked_chunks m n1 once in
  SerialLedger.get_next_available_serial (ledger w) csv
  = SerialLedger.Returns (Some serial) ->
  Py.truthy serial = true ->
  (SerialHeader.generate_serial_header serial_manager (headers w) template
     "serial_number.h" serial firmware_version (header_write_ok env)).1
  = true ->
  configure env = true ->
  build env = (true, imgs) ->
  Deploy.get_uf2_path (deploy env) = Some path ->
  Py.truthy path = true ->
  imgs !! path = Some buffer ->
  Deploy.image_writable (deploy env) path = true ->
  UF2.encode_ascii (UF2.marker serial) = Some m ->
  images r.2 !! path = Some twice
  /\ (forall p, p <> path -> images r.2 !! p = imgs !! p)
  /\ length twice = length buffer + (S n0 + S n1) * length m.
Proof.
  cbv zeta. intros Hnext Hs Hgen Hconf Hbuild Hpath Hp Hbuf Hw Hm.
  unfold UF2.bytes in Hbuf.
  assert (Himgs : forall fs' : UF2.filesystem,
    fs' = <[path := UF2.marked_chunks m
                      ((length (UF2.marked_chunks m
                          ((length buffer - 1) / UF2.interval) buffer) - 1)
                       / UF2.interval)
                      (UF2.marked_chunks m
                         ((length buffer - 1) / UF2.interval) buffer)]>
            (<[path := UF2.marked_chunks m
                         ((length buffer - 1) / UF2.interval) buffer]> imgs) ->
    fs' !! path
    = Some (UF2.marked_chunks m
              ((length (UF2.marked_chunks m
                  ((length buffer - 1) / UF2.interval) buffer) - 1)
               / UF2.interval)
              (UF2.marked_chunks m ((length buffer - 1) / UF2.interval) buffer))
    /\ (forall p, p <> path -> fs' !! p = imgs !! p)).
  { intros fs' ->. split; [apply lookup_insert_eq|].
    intros p Hne. now rewrite !lookup_insert_ne by congruence. }
  split; [|split].
  3:{ rewrite !marked_chunks_length. lia. }
  all: unfold production_programming;
    rewrite Hnext; cbn [Py.truthy_opt negb default id]; rewrite Hs; cbn [negb];
    destruct (SerialHeader.generate_serial_header _ _ _ _ _ _ _)
      as [generated hs];
    cbn [fst] in Hgen; subst generated; cbn [negb];
    rewrite Hconf, Hbuild, Hpath; cbn [Py.truthy_opt negb default id];
    rewrite Hp; cbn [negb];
    rewrite modify_uf2_with_serial_effect_core, Hbuf, Hm, Hs, Hw;
    cbn [Py.truthy_opt negb]; rewrite Hp; cbn [negb];
    pose proof (deploy_firmware_files (deploy env)
                  (<[path := UF2.marked_chunks m
                               ((length buffer - 1) / UF2.interval) buffer]> imgs)
                  force (Some serial) verify reprogram) as Hfiles;
    rewrite Hpath in Hfiles; cbn [Py.truthy_opt default id] in Hfiles;
    rewrite Hp, Hs in Hfiles; cbn [andb] in Hfiles;
    rewrite modify_uf2_with_serial_effect_core, lookup_insert_eq, Hm, Hs, Hw
      in Hfiles;
    cbn [snd] in Hfiles;
    destruct (Deploy.deploy_firmware _ _ _ _ _ _) as [outcome imgs2];
    cbn [snd] in Hfiles;
    destruct (Himgs imgs2 Hfiles) as [H1 H2];
    destruct (Deploy.returns outcome); cbn [negb snd images];
    try destruct (SerialLedger.update_serial_number_in_csv _ _ _ _ _ _ _ _)
      as [updated ledger'];
    cbn [snd images]; first [exact H1 | exact H2].
Qed.

Lemma production_programming_embeds_twice_witness :
  let f := {| SerialLedger.header := ["serial_number"; "date_programmed";
                                      "firmware_version"; "programmed_by"];
              SerialLedger.rows := [ ["SN-2"; ""; ""; ""] ] |} in
  let env :=
    {| script_dir := "/app"; username := Some "ann"; clean := ∅;
       configure := true;
       build := (true, {[ "/app/build/fw.uf2" := [Byte.x55; Byte.x46] ]});
       deploy := {| Deploy.get_uf2_path := Some "/app/build/fw.uf2";
                    Deploy.get_elf_path := None;
                    Deploy.path_exists := fun _ => false;
                    Deploy.flash_with_picotool := fun _ => false;
                    Deploy.image_writable := fun _ => true;
                    Deploy.initial_ports := [];
                    Deploy.port_scans := [];
                    Deploy.set_first := fun _ => 0;
                    Deploy.serial_open := fun _ => None |};
       find_pico_drive := None; get_unique_board_id := fun _ => None;
       today := "2024-02-02"; header_write_ok := true;
       ledger_write_ok := true;
       board_ids_write_ok := true;
       repr_list := fun _ => "" |} in
  let w :=
    {| ledger := {[ "/app/serials.csv" := SerialLedger.Table f ]};
       headers := {[ "/app/Templates/serial_number.h.template"
                     := SerialHeader.Text "x" ]};
       images := ∅; board_ids := ∅ |} in
  let r := production_programming env (SerialHeader.init "/app" "/app/project")
             w "serials.csv" None "1.0.0" None false true false in
  exists m,
    UF2.encode_ascii (UF2.marker "SN-2") = Some m
    /\ images r.2 !! "/app/build/fw.uf2"
       = Some ([Byte.x55; Byte.x46] ++ m ++ m).
Proof.
  intros f env w r.
  destruct (UF2.encode_ascii (UF2.marker "SN-2")) as [m|] eqn:Hm;
    [|vm_compute in Hm; discriminate].
  exists m. split; [reflexivity|].
  destruct (production_programming_embeds_twice env
              (SerialHeader.init "/app" "/app/project") w "serials.csv" None
              "1.0.0" None false true false "SN-2"
              {[ "/app/build/fw.uf2" := [Byte.x55; Byte.x46] ]}
              "/app/build/fw.uf2" [Byte.x55; Byte.x46] m)
    as (Himg & _ & _).
  - vm_compute. reflexivity.
  - reflexivity.
  - vm_compute. reflexivity.
  - reflexivity.
  - reflexivity.
  - reflexivity.
  - reflexivity.
  - reflexivity.
  - reflexivity.
  - exact Hm.
  - etransitivity; [exact Himg|].
    vm_compute in Hm. injection Hm as <-. vm_compute. reflexivity.
Defined.

End ProductionFacts.
